(** * The gateway-api runner: reconciliation of provider resources

    A shallow embedding of [internal/gatewayapi/runner/runner.go]: the
    subscription handler of [subscribeAndTranslate], the teardown helpers
    [deleteAllIRKeys] and [deleteAllStatusKeys], the status bookkeeping of
    [getAllStatuses] and [deleteStatusKeys], and the stale-key diff
    [getIRKeysToDelete].

    Watchable maps are finite maps ([gmap]); Go maps used as sets
    ([map[K]bool], [sets.String]) are finite sets ([gset]).  The handler runs
    one event to completion, so it is written as a function from the runner's
    stores, the error channel and the log to their values when it returns;
    its result is [None] when it panics instead of returning. *)

From Stdlib Require Import String.
From stdpp Require Import base option list sorting gmap sets strings.

Open Scope string_scope.
Open Scope list_scope.

(** ** Keys *)

(** [k8s.io/apimachinery/pkg/types] *)
Module types.
Record NamespacedName := mkNamespacedName { Namespace : string; Name : string }.

#[global] Instance NamespacedName_eq_dec : EqDecision NamespacedName.
Proof. solve_decision. Defined.

#[global] Instance NamespacedName_countable : Countable NamespacedName :=
    inj_countable' (λ n, (Namespace n, Name n))
                   (λ p, mkNamespacedName p.1 p.2)
                   (λ n, match n with mkNamespacedName _ _ => eq_refl end).
End types.

(** [k8s.io/apimachinery/pkg/runtime/schema] *)
Module schema.
Record GroupVersionKind :=
    mkGroupVersionKind { Group : string; Version : string; Kind : string }.

#[global] Instance GroupVersionKind_eq_dec : EqDecision GroupVersionKind.
Proof. solve_decision. Defined.

#[global] Instance GroupVersionKind_countable : Countable GroupVersionKind :=
    inj_countable' (λ g, (Group g, Version g, Kind g))
                   (λ p, mkGroupVersionKind p.1.1 p.1.2 p.2)
                   (λ g, match g with mkGroupVersionKind _ _ _ => eq_refl end).
End schema.

(** [internal/message]: the composite key of the extension policies' status
    store, and the status stores of the provider resources (the thirteen
    watchable maps the runner writes). *)
Module message.
Record NamespacedNameAndGVK := mkNamespacedNameAndGVK {
    NamespacedName : types.NamespacedName;
    GroupVersionKind : schema.GroupVersionKind
  }.

#[global] Instance NamespacedNameAndGVK_eq_dec : EqDecision NamespacedNameAndGVK.
Proof. solve_decision. Defined.

#[global] Instance NamespacedNameAndGVK_countable : Countable NamespacedNameAndGVK :=
    inj_countable' (λ k, (NamespacedName k, GroupVersionKind k))
                   (λ p, mkNamespacedNameAndGVK p.1 p.2)
                   (λ k, match k with mkNamespacedNameAndGVK _ _ => eq_refl end).

Section stores.
Context {GatewayStatus RouteStatus PolicyStatus BackendStatus : Type}.

Record ProviderResources := mkProviderResources {
      (* Fields of GatewayAPIStatuses *)
      GatewayStatuses : gmap types.NamespacedName GatewayStatus;
      HTTPRouteStatuses : gmap types.NamespacedName RouteStatus;
      GRPCRouteStatuses : gmap types.NamespacedName RouteStatus;
      TLSRouteStatuses : gmap types.NamespacedName RouteStatus;
      TCPRouteStatuses : gmap types.NamespacedName RouteStatus;
      UDPRouteStatuses : gmap types.NamespacedName RouteStatus;
      BackendTLSPolicyStatuses : gmap types.NamespacedName PolicyStatus;
      (* Fields of PolicyStatuses *)
      ClientTrafficPolicyStatuses : gmap types.NamespacedName PolicyStatus;
      BackendTrafficPolicyStatuses : gmap types.NamespacedName PolicyStatus;
      SecurityPolicyStatuses : gmap types.NamespacedName PolicyStatus;
      EnvoyExtensionPolicyStatuses : gmap types.NamespacedName PolicyStatus;
      ExtensionPolicyStatuses : gmap NamespacedNameAndGVK PolicyStatus;
      BackendStatuses : gmap types.NamespacedName BackendStatus
    }.
End stores.
Arguments ProviderResources : clear implicits.
End message.

(** ** Objects *)

(** Go's [error], observed through its message. *)
Definition error : Type := string.

(** The method set of [ir.Infra] and [ir.Xds] the runner calls:
    [Validate] returns [None] for a nil error. *)
Class IR (T : Type) := { YAMLString : T → string; Validate : T → option error }.

(** [reflect.ValueOf(x).IsZero()] *)
Class Zero (T : Type) := IsZero : T → bool.

(** [client.Object], as far as [utils.NamespacedName] reads it. *)
Class ClientObject (T : Type) := { GetNamespace : T → string; GetName : T → string }.

(** A typed resource with its [Status] field. *)
Record Object (S : Type) := mkObject {
  ObjectNamespace : string;
  ObjectName : string;
  Status : S
}.
Arguments mkObject {S} _ _ _.
Arguments ObjectNamespace {S} _.
Arguments ObjectName {S} _.
Arguments Status {S} _.

#[global] Instance Object_client {S} : ClientObject (Object S) :=
  {| GetNamespace := ObjectNamespace; GetName := ObjectName |}.

(** [unstructured.Unstructured], as far as the runner reads it:
    [ObjectStatus] is [Object["status"]]. *)
Record Unstructured (U : Type) := mkUnstructured {
  UnstructuredNamespace : string;
  UnstructuredName : string;
  GroupVersionKind : schema.GroupVersionKind;
  ObjectStatus : U
}.
Arguments mkUnstructured {U} _ _ _ _.
Arguments UnstructuredNamespace {U} _.
Arguments UnstructuredName {U} _.
Arguments GroupVersionKind {U} _.
Arguments ObjectStatus {U} _.

#[global] Instance Unstructured_client {U} : ClientObject (Unstructured U) :=
  {| GetNamespace := UnstructuredNamespace; GetName := UnstructuredName |}.

(** The dynamic value of [Object["status"]], which Go types [any]: the nil
    interface (the object has no entry under "status", or a nil one), a
    [map[string]any], or a value of another type, which is the zero value of
    its type or not. *)
Inductive any (M : Type) :=
| Nil
| Map (m : M)
| Other (zero : bool).
Arguments Nil {M}.
Arguments Map {M} _.
Arguments Other {M} _.

(** [reflect.ValueOf(x).IsZero()] on an [x] of type [any].  [ValueOf] of the
    nil interface is the zero [Value], on which [IsZero] panics ([None]); a
    map is zero when it is the nil map. *)
Definition valueIsZero `{!Zero M} (x : any M) : option bool :=
  match x with
  | Nil => None
  | Map m => Some (IsZero m)
  | Other zero => Some zero
  end.

(** The type assertion [x.(map[string]any)], which panics ([None]) unless
    [x] holds a map. *)
Definition assertMap {M} (x : any M) : option M :=
  match x with
  | Map m => Some m
  | Nil | Other _ => None
  end.

(** A [for ... range] loop whose body can panic: the loop ends at the first
    iteration that does. *)
Fixpoint forEach {A B} (body : A → B → option A) (acc : A) (l : list B) : option A :=
  match l with
  | [] => Some acc
  | x :: l => acc ← body acc x; forEach body acc l
  end.

(** [internal/utils] *)
Module utils.
Definition NamespacedName `{ClientObject T} (obj : T) : types.NamespacedName :=
    types.mkNamespacedName (GetNamespace obj) (GetName obj).
End utils.

(** [internal/gatewayapi]: what a translation returns. *)
Module gatewayapi.
Section result.
Context {Infra Xds GatewayStatus RouteStatus PolicyStatus BackendStatus
             UnstructuredStatus : Type}.

Record TranslateResult := mkTranslateResult {
      InfraIR : gmap string Infra;
      XdsIR : gmap string Xds;
      Gateways : list (Object GatewayStatus);
      HTTPRoutes : list (Object RouteStatus);
      GRPCRoutes : list (Object RouteStatus);
      TLSRoutes : list (Object RouteStatus);
      TCPRoutes : list (Object RouteStatus);
      UDPRoutes : list (Object RouteStatus);
      BackendTLSPolicies : list (Object PolicyStatus);
      ClientTrafficPolicies : list (Object PolicyStatus);
      BackendTrafficPolicies : list (Object PolicyStatus);
      SecurityPolicies : list (Object PolicyStatus);
      EnvoyExtensionPolicies : list (Object PolicyStatus);
      Backends : list (Object BackendStatus);
      ExtensionServerPolicies : list (Unstructured UnstructuredStatus)
    }.
End result.
Arguments TranslateResult : clear implicits.
End gatewayapi.

(** [k8s.io/apimachinery/pkg/util/sets]: the string set.  [List] returns the
    members as a sorted slice; Go orders strings bytewise, which is
    [String.le] on Rocq strings. *)
Module sets.
Abbreviation String := (gset string).

Definition NewString (items : list string) : String := list_to_set items.

Definition Difference (s1 s2 : String) : String := s1 ∖ s2.

Definition List (s : String) : list string := merge_sort String.le (elements s).
End sets.

(** Strict bytewise order on strings. *)
Definition string_lt (s1 s2 : string) : Prop := String.ltb s1 s2.

(** getIRKeysToDelete returns the list of IR keys to delete based on the
    difference between the current keys and the new keys. *)
Definition getIRKeysToDelete (curKeys newKeys : list string) : list string :=
  let curSet := sets.NewString curKeys in
  let newSet := sets.NewString newKeys in
  let delSet := sets.Difference curSet newSet in
  sets.List delSet.

(** ** The runner *)

(** What the logger receives: [Info], [WithValues(key, value).Info] and
    [Error]. *)
Inductive LogEntry :=
| Info (msg : string)
| InfoValues (key value msg : string)
| Error (err : error) (msg : string).

(** [message.Update]: the subscription's only key is the controller name, so
    an update is its [Delete] flag and its [Value], a pointer ([None] is nil)
    to the controller's resource bundles. *)
Record Update (Resources : Type) := mkUpdate {
  Delete : bool;
  Value : option (list Resources)
}.
Arguments mkUpdate {Resources} _ _.
Arguments Delete {Resources} _.
Arguments Value {Resources} _.

(** The keys of every status store, kept as candidates for deletion. *)
Record StatusesToDelete := mkStatusesToDelete {
  GatewayStatusKeys : gset types.NamespacedName;
  HTTPRouteStatusKeys : gset types.NamespacedName;
  GRPCRouteStatusKeys : gset types.NamespacedName;
  TLSRouteStatusKeys : gset types.NamespacedName;
  TCPRouteStatusKeys : gset types.NamespacedName;
  UDPRouteStatusKeys : gset types.NamespacedName;
  BackendTLSPolicyStatusKeys : gset types.NamespacedName;

  ClientTrafficPolicyStatusKeys : gset types.NamespacedName;
  BackendTrafficPolicyStatusKeys : gset types.NamespacedName;
  SecurityPolicyStatusKeys : gset types.NamespacedName;
  EnvoyExtensionPolicyStatusKeys : gset types.NamespacedName;
  ExtensionServerPolicyStatusKeys : gset message.NamespacedNameAndGVK;

  BackendStatusKeys : gset types.NamespacedName
}.

(** Iteration over a Go map or over [LoadAll()] of a watchable map visits
    every entry once, in an order Go leaves open; [map_to_list] fixes one. *)
Definition keys `{Countable K} {V} (m : gmap K V) : list K := (map_to_list m).*1.

Section runner.
Context {Infra Xds : Type} `{!IR Infra, !IR Xds}.
Context {GatewayStatus RouteStatus PolicyStatus BackendStatus UnstructuredStatus : Type}.
Context `{!Zero PolicyStatus, !Zero BackendStatus, !Zero UnstructuredStatus}.
Context {Resources : Type}.

Abbreviation Result :=
  (gatewayapi.TranslateResult Infra Xds GatewayStatus RouteStatus PolicyStatus
                              BackendStatus (any UnstructuredStatus)).
Abbreviation Statuses :=
  (message.ProviderResources GatewayStatus RouteStatus PolicyStatus BackendStatus).

(** [unstructuredToPolicyStatus] takes a [map[string]any] through
    [json.Marshal] and [json.Unmarshal]; the conversion is a parameter, and
    [IsZero] on [UnstructuredStatus] tells the nil map. *)
Variable unstructuredToPolicyStatus : UnstructuredStatus → PolicyStatus.

(** [t.Translate(resources)], with the translator [t] built from the
    runner's configuration and the bundle. *)
Variable Translate : Resources → Result * option error.

(** Everything a handler invocation writes: the two IR stores, the status
    stores, the logger and the error channel of the subscription. *)
Record State := mkState {
  InfraIR : gmap string Infra;
  XdsIR : gmap string Xds;
  ProviderResources : Statuses;
  Logger : list LogEntry;
  errChan : list error
}.

Definition log (e : LogEntry) (s : State) : State :=
  mkState (InfraIR s) (XdsIR s) (ProviderResources s) (Logger s ++ [e]) (errChan s).

Definition send (err : error) (s : State) : State :=
  mkState (InfraIR s) (XdsIR s) (ProviderResources s) (Logger s) (errChan s ++ [err]).

Definition InfraIR_Store (key : string) (val : Infra) (s : State) : State :=
  mkState (<[key := val]> (InfraIR s)) (XdsIR s) (ProviderResources s) (Logger s) (errChan s).

Definition XdsIR_Store (key : string) (val : Xds) (s : State) : State :=
  mkState (InfraIR s) (<[key := val]> (XdsIR s)) (ProviderResources s) (Logger s) (errChan s).

Definition InfraIR_Delete (key : string) (s : State) : State :=
  mkState (delete key (InfraIR s)) (XdsIR s) (ProviderResources s) (Logger s) (errChan s).

Definition XdsIR_Delete (key : string) (s : State) : State :=
  mkState (InfraIR s) (delete key (XdsIR s)) (ProviderResources s) (Logger s) (errChan s).

Definition setProviderResources (p : Statuses) (s : State) : State :=
  mkState (InfraIR s) (XdsIR s) p (Logger s) (errChan s).

(** *** Publishing the IRs *)

(** The body of [for key, val := range result.InfraIR]; the accumulator
    carries [newIRKeys]. *)
Definition publishInfraIR (acc : State * list string) (kv : string * Infra)
  : State * list string :=
  let s := log (InfoValues "infra-ir" kv.1 (YAMLString kv.2)) acc.1 in
  match Validate kv.2 with
  | Some err =>
      (send err (log (Error err "unable to validate infra ir, skipped sending it") s),
       acc.2)
  | None => (InfraIR_Store kv.1 kv.2 s, acc.2 ++ [kv.1])
  end.

(** The body of [for key, val := range result.XdsIR]. *)
Definition publishXdsIR (s : State) (kv : string * Xds) : State :=
  let s := log (InfoValues "xds-ir" kv.1 (YAMLString kv.2)) s in
  match Validate kv.2 with
  | Some err =>
      send err (log (Error err "unable to validate xds ir, skipped sending it") s)
  | None => XdsIR_Store kv.1 kv.2 s
  end.

(** *** Updating the statuses *)

(** The body of the loops over gateways and routes:
    [Store(key, &x.Status)], then [delete(statusesToDelete.XKeys, key)]. *)
Definition storeStatus {S}
    (acc : gmap types.NamespacedName S * gset types.NamespacedName) (obj : Object S)
  : gmap types.NamespacedName S * gset types.NamespacedName :=
  let key := utils.NamespacedName obj in
  (<[key := Status obj]> acc.1, acc.2 ∖ {[key]}).

(** The body of the loops over policies and backends: the status is stored
    unless it is the zero value. *)
Definition storeNonZeroStatus {S} `{!Zero S}
    (acc : gmap types.NamespacedName S * gset types.NamespacedName) (obj : Object S)
  : gmap types.NamespacedName S * gset types.NamespacedName :=
  let key := utils.NamespacedName obj in
  (if negb (IsZero (Status obj)) then <[key := Status obj]> acc.1 else acc.1,
   acc.2 ∖ {[key]}).

(** The body of the loop over the extension server policies, whose status
    is the untyped [Object["status"]].  The body panics ([None]) when
    [IsZero] or the type assertion does; what the invocation wrote before
    the panic is not part of the result. *)
Definition storeExtensionPolicyStatus
    (acc : gmap message.NamespacedNameAndGVK PolicyStatus * gset message.NamespacedNameAndGVK)
    (extServerPolicy : Unstructured (any UnstructuredStatus))
  : option (gmap message.NamespacedNameAndGVK PolicyStatus
            * gset message.NamespacedNameAndGVK) :=
  let key := message.mkNamespacedNameAndGVK
               (utils.NamespacedName extServerPolicy)
               (GroupVersionKind extServerPolicy) in
  zero ← valueIsZero (ObjectStatus extServerPolicy);
  store ← (if negb zero
           then status ← assertMap (ObjectStatus extServerPolicy);
                Some (<[key := unstructuredToPolicyStatus status]> acc.1)
           else Some acc.1);
  Some (store, acc.2 ∖ {[key]}).

(** The thirteen status loops of one bundle, in the order of the source;
    the last one can panic. *)
Definition updateStatus (result : Result) (p : Statuses) (ds : StatusesToDelete)
  : option (Statuses * StatusesToDelete) :=
  let gateway := foldl storeStatus
    (message.GatewayStatuses p, GatewayStatusKeys ds) (gatewayapi.Gateways result) in
  let httpRoute := foldl storeStatus
    (message.HTTPRouteStatuses p, HTTPRouteStatusKeys ds) (gatewayapi.HTTPRoutes result) in
  let grpcRoute := foldl storeStatus
    (message.GRPCRouteStatuses p, GRPCRouteStatusKeys ds) (gatewayapi.GRPCRoutes result) in
  let tlsRoute := foldl storeStatus
    (message.TLSRouteStatuses p, TLSRouteStatusKeys ds) (gatewayapi.TLSRoutes result) in
  let tcpRoute := foldl storeStatus
    (message.TCPRouteStatuses p, TCPRouteStatusKeys ds) (gatewayapi.TCPRoutes result) in
  let udpRoute := foldl storeStatus
    (message.UDPRouteStatuses p, UDPRouteStatusKeys ds) (gatewayapi.UDPRoutes result) in
  let backendTLSPolicy := foldl storeNonZeroStatus
    (message.BackendTLSPolicyStatuses p, BackendTLSPolicyStatusKeys ds)
    (gatewayapi.BackendTLSPolicies result) in
  let clientTrafficPolicy := foldl storeNonZeroStatus
    (message.ClientTrafficPolicyStatuses p, ClientTrafficPolicyStatusKeys ds)
    (gatewayapi.ClientTrafficPolicies result) in
  let backendTrafficPolicy := foldl storeNonZeroStatus
    (message.BackendTrafficPolicyStatuses p, BackendTrafficPolicyStatusKeys ds)
    (gatewayapi.BackendTrafficPolicies result) in
  let securityPolicy := foldl storeNonZeroStatus
    (message.SecurityPolicyStatuses p, SecurityPolicyStatusKeys ds)
    (gatewayapi.SecurityPolicies result) in
  let envoyExtensionPolicy := foldl storeNonZeroStatus
    (message.EnvoyExtensionPolicyStatuses p, EnvoyExtensionPolicyStatusKeys ds)
    (gatewayapi.EnvoyExtensionPolicies result) in
  let backend := foldl storeNonZeroStatus
    (message.BackendStatuses p, BackendStatusKeys ds) (gatewayapi.Backends result) in
  extServerPolicy ← forEach storeExtensionPolicyStatus
    (message.ExtensionPolicyStatuses p, ExtensionServerPolicyStatusKeys ds)
    (gatewayapi.ExtensionServerPolicies result);
  Some
  (message.mkProviderResources
     gateway.1 httpRoute.1 grpcRoute.1 tlsRoute.1 tcpRoute.1 udpRoute.1
     backendTLSPolicy.1 clientTrafficPolicy.1 backendTrafficPolicy.1
     securityPolicy.1 envoyExtensionPolicy.1 extServerPolicy.1 backend.1,
   mkStatusesToDelete
     gateway.2 httpRoute.2 grpcRoute.2 tlsRoute.2 tcpRoute.2 udpRoute.2
     backendTLSPolicy.2 clientTrafficPolicy.2 backendTrafficPolicy.2
     securityPolicy.2 envoyExtensionPolicy.2 extServerPolicy.2 backend.2).

(** *** One bundle *)

(** The handler's locals that outlive a bundle: [newIRKeys] and
    [statusesToDelete]. *)
Record Generation := mkGeneration {
  state : State;
  newIRKeys : list string;
  statusesToDelete : StatusesToDelete
}.

(** [if err != nil { r.Logger.Error(err, ...) }] *)
Definition logTranslateError (err : option error) (s : State) : State :=
  match err with
  | Some err => log (Error err "errors detected during translation") s
  | None => s
  end.

(** The body of [for _, resources := range *val]. *)
Definition translateAndPublish (g : Generation) (resources : Resources)
  : option Generation :=
  let result := (Translate resources).1 in
  let err := (Translate resources).2 in
  let s := logTranslateError err (state g) in
  let infra := foldl publishInfraIR (s, newIRKeys g)
                     (map_to_list (gatewayapi.InfraIR result)) in
  let s := foldl publishXdsIR infra.1 (map_to_list (gatewayapi.XdsIR result)) in
  status ← updateStatus result (ProviderResources s) (statusesToDelete g);
  Some (mkGeneration (setProviderResources status.1 s) infra.2 status.2).

(** *** Teardown and cleanup *)

(** deleteAllIRKeys deletes all XdsIR and InfraIR *)
Definition deleteAllIRKeys (s : State) : State :=
  foldl (λ s key, XdsIR_Delete key (InfraIR_Delete key s)) s (keys (InfraIR s)).

(** [for key := range store.LoadAll() { store.Delete(key) }] *)
Definition deleteAll `{Countable K} {V} (store : gmap K V) : gmap K V :=
  foldl (λ m key, delete key m) store (keys store).

(** deleteAllStatusKeys deletes all status keys stored by the subscriber. *)
Definition deleteAllStatusKeys (s : State) : State :=
  let p := ProviderResources s in
  setProviderResources
    (message.mkProviderResources
       (* Fields of GatewayAPIStatuses *)
       (deleteAll (message.GatewayStatuses p))
       (deleteAll (message.HTTPRouteStatuses p))
       (deleteAll (message.GRPCRouteStatuses p))
       (deleteAll (message.TLSRouteStatuses p))
       (deleteAll (message.TCPRouteStatuses p))
       (deleteAll (message.UDPRouteStatuses p))
       (deleteAll (message.BackendTLSPolicyStatuses p))
       (* Fields of PolicyStatuses *)
       (deleteAll (message.ClientTrafficPolicyStatuses p))
       (deleteAll (message.BackendTrafficPolicyStatuses p))
       (deleteAll (message.SecurityPolicyStatuses p))
       (deleteAll (message.EnvoyExtensionPolicyStatuses p))
       (deleteAll (message.ExtensionPolicyStatuses p))
       (deleteAll (message.BackendStatuses p)))
    s.

(** [for key := range store.LoadAll() { ds.XKeys[key] = true }] *)
Definition statusKeys `{Countable K} {V} (store : gmap K V) : gset K :=
  foldl (λ ks key, {[key]} ∪ ks) ∅ (keys store).

(** getAllStatuses: the maps storing the status keys to be deleted.  The
    map of the extension server policies is made and left empty. *)
Definition getAllStatuses (s : State) : StatusesToDelete :=
  let p := ProviderResources s in
  {| GatewayStatusKeys := statusKeys (message.GatewayStatuses p);
     HTTPRouteStatusKeys := statusKeys (message.HTTPRouteStatuses p);
     GRPCRouteStatusKeys := statusKeys (message.GRPCRouteStatuses p);
     TLSRouteStatusKeys := statusKeys (message.TLSRouteStatuses p);
     TCPRouteStatusKeys := statusKeys (message.TCPRouteStatuses p);
     UDPRouteStatusKeys := statusKeys (message.UDPRouteStatuses p);
     BackendTLSPolicyStatusKeys := statusKeys (message.BackendTLSPolicyStatuses p);

     ClientTrafficPolicyStatusKeys := statusKeys (message.ClientTrafficPolicyStatuses p);
     BackendTrafficPolicyStatusKeys := statusKeys (message.BackendTrafficPolicyStatuses p);
     SecurityPolicyStatusKeys := statusKeys (message.SecurityPolicyStatuses p);
     EnvoyExtensionPolicyStatusKeys := statusKeys (message.EnvoyExtensionPolicyStatuses p);
     ExtensionServerPolicyStatusKeys := ∅;

     BackendStatusKeys := statusKeys (message.BackendStatuses p) |}.

(** [for key := range ds.XKeys { store.Delete(key); delete(ds.XKeys, key) }] *)
Definition deleteKeys `{Countable K} {V} (store : gmap K V) (ks : gset K)
  : gmap K V * gset K :=
  foldl (λ acc key, (delete key acc.1, acc.2 ∖ {[key]})) (store, ks) (elements ks).

Definition deleteStatusKeys (ds : StatusesToDelete) (s : State)
  : State * StatusesToDelete :=
  let p := ProviderResources s in
  let gateway := deleteKeys (message.GatewayStatuses p) (GatewayStatusKeys ds) in
  let httpRoute := deleteKeys (message.HTTPRouteStatuses p) (HTTPRouteStatusKeys ds) in
  let grpcRoute := deleteKeys (message.GRPCRouteStatuses p) (GRPCRouteStatusKeys ds) in
  let tlsRoute := deleteKeys (message.TLSRouteStatuses p) (TLSRouteStatusKeys ds) in
  let tcpRoute := deleteKeys (message.TCPRouteStatuses p) (TCPRouteStatusKeys ds) in
  let udpRoute := deleteKeys (message.UDPRouteStatuses p) (UDPRouteStatusKeys ds) in

  let clientTrafficPolicy :=
    deleteKeys (message.ClientTrafficPolicyStatuses p) (ClientTrafficPolicyStatusKeys ds) in
  let backendTrafficPolicy :=
    deleteKeys (message.BackendTrafficPolicyStatuses p) (BackendTrafficPolicyStatusKeys ds) in
  let securityPolicy :=
    deleteKeys (message.SecurityPolicyStatuses p) (SecurityPolicyStatusKeys ds) in
  let backendTLSPolicy :=
    deleteKeys (message.BackendTLSPolicyStatuses p) (BackendTLSPolicyStatusKeys ds) in
  let envoyExtensionPolicy :=
    deleteKeys (message.EnvoyExtensionPolicyStatuses p) (EnvoyExtensionPolicyStatusKeys ds) in
  let extServerPolicy :=
    deleteKeys (message.ExtensionPolicyStatuses p) (ExtensionServerPolicyStatusKeys ds) in
  let backend := deleteKeys (message.BackendStatuses p) (BackendStatusKeys ds) in
  (setProviderResources
     (message.mkProviderResources
        gateway.1 httpRoute.1 grpcRoute.1 tlsRoute.1 tcpRoute.1 udpRoute.1
        backendTLSPolicy.1 clientTrafficPolicy.1 backendTrafficPolicy.1
        securityPolicy.1 envoyExtensionPolicy.1 extServerPolicy.1 backend.1)
     s,
   mkStatusesToDelete
     gateway.2 httpRoute.2 grpcRoute.2 tlsRoute.2 tcpRoute.2 udpRoute.2
     backendTLSPolicy.2 clientTrafficPolicy.2 backendTrafficPolicy.2
     securityPolicy.2 envoyExtensionPolicy.2 extServerPolicy.2 backend.2).

(** [for _, key := range delKeys { r.InfraIR.Delete(key); r.XdsIR.Delete(key) }] *)
Definition deleteIRKeys (delKeys : list string) (s : State) : State :=
  foldl (λ s key, XdsIR_Delete key (InfraIR_Delete key s)) s delKeys.

(** *** The handler *)

(** The bundle loop of a value event, from the snapshot of the status keys
    to the end of the last bundle. *)
Definition translateAll (val : list Resources) (s : State) : option Generation :=
  forEach translateAndPublish (mkGeneration s [] (getAllStatuses s)) val.

(** The function handed to [message.HandleSubscription]. *)
Definition handle (update : Update Resources) (s : State) : option State :=
  let s := log (Info "received an update") s in
  match Delete update, Value update with
  | false, Some val =>
      (* Get current IR keys *)
      let curIRKeys := keys (InfraIR s) in
      g ← translateAll val s;
      (* Delete IR keys *)
      let delKeys := getIRKeysToDelete curIRKeys (newIRKeys g) in
      let s := deleteIRKeys delKeys (state g) in
      (* Delete status keys *)
      Some (deleteStatusKeys (statusesToDelete g) s).1
  | _, _ => Some (deleteAllStatusKeys (deleteAllIRKeys s))
  end.

(** [subscribeAndTranslate]: the updates of the subscription are handled one
    after the other until the subscription is closed.  The result is [None]
    when a handler panics: what [message.HandleSubscription] does with the
    panic is outside this file. *)
Definition subscribeAndTranslate (updates : list (Update Resources)) (s : State)
  : option State :=
  s ← forEach (λ s update, handle update s) s updates;
  Some (log (Info "shutting down") s).

End runner.

Arguments State : clear implicits.
Arguments Generation : clear implicits.

(** ** The wasm cache server

    [startWasmCache] and the two acquisitions it depends on.  The calls into
    the cluster, the file system, the TLS library and the cache server of
    [internal/wasm] are parameters; a fallible call returns a [result]. *)

Inductive result (A : Type) :=
| Ok (a : A)
| Err (err : error).
Arguments Ok {A} _.
Arguments Err {A} _.

Definition wasmCacheDir : string := "/var/lib/eg/wasm".
Definition serveTLSCertFilename : string := "/certs/tls.crt".
Definition serveTLSKeyFilename : string := "/certs/tls.key".
Definition serveTLSCaFilename : string := "/certs/ca.crt".

Definition hmacSecretName : string := "envoy-oidc-hmac".
Definition hmacSecretKey : string := "hmac-secret".

(** [corev1.Secret], as far as [hmac] reads it. *)
Record Secret := mkSecret { Data : gmap string (list Byte.byte) }.

(** [crypto/tls], as far as [tlsConfig] writes it. *)
Module tls.
Inductive ClientAuthType :=
| NoClientCert
| RequestClientCert
| RequireAnyClientCert
| VerifyClientCertIfGiven
| RequireAndVerifyClientCert.

(** [VersionTLS13 = 0x0304] *)
Definition VersionTLS13 : Z := 772.

Record Config (Certificate CertPool : Type) := mkConfig {
  Certificates : list Certificate;
  ClientAuth : ClientAuthType;
  ClientCAs : CertPool;
  MinVersion : Z
}.
Arguments mkConfig {Certificate CertPool} _ _ _ _.
Arguments Certificates {Certificate CertPool} _.
Arguments ClientAuth {Certificate CertPool} _.
Arguments ClientCAs {Certificate CertPool} _.
Arguments MinVersion {Certificate CertPool} _.
End tls.

(** [internal/wasm]: the options [NewHTTPServerWithFileCache] takes. *)
Module wasm.
Record SeverOptions (Certificate CertPool : Type) := mkSeverOptions {
  Salt : list Byte.byte;
  TLSConfig : tls.Config Certificate CertPool
}.
Arguments mkSeverOptions {Certificate CertPool} _ _.
Arguments Salt {Certificate CertPool} _.
Arguments TLSConfig {Certificate CertPool} _.

Record CacheOptions := mkCacheOptions { CacheDir : string }.
End wasm.

Module bootstrap.
Section calls.
Context {RestConfig Clientset Certificate CertPool FS Cache : Type}.

(** [ctrl.GetConfig()] *)
Variable GetConfig : result RestConfig.
(** [kubernetes.NewForConfig(cfg)] *)
Variable NewForConfig : RestConfig → result Clientset.
(** [client.CoreV1().Secrets(namespace).Get(ctx, name, metav1.GetOptions{})] *)
Variable SecretsGet : Clientset → string → string → result Secret.
(** [kerrors.IsNotFound(err)] *)
Variable IsNotFound : error → bool.
(** [tls.LoadX509KeyPair(certFile, keyFile)] *)
Variable LoadX509KeyPair : string → string → result Certificate.
(** [os.ReadFile(name)] *)
Variable ReadFile : string → result (list Byte.byte).
(** [x509.NewCertPool()] and [pool.AppendCertsFromPEM(pemCerts)], which
    returns the pool it has extended and whether a certificate was parsed. *)
Variable NewCertPool : CertPool.
Variable AppendCertsFromPEM : CertPool → list Byte.byte → CertPool * bool.
(** [fileutils.CreateIfNotExists(path, isDir)] on a file system. *)
Variable CreateIfNotExists : FS → string → bool → FS * option error.
(** [wasm.NewHTTPServerWithFileCache(serverOptions, cacheOptions, logger)]:
    the cache server it builds, which keeps the logger, and what building it
    makes of the file system and of the log. *)
Variable NewHTTPServerWithFileCache :
  wasm.SeverOptions Certificate CertPool → wasm.CacheOptions →
  FS * list LogEntry → Cache * (FS * list LogEntry).
(** [cache.Start(ctx)]: what starting the cache server makes of the file
    system and of the log. *)
Variable Start : Cache → FS * list LogEntry → FS * list LogEntry.

(** hmac returns the HMAC secret generated by the CertGen job. *)
Definition hmac (namespace : string) : result (list Byte.byte) :=
  match GetConfig with
  | Err err => Err err
  | Ok cfg =>
      match NewForConfig cfg with
      | Err err => Err err
      | Ok client =>
          match SecretsGet client namespace hmacSecretName with
          | Err err =>
              if IsNotFound err
              then Err ("HMAC secret " +:+ namespace +:+ "/" +:+ hmacSecretName
                        +:+ " not found")
              else Err err
          | Ok secret =>
              match Data secret !! hmacSecretKey with
              | Some hmac =>
                  if decide (length hmac = 0%nat)
                  then Err ("HMAC secret not found in secret " +:+ namespace +:+ "/"
                            +:+ hmacSecretName)
                  else Ok hmac
              | None =>
                  Err ("HMAC secret not found in secret " +:+ namespace +:+ "/"
                       +:+ hmacSecretName)
              end
          end
      end
  end.

Definition tlsConfig : result (tls.Config Certificate CertPool) :=
  (* Load server's certificate and private key *)
  match LoadX509KeyPair serveTLSCertFilename serveTLSKeyFilename with
  | Err err => Err err
  | Ok serverCert =>
      (* Load client's CA certificate *)
      match ReadFile serveTLSCaFilename with
      | Err err => Err err
      | Ok caCert =>
          let caCertPool := AppendCertsFromPEM NewCertPool caCert in
          if negb caCertPool.2
          then Err "failed to parse CA certificate"
          else
            (* Configure the server to require client certificates *)
            Ok (tls.mkConfig [serverCert] tls.RequireAndVerifyClientCert
                             caCertPool.1 tls.VersionTLS13)
      end
  end.

(** What [startWasmCache] writes: the file system, the runner's
    [wasmCache] ([None] is nil) and the logger. *)
Record Host := mkHost {
  fs : FS;
  wasmCache : option Cache;
  Logger : list LogEntry
}.

Definition startWasmCache (namespace : string) (h : Host) : Host :=
  match hmac namespace with
  | Err err =>
      mkHost (fs h) (wasmCache h) (Logger h ++ [Error err "failed to get hmac secret"])
  | Ok salt =>
      match tlsConfig with
      | Err err =>
          mkHost (fs h) (wasmCache h)
                 (Logger h ++ [Error err "failed to create tls config"])
      | Ok tlsConfig =>
          (* Create the file directory if it does not exist. *)
          let created := CreateIfNotExists (fs h) wasmCacheDir true in
          match created.2 with
          | Some err =>
              mkHost created.1 (wasmCache h)
                     (Logger h ++ [Error err "Failed to create Wasm cache directory"])
          | None =>
              let built := NewHTTPServerWithFileCache
                             (* HTTP server options *)
                             (wasm.mkSeverOptions salt tlsConfig)
                             (* Wasm cache options *)
                             (wasm.mkCacheOptions wasmCacheDir)
                             (created.1, Logger h) in
              let started := Start built.1 built.2 in
              mkHost started.1 (Some built.1) started.2
          end
      end
  end.

End calls.
Arguments Host : clear implicits.
End bootstrap.

(** ** An invocation that returns

    The handler along an invocation in which the loop over the extension
    server policies does not panic: [storedStatus] gives the status that
    loop stores for a value of [Object["status"]], if it stores one.
    [handle] returns what these functions compute whenever it returns
    (lemma [handle_returned]); the properties of [handle] are derived from
    theirs. *)
Module returned.
Section returning.
Context {Infra Xds : Type} `{!IR Infra, !IR Xds}.
Context {GatewayStatus RouteStatus PolicyStatus BackendStatus UnstructuredStatus : Type}.
Context `{!Zero PolicyStatus, !Zero BackendStatus}.
Context {Resources : Type}.

Abbreviation Result :=
  (gatewayapi.TranslateResult Infra Xds GatewayStatus RouteStatus PolicyStatus
                              BackendStatus UnstructuredStatus).
Abbreviation Statuses :=
  (message.ProviderResources GatewayStatus RouteStatus PolicyStatus BackendStatus).
Abbreviation State :=
  (State Infra Xds GatewayStatus RouteStatus PolicyStatus BackendStatus).
Abbreviation Generation :=
  (Generation Infra Xds GatewayStatus RouteStatus PolicyStatus BackendStatus).

Variable storedStatus : UnstructuredStatus → option PolicyStatus.
Variable Translate : Resources → Result * option error.

(** The body of the loop over the extension server policies. *)
Definition storeExtensionPolicyStatus
    (acc : gmap message.NamespacedNameAndGVK PolicyStatus * gset message.NamespacedNameAndGVK)
    (extServerPolicy : Unstructured UnstructuredStatus)
  : gmap message.NamespacedNameAndGVK PolicyStatus * gset message.NamespacedNameAndGVK :=
  let key := message.mkNamespacedNameAndGVK
               (utils.NamespacedName extServerPolicy)
               (GroupVersionKind extServerPolicy) in
  (match storedStatus (ObjectStatus extServerPolicy) with
   | Some policyStatus => <[key := policyStatus]> acc.1
   | None => acc.1
   end,
   acc.2 ∖ {[key]}).

(** The thirteen status loops of one bundle, in the order of the source. *)
Definition updateStatus (result : Result) (p : Statuses) (ds : StatusesToDelete)
  : Statuses * StatusesToDelete :=
  let gateway := foldl storeStatus
    (message.GatewayStatuses p, GatewayStatusKeys ds) (gatewayapi.Gateways result) in
  let httpRoute := foldl storeStatus
    (message.HTTPRouteStatuses p, HTTPRouteStatusKeys ds) (gatewayapi.HTTPRoutes result) in
  let grpcRoute := foldl storeStatus
    (message.GRPCRouteStatuses p, GRPCRouteStatusKeys ds) (gatewayapi.GRPCRoutes result) in
  let tlsRoute := foldl storeStatus
    (message.TLSRouteStatuses p, TLSRouteStatusKeys ds) (gatewayapi.TLSRoutes result) in
  let tcpRoute := foldl storeStatus
    (message.TCPRouteStatuses p, TCPRouteStatusKeys ds) (gatewayapi.TCPRoutes result) in
  let udpRoute := foldl storeStatus
    (message.UDPRouteStatuses p, UDPRouteStatusKeys ds) (gatewayapi.UDPRoutes result) in
  let backendTLSPolicy := foldl storeNonZeroStatus
    (message.BackendTLSPolicyStatuses p, BackendTLSPolicyStatusKeys ds)
    (gatewayapi.BackendTLSPolicies result) in
  let clientTrafficPolicy := foldl storeNonZeroStatus
    (message.ClientTrafficPolicyStatuses p, ClientTrafficPolicyStatusKeys ds)
    (gatewayapi.ClientTrafficPolicies result) in
  let backendTrafficPolicy := foldl storeNonZeroStatus
    (message.BackendTrafficPolicyStatuses p, BackendTrafficPolicyStatusKeys ds)
    (gatewayapi.BackendTrafficPolicies result) in
  let securityPolicy := foldl storeNonZeroStatus
    (message.SecurityPolicyStatuses p, SecurityPolicyStatusKeys ds)
    (gatewayapi.SecurityPolicies result) in
  let envoyExtensionPolicy := foldl storeNonZeroStatus
    (message.EnvoyExtensionPolicyStatuses p, EnvoyExtensionPolicyStatusKeys ds)
    (gatewayapi.EnvoyExtensionPolicies result) in
  let backend := foldl storeNonZeroStatus
    (message.BackendStatuses p, BackendStatusKeys ds) (gatewayapi.Backends result) in
  let extServerPolicy := foldl storeExtensionPolicyStatus
    (message.ExtensionPolicyStatuses p, ExtensionServerPolicyStatusKeys ds)
    (gatewayapi.ExtensionServerPolicies result) in
  (message.mkProviderResources
     gateway.1 httpRoute.1 grpcRoute.1 tlsRoute.1 tcpRoute.1 udpRoute.1
     backendTLSPolicy.1 clientTrafficPolicy.1 backendTrafficPolicy.1
     securityPolicy.1 envoyExtensionPolicy.1 extServerPolicy.1 backend.1,
   mkStatusesToDelete
     gateway.2 httpRoute.2 grpcRoute.2 tlsRoute.2 tcpRoute.2 udpRoute.2
     backendTLSPolicy.2 clientTrafficPolicy.2 backendTrafficPolicy.2
     securityPolicy.2 envoyExtensionPolicy.2 extServerPolicy.2 backend.2).

(** The body of [for _, resources := range *val]. *)
Definition translateAndPublish (g : Generation) (resources : Resources) : Generation :=
  let result := (Translate resources).1 in
  let err := (Translate resources).2 in
  let s := logTranslateError err (state g) in
  let infra := foldl publishInfraIR (s, newIRKeys g)
                     (map_to_list (gatewayapi.InfraIR result)) in
  let s := foldl publishXdsIR infra.1 (map_to_list (gatewayapi.XdsIR result)) in
  let status := updateStatus result (ProviderResources s) (statusesToDelete g) in
  mkGeneration (setProviderResources status.1 s) infra.2 status.2.

(** The bundle loop of a value event. *)
Definition translateAll (val : list Resources) (s : State) : Generation :=
  foldl translateAndPublish (mkGeneration s [] (getAllStatuses s)) val.

(** The handler's state and locals of a value event at the end of the
    bundle loop, before the cleanup. *)
Definition afterBundles (val : list Resources) (s : State) : Generation :=
  translateAll val (log (Info "received an update") s).

Definition handle (update : Update Resources) (s : State) : State :=
  let s := log (Info "received an update") s in
  match Delete update, Value update with
  | false, Some val =>
      let curIRKeys := keys (InfraIR s) in
      let g := translateAll val s in
      let delKeys := getIRKeysToDelete curIRKeys (newIRKeys g) in
      let s := deleteIRKeys delKeys (state g) in
      (deleteStatusKeys (statusesToDelete g) s).1
  | _, _ => deleteAllStatusKeys (deleteAllIRKeys s)
  end.

Definition subscribeAndTranslate (updates : list (Update Resources)) (s : State) : State :=
  log (Info "shutting down") (foldl (λ s update, handle update s) s updates).

End returning.
End returned.

(** ** Vocabulary of the properties *)

(** The entries of a translated IR map that pass validation, and their keys. *)
Definition validEntries `{!IR T} (m : gmap string T) : gmap string T :=
  filter (λ kv, Validate kv.2 = None) m.

Definition validKeys `{!IR T} (m : gmap string T) : gset string := dom (validEntries m).

(** The errors of the entries of a list that fail validation, in order. *)
Definition validationErrors `{!IR T} (l : list (string * T)) : list error :=
  omap (λ kv, Validate kv.2) l.

(** The keys of the entries of a list that pass validation, in order. *)
Definition validatedKeys `{!IR T} (l : list (string * T)) : list string :=
  (filter (λ kv, Validate kv.2 = None) l).*1.

(** The effect of a list of writes on a status store and on its
    candidates for deletion. *)
Definition applyWrites `{Countable K} {V} (acc : gmap K V * gset K)
    (ws : list (K * option V)) : gmap K V * gset K :=
  foldl (λ acc w, (match w.2 with Some v => <[w.1 := v]> acc.1 | None => acc.1 end,
                   acc.2 ∖ {[w.1]})) acc ws.

(** The last status written under a key by a list of writes, if any. *)
Definition lastWrite `{EqDecision K} {V} (k : K) (ws : list (K * option V)) : option V :=
  last (omap (λ w, if decide (w.1 = k) then w.2 else None) ws).

(** The resources of one kind over all the bundles of a generation, in the
    order the status loops visit them. *)
Definition generationObjects {Resources R A} (Translate : Resources → R * option error)
    (field : R → list A) (val : list Resources) : list A :=
  val ≫= λ resources, field (Translate resources).1.

(** A write of a status loop, from the key, the emptiness and the stored
    value of a resource. *)
Definition writeOf {A K V} (key : A → K) (empty : A → bool) (value : A → V) (obj : A)
  : K * option V :=
  (key obj, if empty obj then None else Some (value obj)).

(** The key of an extension server policy in its status store. *)
Definition extensionPolicyKey {U} (obj : Unstructured U) : message.NamespacedNameAndGVK :=
  message.mkNamespacedNameAndGVK (utils.NamespacedName obj) (GroupVersionKind obj).

(** A status store keeps or takes the status of the resources of a
    generation: the entry of a resource's key is what it was before when
    every resource with that key has an empty status, and it is the status
    of the last resource with that key whose status is not empty
    otherwise. *)
Definition statusKept {A V} `{Countable K} (key : A → K) (empty : A → bool)
    (value : A → V) (objs : list A) (before after : gmap K V) : Prop :=
  ∀ obj, obj ∈ objs →
    ((∀ o, o ∈ objs → key o = key obj → empty o = true) →
     after !! key obj = before !! key obj) ∧
    (∀ pre post, objs = pre ++ obj :: post → empty obj = false →
       (∀ o, o ∈ post → key o = key obj → empty o = true) →
       after !! key obj = Some (value obj)).

(** A status store takes the status of the resources of a generation,
    empty or not: the entry of a resource's key is the status of the last
    resource with that key. *)
Definition statusOverwritten {A V} `{Countable K} (key : A → K) (value : A → V)
    (objs : list A) (after : gmap K V) : Prop :=
  ∀ pre obj post, objs = pre ++ obj :: post →
    (∀ o, o ∈ post → key o ≠ key obj) →
    after !! key obj = Some (value obj).

(** The keys that pass validation in some bundle of a generation. *)
Definition generationKeys {Resources R T} `{!IR T}
    (Translate : Resources → R * option error)
    (field : R → gmap string T) (val : list Resources) : gset string :=
  ⋃ ((λ resources, validKeys (field (Translate resources).1)) <$> val).

(** The validation errors of a generation, bundle after bundle: those of the
    InfraIR entries of a bundle, then those of its XdsIR entries. *)
Definition generationErrors {Resources Infra Xds G R P B U} `{!IR Infra, !IR Xds}
    (Translate : Resources → gatewayapi.TranslateResult Infra Xds G R P B U * option error)
    (val : list Resources) : list error :=
  val ≫= λ resources,
    validationErrors (map_to_list (gatewayapi.InfraIR (Translate resources).1))
    ++ validationErrors (map_to_list (gatewayapi.XdsIR (Translate resources).1)).

(** The handler's state and locals of a value event at the end of the
    bundle loop, before the cleanup. *)
Definition afterBundles {Infra Xds G R P B U Resources}
    `{!IR Infra, !IR Xds, !Zero P, !Zero B, !Zero U} (convert : U → P)
    (Translate : Resources →
                 gatewayapi.TranslateResult Infra Xds G R P B (any U) * option error)
    (val : list Resources) (s : State Infra Xds G R P B)
  : option (Generation Infra Xds G R P B) :=
  translateAll convert Translate val (log (Info "received an update") s).

(** The values of [Object["status"]] on which the loop over the extension
    server policies panics: the nil interface, and a value that is neither
    a map nor the zero value of its type. *)
Definition panics {M} (x : any M) : bool :=
  match x with
  | Nil => true
  | Map _ => false
  | Other zero => negb zero
  end.

(** A bundle, a snapshot, an update or a sequence of updates with an
    extension server policy whose status makes the loop panic. *)
Definition bundlePanics {Resources Infra Xds G R P B U}
    (Translate : Resources →
                 gatewayapi.TranslateResult Infra Xds G R P B (any U) * option error)
    (resources : Resources) : bool :=
  existsb (λ obj, panics (ObjectStatus obj))
          (gatewayapi.ExtensionServerPolicies (Translate resources).1).

Definition generationPanics {Resources Infra Xds G R P B U}
    (Translate : Resources →
                 gatewayapi.TranslateResult Infra Xds G R P B (any U) * option error)
    (val : list Resources) : bool :=
  existsb (bundlePanics Translate) val.

Definition updatePanics {Resources Infra Xds G R P B U}
    (Translate : Resources →
                 gatewayapi.TranslateResult Infra Xds G R P B (any U) * option error)
    (update : Update Resources) : bool :=
  match Delete update, Value update with
  | false, Some val => generationPanics Translate val
  | _, _ => false
  end.

Definition runPanics {Resources Infra Xds G R P B U}
    (Translate : Resources →
                 gatewayapi.TranslateResult Infra Xds G R P B (any U) * option error)
    (updates : list (Update Resources)) : bool :=
  existsb (updatePanics Translate) updates.

(** The status the loop over the extension server policies stores for a
    value of [Object["status"]] on which it does not panic: the conversion
    of a map that is not nil, and nothing for a zero value. *)
Definition statusToStore {M P} `{!Zero M} (convert : M → P) (x : any M) : option P :=
  match x with
  | Map m => if IsZero m then None else Some (convert m)
  | Nil | Other _ => None
  end.

(** The write of the loop over the extension server policies. *)
Definition extensionWrite {U P} (storedStatus : U → option P) (obj : Unstructured U)
  : message.NamespacedNameAndGVK * option P :=
  (extensionPolicyKey obj, storedStatus (ObjectStatus obj)).

(** A status store loses the entries of the resources that left: an entry
    present before the generation is absent after it exactly when no
    resource of the generation has its key. *)
Definition staleStatusDeleted {A V} `{Countable K} (key : A → K) (objs : list A)
    (before after : gmap K V) : Prop :=
  ∀ k, is_Some (before !! k) → (after !! k = None ↔ k ∉ key <$> objs).

(** What [deleteKeys] leaves of a store. *)
Definition withoutKeys `{Countable K} {V} (ks : gset K) (store : gmap K V) : gmap K V :=
  filter (λ kv, kv.1 ∉ ks) store.


(** The status store of the extension server policies keeps or takes the
    status of the resources of a generation: the entry of a resource's key
    is what it was before when the value under "status" of every resource
    with that key is a zero value, and it is the conversion of the last
    resource with that key whose status is a map that is not nil
    otherwise. *)
Definition extensionStatusKept {M P} `{!Zero M} (convert : M → P)
    (objs : list (Unstructured (any M)))
    (before after : gmap message.NamespacedNameAndGVK P) : Prop :=
  ∀ obj, obj ∈ objs →
    ((∀ o, o ∈ objs → extensionPolicyKey o = extensionPolicyKey obj →
           valueIsZero (ObjectStatus o) = Some true) →
     after !! extensionPolicyKey obj = before !! extensionPolicyKey obj) ∧
    (∀ pre post m, objs = pre ++ obj :: post →
       ObjectStatus obj = Map m → IsZero m = false →
       (∀ o, o ∈ post → extensionPolicyKey o = extensionPolicyKey obj →
             valueIsZero (ObjectStatus o) = Some true) →
       after !! extensionPolicyKey obj = Some (convert m)).

(** The thirteen status stores [p'] after a generation, given the stores [p]
    before it: the stores of the gateways and of the routes take the
    statuses of the generation's resources, the other stores keep or take
    them. *)
Definition statusesUpdated {Resources Infra Xds G R P B U} `{!Zero P, !Zero B, !Zero U}
    (convert : U → P)
    (Translate : Resources →
                 gatewayapi.TranslateResult Infra Xds G R P B (any U) * option error)
    (val : list Resources) (p p' : message.ProviderResources G R P B) : Prop :=
  (statusOverwritten utils.NamespacedName Status
     (generationObjects Translate gatewayapi.Gateways val) (message.GatewayStatuses p') ∧
   statusOverwritten utils.NamespacedName Status
     (generationObjects Translate gatewayapi.HTTPRoutes val) (message.HTTPRouteStatuses p') ∧
   statusOverwritten utils.NamespacedName Status
     (generationObjects Translate gatewayapi.GRPCRoutes val) (message.GRPCRouteStatuses p') ∧
   statusOverwritten utils.NamespacedName Status
     (generationObjects Translate gatewayapi.TLSRoutes val) (message.TLSRouteStatuses p') ∧
   statusOverwritten utils.NamespacedName Status
     (generationObjects Translate gatewayapi.TCPRoutes val) (message.TCPRouteStatuses p') ∧
   statusOverwritten utils.NamespacedName Status
     (generationObjects Translate gatewayapi.UDPRoutes val) (message.UDPRouteStatuses p')) ∧
  (statusKept utils.NamespacedName (λ o, IsZero (Status o)) Status
     (generationObjects Translate gatewayapi.BackendTLSPolicies val)
     (message.BackendTLSPolicyStatuses p) (message.BackendTLSPolicyStatuses p') ∧
   statusKept utils.NamespacedName (λ o, IsZero (Status o)) Status
     (generationObjects Translate gatewayapi.ClientTrafficPolicies val)
     (message.ClientTrafficPolicyStatuses p) (message.ClientTrafficPolicyStatuses p') ∧
   statusKept utils.NamespacedName (λ o, IsZero (Status o)) Status
     (generationObjects Translate gatewayapi.BackendTrafficPolicies val)
     (message.BackendTrafficPolicyStatuses p) (message.BackendTrafficPolicyStatuses p') ∧
   statusKept utils.NamespacedName (λ o, IsZero (Status o)) Status
     (generationObjects Translate gatewayapi.SecurityPolicies val)
     (message.SecurityPolicyStatuses p) (message.SecurityPolicyStatuses p') ∧
   statusKept utils.NamespacedName (λ o, IsZero (Status o)) Status
     (generationObjects Translate gatewayapi.EnvoyExtensionPolicies val)
     (message.EnvoyExtensionPolicyStatuses p) (message.EnvoyExtensionPolicyStatuses p') ∧
   statusKept utils.NamespacedName (λ o, IsZero (Status o)) Status
     (generationObjects Translate gatewayapi.Backends val)
     (message.BackendStatuses p) (message.BackendStatuses p') ∧
   extensionStatusKept convert
     (generationObjects Translate gatewayapi.ExtensionServerPolicies val)
     (message.ExtensionPolicyStatuses p) (message.ExtensionPolicyStatuses p')).

(** The twelve status stores whose keys [getAllStatuses] snapshots lose
    the entries of the resources that left. *)
Definition staleStatusesDeleted {Resources Infra Xds G R P B U}
    (Translate : Resources →
                 gatewayapi.TranslateResult Infra Xds G R P B U * option error)
    (val : list Resources) (p p' : message.ProviderResources G R P B) : Prop :=
  staleStatusDeleted utils.NamespacedName
    (generationObjects Translate gatewayapi.Gateways val)
    (message.GatewayStatuses p) (message.GatewayStatuses p') ∧
  staleStatusDeleted utils.NamespacedName
    (generationObjects Translate gatewayapi.HTTPRoutes val)
    (message.HTTPRouteStatuses p) (message.HTTPRouteStatuses p') ∧
  staleStatusDeleted utils.NamespacedName
    (generationObjects Translate gatewayapi.GRPCRoutes val)
    (message.GRPCRouteStatuses p) (message.GRPCRouteStatuses p') ∧
  staleStatusDeleted utils.NamespacedName
    (generationObjects Translate gatewayapi.TLSRoutes val)
    (message.TLSRouteStatuses p) (message.TLSRouteStatuses p') ∧
  staleStatusDeleted utils.NamespacedName
    (generationObjects Translate gatewayapi.TCPRoutes val)
    (message.TCPRouteStatuses p) (message.TCPRouteStatuses p') ∧
  staleStatusDeleted utils.NamespacedName
    (generationObjects Translate gatewayapi.UDPRoutes val)
    (message.UDPRouteStatuses p) (message.UDPRouteStatuses p') ∧
  staleStatusDeleted utils.NamespacedName
    (generationObjects Translate gatewayapi.BackendTLSPolicies val)
    (message.BackendTLSPolicyStatuses p) (message.BackendTLSPolicyStatuses p') ∧
  staleStatusDeleted utils.NamespacedName
    (generationObjects Translate gatewayapi.ClientTrafficPolicies val)
    (message.ClientTrafficPolicyStatuses p) (message.ClientTrafficPolicyStatuses p') ∧
  staleStatusDeleted utils.NamespacedName
    (generationObjects Translate gatewayapi.BackendTrafficPolicies val)
    (message.BackendTrafficPolicyStatuses p) (message.BackendTrafficPolicyStatuses p') ∧
  staleStatusDeleted utils.NamespacedName
    (generationObjects Translate gatewayapi.SecurityPolicies val)
    (message.SecurityPolicyStatuses p) (message.SecurityPolicyStatuses p') ∧
  staleStatusDeleted utils.NamespacedName
    (generationObjects Translate gatewayapi.EnvoyExtensionPolicies val)
    (message.EnvoyExtensionPolicyStatuses p) (message.EnvoyExtensionPolicyStatuses p') ∧
  staleStatusDeleted utils.NamespacedName
    (generationObjects Translate gatewayapi.Backends val)
    (message.BackendStatuses p) (message.BackendStatuses p').


(** ** Sample collaborators

    Small instances of the external types, used to run the handler on
    concrete updates: an IR entry that validates or not, a status that is
    zero or not (as a map, [NoStatus] is the nil map), and a translator that
    returns the bundle it is given. *)

Inductive SampleIR := ValidIR (n : nat) | InvalidIR.

#[global] Instance SampleIR_IR : IR SampleIR :=
  {| YAMLString _ := "ir";
     Validate v := match v with ValidIR _ => None | InvalidIR => Some "invalid ir" end |}.

Inductive SampleStatus := NoStatus | Accepted | Rejected.

#[global] Instance SampleStatus_Zero : Zero SampleStatus :=
  λ st, match st with NoStatus => true | _ => false end.

Abbreviation SampleResult :=
  (gatewayapi.TranslateResult SampleIR SampleIR SampleStatus SampleStatus SampleStatus
                              SampleStatus (any SampleStatus)).
Abbreviation SampleState :=
  (State SampleIR SampleIR SampleStatus SampleStatus SampleStatus SampleStatus).

Definition sampleTranslate (resources : SampleResult * option error)
  : SampleResult * option error := resources.

Definition sampleHandle (update : Update (SampleResult * option error)) (s : SampleState)
  : option SampleState :=
  handle (λ st : SampleStatus, st) sampleTranslate update s.

Definition sampleAfterBundles (val : list (SampleResult * option error)) (s : SampleState)
  : option (Generation SampleIR SampleIR SampleStatus SampleStatus SampleStatus
                       SampleStatus) :=
  afterBundles (λ st : SampleStatus, st) sampleTranslate val s.

Definition emptyGeneration
  : Generation SampleIR SampleIR SampleStatus SampleStatus SampleStatus SampleStatus :=
  mkGeneration (mkState ∅ ∅ (message.mkProviderResources ∅ ∅ ∅ ∅ ∅ ∅ ∅ ∅ ∅ ∅ ∅ ∅ ∅) [] [])
               [] (mkStatusesToDelete ∅ ∅ ∅ ∅ ∅ ∅ ∅ ∅ ∅ ∅ ∅ ∅ ∅).

Definition sampleRun (updates : list (Update (SampleResult * option error)))
    (s : SampleState) : option SampleState :=
  subscribeAndTranslate (λ st : SampleStatus, st) sampleTranslate updates s.

Definition emptyStatuses : message.ProviderResources SampleStatus SampleStatus SampleStatus SampleStatus :=
  message.mkProviderResources ∅ ∅ ∅ ∅ ∅ ∅ ∅ ∅ ∅ ∅ ∅ ∅ ∅.

Definition emptyState : SampleState := mkState ∅ ∅ emptyStatuses [] [].

Definition emptyResult : SampleResult :=
  gatewayapi.mkTranslateResult ∅ ∅ [] [] [] [] [] [] [] [] [] [] [] [] [].

(** A bundle whose translation is the IR pair of one gateway. *)
Definition gatewayBundle (key : string) (infra xds : SampleIR)
  : SampleResult * option error :=
  (gatewayapi.mkTranslateResult {[key := infra]} {[key := xds]}
     [] [] [] [] [] [] [] [] [] [] [] [] [], None).

Definition valueUpdate (val : list (SampleResult * option error))
  : Update (SampleResult * option error) := mkUpdate false (Some val).

Definition deleteUpdate : Update (SampleResult * option error) := mkUpdate true None.


Definition sampleName : types.NamespacedName := types.mkNamespacedName "default" "eg".

Definition sampleGVK : schema.GroupVersionKind :=
  schema.mkGroupVersionKind "example.io" "v1" "SamplePolicy".

Definition sampleKey : message.NamespacedNameAndGVK :=
  message.mkNamespacedNameAndGVK sampleName sampleGVK.

Definition sampleObject (st : SampleStatus) : Object SampleStatus :=
  mkObject "default" "eg" st.

(** An extension server policy with a given value under "status", and one
    whose status is a map. *)
Definition sampleUnstructured (status : any SampleStatus) : Unstructured (any SampleStatus) :=
  mkUnstructured "default" "eg" sampleGVK status.

Definition samplePolicy (st : SampleStatus) : Unstructured (any SampleStatus) :=
  sampleUnstructured (Map st).

(** A bundle whose translation is a list of gateways, of client traffic
    policies and of extension server policies. *)
Definition statusBundle (gateways clientTrafficPolicies : list (Object SampleStatus))
    (extServerPolicies : list (Unstructured (any SampleStatus)))
  : SampleResult * option error :=
  (gatewayapi.mkTranslateResult ∅ ∅ gateways [] [] [] [] [] []
     clientTrafficPolicies [] [] [] [] extServerPolicies, None).

(** Sample calls for the wasm cache server: a cluster whose namespace
    "envoy-gateway-system" holds the HMAC secret, a certificate pair and a CA
    file that load, a file system (the list of its directories) in which the
    cache directory can be created, and a cache server that is the options
    it is built from and logs one entry when it starts. *)
Definition sampleSecret : Secret :=
  mkSecret {[ hmacSecretKey := [Byte.x68; Byte.x6d; Byte.x61; Byte.x63] ]}.

Definition sampleSecretsGet (client : unit) (namespace name : string) : result Secret :=
  if decide (namespace = "envoy-gateway-system" ∧ name = hmacSecretName)
  then Ok sampleSecret
  else Err "secrets not found".

Definition sampleIsNotFound (err : error) : bool :=
  if decide (err = "secrets not found") then true else false.

Definition sampleHmac : string → result (list Byte.byte) :=
  bootstrap.hmac (Ok tt) (λ _ : unit, Ok tt) sampleSecretsGet sampleIsNotFound.

Definition sampleTLSConfig : result (tls.Config string (list string)) :=
  bootstrap.tlsConfig (λ certFile keyFile, Ok (certFile +:+ "+" +:+ keyFile))
                      (λ _, Ok [Byte.x63; Byte.x61])
                      [] (λ pool pem, ("ca" :: pool, true)).

Abbreviation SampleCache :=
  (wasm.SeverOptions string (list string) * wasm.CacheOptions)%type.

Definition sampleNewCache (serverOptions : wasm.SeverOptions string (list string))
    (cacheOptions : wasm.CacheOptions) (w : list string * list LogEntry)
  : SampleCache * (list string * list LogEntry) :=
  ((serverOptions, cacheOptions), w).

Definition sampleStart (cache : SampleCache) (w : list string * list LogEntry)
  : list string * list LogEntry :=
  (w.1, w.2 ++ [Info "Listening on :18002"]).

Definition sampleStartWasmCache (namespace : string)
    (h : bootstrap.Host (list string) SampleCache)
  : bootstrap.Host (list string) SampleCache :=
  bootstrap.startWasmCache (Ok tt) (λ _ : unit, Ok tt) sampleSecretsGet sampleIsNotFound
    (λ certFile keyFile, Ok (certFile +:+ "+" +:+ keyFile))
    (λ _, Ok [Byte.x63; Byte.x61])
    [] (λ pool pem, ("ca" :: pool, true))
    (λ dirs path isDir, (if decide (path ∈ dirs) then dirs else path :: dirs, None))
    sampleNewCache sampleStart
    namespace h.

Definition sampleHost : bootstrap.Host (list string) SampleCache :=
  bootstrap.mkHost [] None [].

(** Stores that hold "gw1" in both planes, "gw1" in the XdsIR plane only,
    and the status [Accepted] of a gateway, of a client traffic policy and
    of an extension server policy. *)
Definition publishedState : SampleState :=
  mkState {["gw1" := ValidIR 1]} {["gw1" := ValidIR 1]} emptyStatuses [] [].

Definition xdsOnlyState : SampleState :=
  mkState ∅ {["gw1" := ValidIR 1]} emptyStatuses [] [].

Definition acceptedState : SampleState :=
  mkState ∅ ∅
    (message.mkProviderResources {[sampleName := Accepted]} ∅ ∅ ∅ ∅ ∅ ∅
       {[sampleName := Accepted]} ∅ ∅ ∅ {[sampleKey := Accepted]} ∅)
    [] [].

(** * Properties *)

(** ** The stale-key diff *)

Example getIRKeysToDelete_sample :
  getIRKeysToDelete ["gw2"; "gw1"; "gw3"; "gw1"] ["gw3"; "gw3"] = ["gw1"; "gw2"].
Proof. vm_compute. reflexivity. Qed.

Lemma string_le_ne_lt (s1 s2 : string) : String.le s1 s2 → s1 ≠ s2 → string_lt s1 s2.
Proof.
  unfold String.le, string_lt, String.leb, String.ltb.
  destruct (String.compare s1 s2) eqn:E; try done.
  intros _ Hne. by apply String.compare_eq_iff in E.
Qed.

Lemma sets_List_elem_of (s : sets.String) (k : string) : k ∈ sets.List s ↔ k ∈ s.
Proof. unfold sets.List. by rewrite merge_sort_Permutation, elem_of_elements. Qed.

Lemma sets_List_NoDup (s : sets.String) : NoDup (sets.List s).
Proof.
  unfold sets.List. rewrite merge_sort_Permutation. apply NoDup_elements.
Qed.

Lemma sets_List_sorted (s : sets.String) : StronglySorted string_lt (sets.List s).
Proof.
  pose proof (sets_List_NoDup s) as Hnd.
  assert (StronglySorted String.le (sets.List s)) as Hs
    by apply (StronglySorted_merge_sort String.le).
  induction Hs as [|x l Hl IH Hx]; [constructor|].
  apply NoDup_cons in Hnd as [Hx' Hnd].
  constructor; [by apply IH|].
  apply Forall_forall. intros y Hy.
  apply string_le_ne_lt.
  - by eapply Forall_forall in Hx.
  - intros ->. done.
Qed.

Lemma elem_of_getIRKeysToDelete (curKeys newKeys : list string) (k : string) :
  k ∈ getIRKeysToDelete curKeys newKeys ↔ k ∈ curKeys ∧ k ∉ newKeys.
Proof.
  unfold getIRKeysToDelete, sets.Difference, sets.NewString.
  rewrite sets_List_elem_of. set_solver.
Qed.

Lemma getIRKeysToDelete_set (curKeys newKeys : list string) :
  list_to_set (getIRKeysToDelete curKeys newKeys)
  = (list_to_set curKeys ∖ list_to_set newKeys : gset string).
Proof.
  apply set_eq. intros k.
  rewrite elem_of_list_to_set, elem_of_getIRKeysToDelete. set_solver.
Qed.

(** C5: [getIRKeysToDelete] is a total function that returns exactly the
    members of its first argument that are not members of its second; the
    result is empty when both arguments are the same and when the first is
    empty; and two pairs of arguments with the same members, whatever their
    duplicates and order, give the same result. *)
Theorem getIRKeysToDelete_difference (A B : list string) :
  (∀ k, k ∈ getIRKeysToDelete A B ↔ k ∈ A ∧ k ∉ B) ∧
  getIRKeysToDelete A A = [] ∧
  getIRKeysToDelete [] B = [] ∧
  (∀ A' B', (∀ k, k ∈ A' ↔ k ∈ A) → (∀ k, k ∈ B' ↔ k ∈ B) →
            getIRKeysToDelete A' B' = getIRKeysToDelete A B).
Proof.
  split; [intros k; apply elem_of_getIRKeysToDelete|].
  unfold getIRKeysToDelete, sets.Difference, sets.NewString.
  split; [|split].
  - by rewrite difference_diag_L.
  - simpl. by rewrite difference_disjoint_L by set_solver.
  - intros A' B' HA HB. cbv zeta. f_equal. set_solver.
Qed.

Lemma getIRKeysToDelete_difference_witness :
  (∀ k : string, k ∈ ["gw1"; "gw2"; "gw1"] ↔ k ∈ ["gw2"; "gw1"]) ∧
  (∀ k : string, k ∈ ["gw3"; "gw3"] ↔ k ∈ ["gw3"]) ∧
  getIRKeysToDelete ["gw1"; "gw2"; "gw1"] ["gw3"; "gw3"]
  = getIRKeysToDelete ["gw2"; "gw1"] ["gw3"].
Proof.
  assert (∀ k : string, k ∈ ["gw1"; "gw2"; "gw1"] ↔ k ∈ ["gw2"; "gw1"]) as HA
    by (intros k; rewrite !elem_of_cons; tauto).
  assert (∀ k : string, k ∈ ["gw3"; "gw3"] ↔ k ∈ ["gw3"]) as HB
    by (intros k; rewrite !elem_of_cons; tauto).
  split; [exact HA|split; [exact HB|]].
  exact (proj2 (proj2 (proj2 (getIRKeysToDelete_difference ["gw2"; "gw1"] ["gw3"])))
           _ _ HA HB).
Defined.

(** C10: the list [getIRKeysToDelete] returns has no duplicate and is in
    strictly increasing bytewise order. *)
Theorem getIRKeysToDelete_sorted (curKeys newKeys : list string) :
  NoDup (getIRKeysToDelete curKeys newKeys) ∧
  StronglySorted string_lt (getIRKeysToDelete curKeys newKeys).
Proof.
  unfold getIRKeysToDelete. split; [apply sets_List_NoDup|apply sets_List_sorted].
Qed.

(** ** An invocation that returns *)

Section properties.
Context {Infra Xds : Type} `{!IR Infra, !IR Xds}.
Context {GatewayStatus RouteStatus PolicyStatus BackendStatus UnstructuredStatus : Type}.
Context `{!Zero PolicyStatus, !Zero BackendStatus}.
Context {Resources : Type}.

Abbreviation Result :=
  (gatewayapi.TranslateResult Infra Xds GatewayStatus RouteStatus PolicyStatus
                              BackendStatus UnstructuredStatus).
Abbreviation St :=
  (State Infra Xds GatewayStatus RouteStatus PolicyStatus BackendStatus).
Abbreviation Statuses :=
  (message.ProviderResources GatewayStatus RouteStatus PolicyStatus BackendStatus).

Implicit Types (s : St) (n : list string).

(** *** Publishing into a store *)

Section publish.
Context {T : Type} `{!IR T}.

(** Storing the valid entries of a list into a map, as both IR loops do. *)
Lemma publish_lookup_other (l : list (string * T)) (store : gmap string T) k :
  (∀ v, (k, v) ∈ l → Validate v ≠ None) →
  foldl (λ m kv, if decide (Validate kv.2 = None) then <[kv.1 := kv.2]> m else m)
        store l !! k = store !! k.
Proof.
  revert store. induction l as [|[k' v'] l IH]; intros store Hk; [done|].
  simpl. rewrite IH by (intros v Hv; apply Hk; by right).
  case_decide as Hv; [|done].
  apply lookup_insert_ne. intros ->. by apply (Hk v'); [left|].
Qed.

Lemma publish_lookup_valid (l : list (string * T)) (store : gmap string T) k v :
  NoDup l.*1 → (k, v) ∈ l → Validate v = None →
  foldl (λ m kv, if decide (Validate kv.2 = None) then <[kv.1 := kv.2]> m else m)
        store l !! k = Some v.
Proof.
  revert store. induction l as [|[k' v'] l IH]; intros store Hnd Hin Hv.
  { by apply elem_of_nil in Hin. }
  apply NoDup_cons in Hnd as [Hk' Hnd].
  apply elem_of_cons in Hin as [[= <- <-]|Hin]; simpl.
  - rewrite publish_lookup_other.
    + rewrite decide_True by done. apply lookup_insert_eq.
    + intros w Hw. contradict Hk'. apply list_elem_of_fmap. by exists (k, w).
  - by apply IH.
Qed.

Lemma publish_map (m store : gmap string T) :
  foldl (λ m kv, if decide (Validate kv.2 = None) then <[kv.1 := kv.2]> m else m)
        store (map_to_list m) = validEntries m ∪ store.
Proof.
  apply map_eq. intros k. rewrite lookup_union. unfold validEntries.
  destruct (m !! k) as [v|] eqn:Hm.
  - destruct (decide (Validate v = None)) as [Hv|Hv].
    + rewrite (publish_lookup_valid _ _ k v);
        [|apply NoDup_fst_map_to_list|by apply elem_of_map_to_list|done].
      rewrite (map_lookup_filter_Some_2 _ m k v) by done.
      by destruct (store !! k).
    + rewrite publish_lookup_other.
      * rewrite map_lookup_filter_None_2; [by destruct (store !! k)|].
        right. intros w Hw. simpl. congruence.
      * intros w Hw%elem_of_map_to_list. congruence.
  - rewrite publish_lookup_other.
    + rewrite map_lookup_filter_None_2; [by destruct (store !! k)|]. by left.
    + intros w Hw%elem_of_map_to_list. congruence.
Qed.

Lemma validatedKeys_map (m : gmap string T) :
  list_to_set (validatedKeys (map_to_list m)) = validKeys m.
Proof.
  apply set_eq. intros k. unfold validatedKeys, validKeys, validEntries.
  rewrite elem_of_list_to_set, list_elem_of_fmap, elem_of_dom. split.
  - intros [[k' v] [-> [Hv Hin]%list_elem_of_filter]].
    exists v. apply map_lookup_filter_Some. split; [by apply elem_of_map_to_list|done].
  - intros [v [Hm Hv]%map_lookup_filter_Some]. exists (k, v).
    split; [done|]. apply list_elem_of_filter. split; [done|by apply elem_of_map_to_list].
Qed.

Lemma elem_of_validKeys (m : gmap string T) k :
  k ∈ validKeys m ↔ ∃ v, m !! k = Some v ∧ Validate v = None.
Proof.
  unfold validKeys, validEntries. rewrite elem_of_dom. split.
  - intros [v [??]%map_lookup_filter_Some]. eauto.
  - intros [v [??]]. exists v. by apply map_lookup_filter_Some.
Qed.

End publish.

(** *** The two IR loops *)

Variable storedStatus : UnstructuredStatus → option PolicyStatus.

Lemma foldl_publishInfraIR (l : list (string * Infra)) s n :
  let r := foldl publishInfraIR (s, n) l in
  InfraIR r.1
  = foldl (λ m kv, if decide (Validate kv.2 = None) then <[kv.1 := kv.2]> m else m)
          (InfraIR s) l ∧
  XdsIR r.1 = XdsIR s ∧
  ProviderResources r.1 = ProviderResources s ∧
  errChan r.1 = errChan s ++ validationErrors l ∧
  r.2 = n ++ validatedKeys l ∧
  Logger s `prefix_of` Logger r.1.
Proof.
  revert s n. induction l as [|[k v] l IH]; intros s n.
  { simpl. unfold validationErrors, validatedKeys. simpl. by rewrite !app_nil_r. }
  cbn [foldl]. destruct (IH (publishInfraIR (s, n) (k, v)).1
                            (publishInfraIR (s, n) (k, v)).2) as (HI & HX & HP & HE & HN & HL).
  rewrite <- surjective_pairing in HI, HX, HP, HE, HN, HL.
  cbv zeta. rewrite HI, HX, HP, HE, HN. clear HI HX HP HE HN IH.
  unfold publishInfraIR, validationErrors, validatedKeys in *. simpl in *.
  rewrite filter_cons. simpl.
  destruct (Validate v) as [err|] eqn:Hv; simpl in *.
  - rewrite <- !app_assoc. repeat split; try done.
    etrans; [|exact HL]. rewrite <- app_assoc. by apply prefix_app_r.
  - rewrite <- !app_assoc. repeat split; try done.
    etrans; [|exact HL]. by apply prefix_app_r.
Qed.

Lemma foldl_publishXdsIR (l : list (string * Xds)) s :
  let r := foldl publishXdsIR s l in
  XdsIR r
  = foldl (λ m kv, if decide (Validate kv.2 = None) then <[kv.1 := kv.2]> m else m)
          (XdsIR s) l ∧
  InfraIR r = InfraIR s ∧
  ProviderResources r = ProviderResources s ∧
  errChan r = errChan s ++ validationErrors l ∧
  Logger s `prefix_of` Logger r.
Proof.
  revert s. induction l as [|[k v] l IH]; intros s.
  { simpl. unfold validationErrors. simpl. by rewrite !app_nil_r. }
  cbn [foldl]. destruct (IH (publishXdsIR s (k, v))) as (HX & HI & HP & HE & HL).
  cbv zeta. rewrite HI, HX, HP, HE. clear HI HX HP HE IH.
  unfold publishXdsIR, validationErrors in *. simpl in *.
  destruct (Validate v) as [err|] eqn:Hv; simpl in *.
  - rewrite <- !app_assoc. repeat split; try done.
    etrans; [|exact HL]. rewrite <- app_assoc. by apply prefix_app_r.
  - repeat split; try done.
    etrans; [|exact HL]. by apply prefix_app_r.
Qed.

(** *** The status loops *)

Section writes.
Context `{Countable K} {V : Type}.
Implicit Types (acc : gmap K V * gset K) (ws : list (K * option V)).

Lemma applyWrites_app acc ws1 ws2 :
  applyWrites acc (ws1 ++ ws2) = applyWrites (applyWrites acc ws1) ws2.
Proof. apply foldl_app. Qed.

Lemma lastWrite_snoc (k : K) ws (w : K * option V) :
  lastWrite k (ws ++ [w])
  = match (if decide (w.1 = k) then w.2 else None) with
    | Some v => Some v
    | None => lastWrite k ws
    end.
Proof.
  unfold lastWrite. rewrite omap_app. simpl.
  destruct (if decide (w.1 = k) then w.2 else None) as [v|]; simpl.
  - by rewrite last_snoc.
  - by rewrite app_nil_r.
Qed.

Lemma applyWrites_lookup acc ws (k : K) :
  (applyWrites acc ws).1 !! k
  = match lastWrite k ws with Some v => Some v | None => acc.1 !! k end.
Proof.
  induction ws as [|w ws IH] using rev_ind; [done|].
  rewrite applyWrites_app, lastWrite_snoc. simpl.
  destruct w as [k' [v|]]; simpl.
  - case_decide as Hk; subst.
    + apply lookup_insert_eq.
    + by rewrite lookup_insert_ne.
  - by case_decide.
Qed.

Lemma applyWrites_keys acc ws :
  (applyWrites acc ws).2 = acc.2 ∖ list_to_set ws.*1.
Proof.
  induction ws as [|w ws IH] using rev_ind.
  - simpl. set_solver.
  - rewrite applyWrites_app, fmap_app, list_to_set_app_L. simpl. rewrite IH. set_solver.
Qed.

Lemma lastWrite_None_not_written (k : K) ws : k ∉ ws.*1 → lastWrite k ws = None.
Proof.
  intros Hk. unfold lastWrite.
  replace (omap (λ w, if decide (w.1 = k) then w.2 else None) ws) with (@nil V); [done|].
  induction ws as [|w ws IH]; [done|].
  simpl. rewrite decide_False by set_solver. apply IH. set_solver.
Qed.

Lemma lastWrite_fmap_None {A} (w : A → K * option V) (k : K) (objs : list A) :
  (∀ o, o ∈ objs → (w o).1 = k → (w o).2 = None) → lastWrite k (w <$> objs) = None.
Proof.
  intros Hall. unfold lastWrite.
  replace (omap (λ w, if decide (w.1 = k) then w.2 else None) (w <$> objs))
    with (@nil V); [done|].
  induction objs as [|o objs IH]; [done|].
  rewrite fmap_cons. cbn [omap list_omap].
  rewrite <- IH by (intros; apply Hall; [by right|done]).
  case_decide as Hk; [|done]. rewrite Hall; [done|by left|done].
Qed.

Lemma lastWrite_fmap_Some {A} (w : A → K * option V) (pre post : list A) (obj : A) (v : V) :
  (w obj).2 = Some v →
  (∀ o, o ∈ post → (w o).1 = (w obj).1 → (w o).2 = None) →
  lastWrite (w obj).1 (w <$> (pre ++ obj :: post)) = Some v.
Proof.
  intros Hobj Hpost. pose proof (lastWrite_fmap_None w (w obj).1 post Hpost) as Hnone.
  unfold lastWrite in *. apply last_None in Hnone.
  rewrite cons_middle, app_assoc, fmap_app, omap_app, Hnone, app_nil_r.
  rewrite fmap_app, omap_app.
  replace (omap (λ w0, if decide (w0.1 = (w obj).1) then w0.2 else None) (w <$> [obj]))
    with [v].
  - apply last_snoc.
  - cbn [fmap list_fmap omap list_omap].
    destruct (decide ((w obj).1 = (w obj).1)); [|done]. by rewrite Hobj.
Qed.

Lemma keys_dom (store : gmap K V) : list_to_set (keys store) = dom store.
Proof.
  apply set_eq. intros k. unfold keys.
  rewrite elem_of_list_to_set, elem_of_dom, list_elem_of_fmap. split.
  - intros [[k' v] [-> Hin%elem_of_map_to_list]]. eauto.
  - intros [v Hv]. exists (k, v). split; [done|by apply elem_of_map_to_list].
Qed.

Lemma statusKeys_dom (store : gmap K V) : statusKeys store = dom store.
Proof.
  unfold statusKeys. rewrite <- keys_dom.
  induction (keys store) as [|k l IH] using rev_ind; [done|].
  rewrite foldl_app, list_to_set_app_L. simpl. rewrite IH. set_solver.
Qed.

Lemma foldl_delete_lookup (l : list K) (store : gmap K V) (k : K) :
  foldl (λ m key, delete key m) store l !! k
  = if decide (k ∈ l) then None else store !! k.
Proof.
  induction l as [|k' l IH] using rev_ind.
  - by simpl.
  - rewrite foldl_app. cbn [foldl]. destruct (decide (k' = k)) as [->|Hne].
    + rewrite lookup_delete_eq.
      destruct (decide (k ∈ l ++ [k])) as [|Hk]; [done|]. set_solver.
    + rewrite lookup_delete_ne by done. rewrite IH.
      destruct (decide (k ∈ l)), (decide (k ∈ l ++ [k'])); try done; set_solver.
Qed.

Lemma deleteAll_empty (store : gmap K V) : deleteAll store = ∅.
Proof.
  apply map_eq. intros k. unfold deleteAll. rewrite foldl_delete_lookup, lookup_empty.
  case_decide as Hk; [done|].
  apply not_elem_of_dom. by rewrite <- keys_dom, elem_of_list_to_set.
Qed.

Lemma deleteKeys_fold (l : list K) (store : gmap K V) (ks : gset K) :
  foldl (λ acc key, (delete key acc.1, acc.2 ∖ {[key]})) (store, ks) l
  = (foldl (λ m key, delete key m) store l, ks ∖ list_to_set l).
Proof.
  induction l as [|k l IH] using rev_ind.
  - simpl. f_equal. set_solver.
  - rewrite !foldl_app, IH, list_to_set_app_L. simpl. f_equal. set_solver.
Qed.

Lemma deleteKeys_lookup (store : gmap K V) (ks : gset K) (k : K) :
  (deleteKeys store ks).1 !! k = if decide (k ∈ ks) then None else store !! k.
Proof.
  unfold deleteKeys. rewrite deleteKeys_fold. simpl. rewrite foldl_delete_lookup.
  destruct (decide (k ∈ ks)).
  - by rewrite decide_True by by apply elem_of_elements.
  - rewrite decide_False; [done|]. by rewrite elem_of_elements.
Qed.

Lemma deleteKeys_cleared (store : gmap K V) (ks : gset K) : (deleteKeys store ks).2 = ∅.
Proof.
  unfold deleteKeys. rewrite deleteKeys_fold. simpl.
  apply set_eq. intros k. rewrite elem_of_difference, elem_of_list_to_set, elem_of_elements.
  set_solver.
Qed.

End writes.

Lemma foldl_storeStatus {S} (objs : list (Object S)) acc :
  foldl storeStatus acc objs
  = applyWrites acc (writeOf utils.NamespacedName (λ _, false) Status <$> objs).
Proof. revert acc. induction objs as [|o objs IH]; intros acc; [done|]. simpl. by rewrite IH. Qed.

Lemma foldl_storeNonZeroStatus {S} `{!Zero S} (objs : list (Object S)) acc :
  foldl storeNonZeroStatus acc objs
  = applyWrites acc (writeOf utils.NamespacedName (λ o, IsZero (Status o)) Status <$> objs).
Proof.
  revert acc. induction objs as [|o objs IH]; intros acc; [done|].
  simpl. rewrite IH. f_equal. unfold storeNonZeroStatus, writeOf. simpl.
  by destruct (IsZero (Status o)).
Qed.

Lemma foldl_storeExtensionPolicyStatus (objs : list (Unstructured UnstructuredStatus)) acc :
  foldl (returned.storeExtensionPolicyStatus storedStatus) acc objs
  = applyWrites acc (extensionWrite storedStatus <$> objs).
Proof. revert acc. induction objs as [|o objs IH]; intros acc; [done|]. simpl. by rewrite IH. Qed.

(** *** One bundle *)

Variable Translate : Resources → Result * option error.

Lemma translateAndPublish_IR (g : Generation _ _ _ _ _ _) (resources : Resources) :
  let g' := returned.translateAndPublish storedStatus Translate g resources in
  let result := (Translate resources).1 in
  InfraIR (state g') = validEntries (gatewayapi.InfraIR result) ∪ InfraIR (state g) ∧
  XdsIR (state g') = validEntries (gatewayapi.XdsIR result) ∪ XdsIR (state g) ∧
  errChan (state g')
  = errChan (state g)
      ++ validationErrors (map_to_list (gatewayapi.InfraIR result))
      ++ validationErrors (map_to_list (gatewayapi.XdsIR result)) ∧
  newIRKeys g' = newIRKeys g ++ validatedKeys (map_to_list (gatewayapi.InfraIR result)) ∧
  Logger (state g) `prefix_of` Logger (state g') ∧
  (∀ err, (Translate resources).2 = Some err →
          Error err "errors detected during translation" ∈ Logger (state g')).
Proof.
  intros g' result. subst g'. unfold returned.translateAndPublish. fold result.
  set (s0 := logTranslateError (Translate resources).2 (state g)).
  destruct (foldl_publishInfraIR (map_to_list (gatewayapi.InfraIR result)) s0 (newIRKeys g))
    as (HI & HX & HP & HE & HN & HL).
  destruct (foldl_publishXdsIR (map_to_list (gatewayapi.XdsIR result))
              (foldl publishInfraIR (s0, newIRKeys g)
                     (map_to_list (gatewayapi.InfraIR result))).1)
    as (HX' & HI' & HP' & HE' & HL').
  cbv zeta in *. simpl.
  rewrite HI', HI, HX', HX, HE', HE, HN, !publish_map, <- app_assoc.
  assert (InfraIR s0 = InfraIR (state g) ∧ XdsIR s0 = XdsIR (state g) ∧
          errChan s0 = errChan (state g) ∧ Logger (state g) `prefix_of` Logger s0 ∧
          (∀ err, (Translate resources).2 = Some err →
                  Error err "errors detected during translation" ∈ Logger s0))
    as (-> & -> & -> & HL0 & Herr).
  { subst s0. destruct (Translate resources).2 as [err|]; simpl.
    - repeat split; [by apply prefix_app_r|].
      intros ? [= <-]. apply elem_of_app. right. by left.
    - repeat split; done. }
  repeat split; try done.
  - by do 2 (etrans; [|eassumption]).
  - intros err Herr'. eapply elem_of_prefix; [by apply Herr|]. by etrans.
Qed.

Lemma translateAndPublish_status (g : Generation _ _ _ _ _ _) (resources : Resources) :
  let g' := returned.translateAndPublish storedStatus Translate g resources in
  let status := returned.updateStatus storedStatus (Translate resources).1
                             (ProviderResources (state g)) (statusesToDelete g) in
  ProviderResources (state g') = status.1 ∧ statusesToDelete g' = status.2.
Proof.
  intros g' status. subst g' status. unfold returned.translateAndPublish.
  set (s0 := logTranslateError (Translate resources).2 (state g)).
  destruct (foldl_publishInfraIR (map_to_list (gatewayapi.InfraIR (Translate resources).1))
              s0 (newIRKeys g)) as (_ & _ & HP & _).
  destruct (foldl_publishXdsIR (map_to_list (gatewayapi.XdsIR (Translate resources).1))
              (foldl publishInfraIR (s0, newIRKeys g)
                     (map_to_list (gatewayapi.InfraIR (Translate resources).1))).1)
    as (_ & _ & HP' & _).
  cbv zeta in *. cbn [state statusesToDelete ProviderResources setProviderResources].
  rewrite HP', HP.
  assert (ProviderResources s0 = ProviderResources (state g)) as ->; [|done].
  subst s0. by destruct (Translate resources).2.
Qed.

(** *** The bundle loop *)

Lemma dom_publish {T} `{!IR T} (m store : gmap string T) :
  dom (validEntries m ∪ store) = validKeys m ∪ dom store.
Proof. unfold validKeys. by rewrite dom_union_L. Qed.

Lemma generationKeys_cons {T} `{!IR T} (field : Result → gmap string T)
    (resources : Resources) (val : list Resources) :
  generationKeys Translate field (resources :: val)
  = validKeys (field (Translate resources).1) ∪ generationKeys Translate field val.
Proof. done. Qed.

Lemma foldl_translateAndPublish_IR (val : list Resources) (g : Generation _ _ _ _ _ _) :
  let g' := foldl (returned.translateAndPublish storedStatus Translate) g val in
  dom (InfraIR (state g'))
  = dom (InfraIR (state g)) ∪ generationKeys Translate gatewayapi.InfraIR val ∧
  dom (XdsIR (state g'))
  = dom (XdsIR (state g)) ∪ generationKeys Translate gatewayapi.XdsIR val ∧
  list_to_set (newIRKeys g')
  = (list_to_set (newIRKeys g) ∪ generationKeys Translate gatewayapi.InfraIR val
     : gset string) ∧
  errChan (state g') = errChan (state g) ++ generationErrors Translate val ∧
  Logger (state g) `prefix_of` Logger (state g') ∧
  (∀ resources err, resources ∈ val → (Translate resources).2 = Some err →
     Error err "errors detected during translation" ∈ Logger (state g')).
Proof.
  revert g. induction val as [|b val IH]; intros g.
  { simpl. unfold generationKeys, generationErrors. simpl.
    rewrite !union_empty_r_L, app_nil_r. repeat split; try done.
    intros ?? Hin. by apply elem_of_nil in Hin. }
  cbn [foldl].
  destruct (IH (returned.translateAndPublish storedStatus Translate g b))
    as (HI & HX & HN & HE & HL & Herr).
  destruct (translateAndPublish_IR g b) as (HI1 & HX1 & HE1 & HN1 & HL1 & Herr1).
  cbv zeta in *. rewrite HI, HX, HN, HE, HI1, HX1, HN1, HE1.
  rewrite !dom_publish, list_to_set_app_L, validatedKeys_map, !generationKeys_cons.
  unfold generationErrors. cbn [mbind list_bind].
  repeat split.
  - set_solver.
  - set_solver.
  - set_solver.
  - by rewrite <- !app_assoc.
  - by etrans.
  - intros b' err [->|Hin]%elem_of_cons Hb'.
    + eapply elem_of_prefix; [by apply Herr1|done].
    + by eapply Herr.
Qed.

(** Lookups after the bundle loop: a key no bundle publishes keeps its
    entry, and a published key has one. *)
Lemma foldl_translateAndPublish_InfraIR_other (val : list Resources)
    (g : Generation _ _ _ _ _ _) (k : string) :
  k ∉ generationKeys Translate gatewayapi.InfraIR val →
  InfraIR (state (foldl (returned.translateAndPublish storedStatus Translate) g val)) !! k
  = InfraIR (state g) !! k.
Proof.
  revert g. induction val as [|b val IH]; intros g Hk; [done|].
  rewrite generationKeys_cons in Hk. apply not_elem_of_union in Hk as [Hb Hk].
  cbn [foldl]. rewrite IH by done.
  destruct (translateAndPublish_IR g b) as (-> & _).
  rewrite lookup_union_r; [done|]. by apply not_elem_of_dom.
Qed.

Lemma foldl_translateAndPublish_XdsIR_other (val : list Resources)
    (g : Generation _ _ _ _ _ _) (k : string) :
  k ∉ generationKeys Translate gatewayapi.XdsIR val →
  XdsIR (state (foldl (returned.translateAndPublish storedStatus Translate) g val)) !! k
  = XdsIR (state g) !! k.
Proof.
  revert g. induction val as [|b val IH]; intros g Hk; [done|].
  rewrite generationKeys_cons in Hk. apply not_elem_of_union in Hk as [Hb Hk].
  cbn [foldl]. rewrite IH by done.
  destruct (translateAndPublish_IR g b) as (_ & -> & _).
  rewrite lookup_union_r; [done|]. by apply not_elem_of_dom.
Qed.

(** *** The cleanup of the IR stores *)

Lemma deleteIRKeys_fields (delKeys : list string) s :
  InfraIR (deleteIRKeys delKeys s) = foldl (λ m key, delete key m) (InfraIR s) delKeys ∧
  XdsIR (deleteIRKeys delKeys s) = foldl (λ m key, delete key m) (XdsIR s) delKeys ∧
  ProviderResources (deleteIRKeys delKeys s) = ProviderResources s ∧
  errChan (deleteIRKeys delKeys s) = errChan s ∧
  Logger (deleteIRKeys delKeys s) = Logger s.
Proof.
  unfold deleteIRKeys. revert s. induction delKeys as [|k l IH]; intros s; [done|].
  cbn [foldl].
  destruct (IH (XdsIR_Delete k (InfraIR_Delete k s))) as (-> & -> & -> & -> & ->).
  done.
Qed.

Lemma dom_foldl_delete `{Countable K} {V} (l : list K) (m : gmap K V) :
  dom (foldl (λ m key, delete key m) m l) = dom m ∖ list_to_set l.
Proof.
  apply set_eq. intros k.
  rewrite elem_of_dom, foldl_delete_lookup, elem_of_difference, elem_of_list_to_set,
    elem_of_dom.
  destruct (decide (k ∈ l)); [|tauto].
  split; [by intros [? ?]|tauto].
Qed.

(** *** A value event *)

Lemma handle_value (val : list Resources) s :
  returned.handle storedStatus Translate (mkUpdate false (Some val)) s
  = let g := returned.afterBundles storedStatus Translate val s in
    let delKeys := getIRKeysToDelete (keys (InfraIR s)) (newIRKeys g) in
    (deleteStatusKeys (statusesToDelete g) (deleteIRKeys delKeys (state g))).1.
Proof. done. Qed.

Lemma afterBundles_IR (val : list Resources) s :
  let g := returned.afterBundles storedStatus Translate val s in
  dom (InfraIR (state g))
  = dom (InfraIR s) ∪ generationKeys Translate gatewayapi.InfraIR val ∧
  dom (XdsIR (state g))
  = dom (XdsIR s) ∪ generationKeys Translate gatewayapi.XdsIR val ∧
  list_to_set (newIRKeys g) = generationKeys Translate gatewayapi.InfraIR val ∧
  errChan (state g) = errChan s ++ generationErrors Translate val.
Proof.
  unfold returned.afterBundles, returned.translateAll.
  destruct (foldl_translateAndPublish_IR val
              (mkGeneration (log (Info "received an update") s) []
                 (getAllStatuses (log (Info "received an update") s))))
    as (HI & HX & HN & HE & _).
  cbv zeta in *. rewrite HI, HX, HN, HE. simpl.
  by rewrite union_empty_l_L.
Qed.

Lemma deleteStatusKeys_fields (ds : StatusesToDelete) s :
  InfraIR (deleteStatusKeys ds s).1 = InfraIR s ∧
  XdsIR (deleteStatusKeys ds s).1 = XdsIR s ∧
  errChan (deleteStatusKeys ds s).1 = errChan s ∧
  Logger (deleteStatusKeys ds s).1 = Logger s.
Proof. done. Qed.

(** What the cleanup of a value event leaves in the two IR stores. *)
Lemma handle_value_lookup (val : list Resources) s (k : string) :
  let g := returned.afterBundles storedStatus Translate val s in
  let delKeys := getIRKeysToDelete (keys (InfraIR s)) (newIRKeys g) in
  let s' := returned.handle storedStatus Translate (mkUpdate false (Some val)) s in
  InfraIR s' !! k = (if decide (k ∈ delKeys) then None else InfraIR (state g) !! k) ∧
  XdsIR s' !! k = (if decide (k ∈ delKeys) then None else XdsIR (state g) !! k).
Proof.
  intros g delKeys s'. subst s'. rewrite handle_value. cbv zeta. fold g. fold delKeys.
  destruct (deleteStatusKeys_fields (statusesToDelete g) (deleteIRKeys delKeys (state g)))
    as (-> & -> & _).
  destruct (deleteIRKeys_fields delKeys (state g)) as (-> & -> & _).
  by rewrite !foldl_delete_lookup.
Qed.

Lemma elem_of_delKeys (val : list Resources) s (k : string) :
  let g := returned.afterBundles storedStatus Translate val s in
  k ∈ getIRKeysToDelete (keys (InfraIR s)) (newIRKeys g)
  ↔ k ∈ dom (InfraIR s) ∧ k ∉ generationKeys Translate gatewayapi.InfraIR val.
Proof.
  intros g. destruct (afterBundles_IR val s) as (_ & _ & HN & _). fold g in HN.
  rewrite elem_of_getIRKeysToDelete, <- HN, <- keys_dom, !elem_of_list_to_set. done.
Qed.

Lemma handle_value_dom (val : list Resources) s :
  let s' := returned.handle storedStatus Translate (mkUpdate false (Some val)) s in
  dom (InfraIR s') = generationKeys Translate gatewayapi.InfraIR val ∧
  dom (XdsIR s')
  = (dom (XdsIR s) ∪ generationKeys Translate gatewayapi.XdsIR val)
      ∖ (dom (InfraIR s) ∖ generationKeys Translate gatewayapi.InfraIR val).
Proof.
  intros s'. destruct (afterBundles_IR val s) as (HI & HX & _).
  split; apply set_eq; intros k;
    destruct (handle_value_lookup val s k) as [HkI HkX]; fold s' in HkI, HkX;
    pose proof (elem_of_delKeys val s k) as Hdel; cbv zeta in *.
  - rewrite elem_of_dom, HkI.
    destruct (decide (k ∈ generationKeys Translate gatewayapi.InfraIR val)) as [Hg|Hg];
      case_decide as Hk; rewrite Hdel in Hk;
      rewrite <- ?elem_of_dom, ?HI, ?elem_of_union; clear HkI HkX Hdel HI HX.
    + tauto.
    + tauto.
    + split; [by intros [? ?]|done].
    + tauto.
  - rewrite elem_of_dom, HkX, !elem_of_difference, elem_of_union.
    case_decide as Hk; rewrite Hdel in Hk;
      rewrite <- ?elem_of_dom, ?HX, ?elem_of_union; clear HkI HkX Hdel HI HX.
    + split; [by intros [? ?]|tauto].
    + destruct (decide (k ∈ generationKeys Translate gatewayapi.InfraIR val)); tauto.
Qed.

(** *** The statuses of a value event *)

Lemma foldl_translateAndPublish_status `{Countable K} {V}
    (store : Statuses → gmap K V) (candidates : StatusesToDelete → gset K)
    (writes : Result → list (K * option V)) :
  (∀ result p ds,
     (store (returned.updateStatus storedStatus result p ds).1,
      candidates (returned.updateStatus storedStatus result p ds).2)
     = applyWrites (store p, candidates ds) (writes result)) →
  ∀ (val : list Resources) (g : Generation _ _ _ _ _ _),
    let g' := foldl (returned.translateAndPublish storedStatus Translate) g val in
    (store (ProviderResources (state g')), candidates (statusesToDelete g'))
    = applyWrites (store (ProviderResources (state g)), candidates (statusesToDelete g))
                  (val ≫= λ resources, writes (Translate resources).1).
Proof.
  intros Hwrites val. induction val as [|b val IH]; intros g; [done|].
  cbn [foldl mbind list_bind]. cbv zeta in *. rewrite IH, applyWrites_app.
  destruct (translateAndPublish_status g b) as [-> ->]. by rewrite Hwrites.
Qed.

Lemma handle_value_status `{Countable K} {V}
    (store : Statuses → gmap K V) (candidates : StatusesToDelete → gset K)
    (writes : Result → list (K * option V)) :
  (∀ result p ds,
     (store (returned.updateStatus storedStatus result p ds).1,
      candidates (returned.updateStatus storedStatus result p ds).2)
     = applyWrites (store p, candidates ds) (writes result)) →
  (∀ ds s, store (ProviderResources (deleteStatusKeys ds s).1)
           = (deleteKeys (store (ProviderResources s)) (candidates ds)).1) →
  ∀ (val : list Resources) s (k : K),
    let ws := val ≫= λ resources, writes (Translate resources).1 in
    store (ProviderResources
             (returned.handle storedStatus Translate (mkUpdate false (Some val)) s)) !! k
    = if decide (k ∈ candidates (getAllStatuses s) ∖ list_to_set ws.*1) then None
      else match lastWrite k ws with
           | Some v => Some v
           | None => store (ProviderResources s) !! k
           end.
Proof.
  intros Hwrites Hdelete val s k ws. rewrite handle_value. cbv zeta.
  rewrite Hdelete, deleteKeys_lookup.
  destruct (deleteIRKeys_fields
              (getIRKeysToDelete (keys (InfraIR s))
                 (newIRKeys (returned.afterBundles storedStatus Translate val s)))
              (state (returned.afterBundles storedStatus Translate val s)))
    as (_ & _ & -> & _).
  pose proof (foldl_translateAndPublish_status store candidates writes Hwrites val
                (mkGeneration (log (Info "received an update") s) []
                   (getAllStatuses (log (Info "received an update") s)))) as Hg.
  cbv zeta in Hg. fold ws in Hg.
  change (foldl (returned.translateAndPublish storedStatus Translate) _ val)
    with (returned.afterBundles storedStatus Translate val s) in Hg.
  apply (f_equal fst) in Hg as Hstore. apply (f_equal snd) in Hg as Hcand.
  cbn [fst snd] in Hstore, Hcand. rewrite Hstore, Hcand.
  rewrite applyWrites_keys, applyWrites_lookup. done.
Qed.

(** *** The key sets of the planes *)

Lemma cleanup_keys (I G : gset string) : (I ∪ G) ∖ (I ∖ G) = G.
Proof.
  apply set_eq. intros k. rewrite !elem_of_difference, elem_of_union.
  destruct (decide (k ∈ G)); tauto.
Qed.

(** *** The IR planes of a value event *)

(** The bundle loop deletes nothing from either plane, and a key added to
    [newIRKeys] by some bundle of the generation is not among the keys to
    delete: the cleanup leaves its entry in both planes as the bundle loop
    left it, and its InfraIR entry is present after the event. *)
Lemma returned_produced_key_not_deleted (val : list Resources) s (k : string) :
  let g := returned.afterBundles storedStatus Translate val s in
  let s' := returned.handle storedStatus Translate (mkUpdate false (Some val)) s in
  k ∈ newIRKeys g →
  k ∉ getIRKeysToDelete (keys (InfraIR s)) (newIRKeys g) ∧
  InfraIR s' !! k = InfraIR (state g) !! k ∧
  XdsIR s' !! k = XdsIR (state g) !! k ∧
  is_Some (InfraIR s' !! k) ∧
  dom (InfraIR s) ⊆ dom (InfraIR (state g)) ∧
  dom (XdsIR s) ⊆ dom (XdsIR (state g)).
Proof.
  intros g s' Hk.
  assert (k ∉ getIRKeysToDelete (keys (InfraIR s)) (newIRKeys g)) as Hdel.
  { rewrite elem_of_getIRKeysToDelete. tauto. }
  destruct (handle_value_lookup val s k) as [HI HX]. fold g s' in HI, HX.
  cbv zeta in HI, HX.
  destruct (decide (k ∈ getIRKeysToDelete (keys (InfraIR s)) (newIRKeys g))); [done|].
  destruct (afterBundles_IR val s) as (HdI & HdX & HN & _). fold g in HdI, HdX, HN.
  repeat split; try done.
  - rewrite HI. apply elem_of_dom. rewrite HdI, <- HN, elem_of_union, elem_of_list_to_set.
    by right.
  - rewrite HdI. set_solver.
  - rewrite HdX. set_solver.
Qed.

(** *** Validation failures *)

Lemma length_validationErrors {T} `{!IR T} (l : list (string * T)) :
  length (validationErrors l) = length (filter (λ kv, Validate kv.2 ≠ None) l).
Proof.
  unfold validationErrors. induction l as [|[k v] l IH]; [done|].
  rewrite filter_cons. cbn [omap list_omap snd].
  destruct (decide (Validate v ≠ None)) as [Hv|Hv]; destruct (Validate v) eqn:Hv'.
  - simpl. by rewrite IH.
  - done.
  - by destruct Hv.
  - done.
Qed.

Lemma publish_entry {T} `{!IR T} (m store : gmap string T) (k : string) (v : T) :
  m !! k = Some v →
  (validEntries m ∪ store) !! k = if decide (Validate v = None) then Some v else store !! k.
Proof.
  intros Hm. rewrite lookup_union. unfold validEntries. case_decide as Hv.
  - rewrite (map_lookup_filter_Some_2 _ m k v) by done. by destruct (store !! k).
  - rewrite map_lookup_filter_None_2; [by destruct (store !! k)|].
    right. intros w Hw. simpl. congruence.
Qed.

Lemma elem_of_validatedKeys {T} `{!IR T} (m : gmap string T) (k : string) :
  k ∈ validatedKeys (map_to_list m) ↔ ∃ v, m !! k = Some v ∧ Validate v = None.
Proof. by rewrite <- elem_of_validKeys, <- validatedKeys_map, elem_of_list_to_set. Qed.

Lemma elem_of_validationErrors {T} `{!IR T} (m : gmap string T) (k : string) (v : T)
    (err : error) :
  m !! k = Some v → Validate v = Some err → err ∈ validationErrors (map_to_list m).
Proof.
  intros Hm Hv. unfold validationErrors. apply list_elem_of_omap.
  exists (k, v). split; [by apply elem_of_map_to_list|done].
Qed.

(** When a bundle is processed, whatever the loop did before, an entry
    that fails validation leaves the entry of its key in its store as it
    was, is not counted in [newIRKeys], and sends its error on the error
    channel, which receives exactly one error for each failing entry of the
    bundle; every entry of the bundle that passes validation is stored under
    its key, and an InfraIR one is counted in [newIRKeys].  Over the whole
    generation the error channel receives the errors of all the bundles, and
    every key that passes validation in some bundle is in its store at the
    end of the bundle loop. *)
Lemma bundle_validation_failures (val : list Resources) s
    (g : Generation _ _ _ _ _ _) (resources : Resources) :
  let g' := returned.translateAndPublish storedStatus Translate g resources in
  let infra := gatewayapi.InfraIR (Translate resources).1 in
  let xds := gatewayapi.XdsIR (Translate resources).1 in
  let gEnd := returned.afterBundles storedStatus Translate val s in
  (∀ (k : string) (v : Infra), infra !! k = Some v →
     match Validate v with
     | Some err => InfraIR (state g') !! k = InfraIR (state g) !! k ∧
                   (k ∈ newIRKeys g' ↔ k ∈ newIRKeys g) ∧
                   err ∈ errChan (state g')
     | None => InfraIR (state g') !! k = Some v ∧ k ∈ newIRKeys g'
     end) ∧
  (∀ (k : string) (v : Xds), xds !! k = Some v →
     match Validate v with
     | Some err => XdsIR (state g') !! k = XdsIR (state g) !! k ∧
                   err ∈ errChan (state g')
     | None => XdsIR (state g') !! k = Some v
     end) ∧
  (∃ errs, errChan (state g') = errChan (state g) ++ errs ∧
           length errs
           = length (filter (λ kv, Validate kv.2 ≠ None) (map_to_list infra))
             + length (filter (λ kv, Validate kv.2 ≠ None) (map_to_list xds))) ∧
  errChan (state gEnd) = errChan s ++ generationErrors Translate val ∧
  generationKeys Translate gatewayapi.InfraIR val ⊆ dom (InfraIR (state gEnd)) ∧
  generationKeys Translate gatewayapi.XdsIR val ⊆ dom (XdsIR (state gEnd)).
Proof.
  intros g' infra xds gEnd.
  destruct (translateAndPublish_IR g resources) as (HI & HX & HE & HN & _).
  fold g' infra xds in HI, HX, HE, HN.
  destruct (afterBundles_IR val s) as (HdI & HdX & _ & HEnd). fold gEnd in HdI, HdX, HEnd.
  repeat split.
  - intros k v Hk. rewrite HI, HN, HE, (publish_entry _ _ k v Hk).
    destruct (Validate v) as [err|] eqn:Hv.
    + rewrite decide_False by done. repeat split; try done.
      * rewrite elem_of_app, elem_of_validatedKeys. intros [?|(w & Hw & Hw')]; [done|].
        congruence.
      * intros ?. apply elem_of_app. by left.
      * rewrite !elem_of_app. right. left. by eapply elem_of_validationErrors.
    + rewrite decide_True by done. split; [done|].
      rewrite elem_of_app, elem_of_validatedKeys. right. eauto.
  - intros k v Hk. rewrite HX, HE, (publish_entry _ _ k v Hk).
    destruct (Validate v) as [err|] eqn:Hv.
    + rewrite decide_False by done. split; [done|].
      rewrite !elem_of_app. right. right. by eapply elem_of_validationErrors.
    + by rewrite decide_True by done.
  - eexists. split; [exact HE|]. by rewrite length_app, !length_validationErrors.
  - done.
  - rewrite HdI. set_solver.
  - rewrite HdX. set_solver.
Qed.

(** *** Statuses kept and overwritten *)

Lemma generationObjects_fmap {A W} (field : Result → list A) (w : A → W)
    (val : list Resources) :
  (val ≫= λ resources, w <$> field (Translate resources).1)
  = w <$> generationObjects Translate field val.
Proof.
  unfold generationObjects. induction val as [|b val IH]; [done|].
  by rewrite !bind_cons, fmap_app, IH.
Qed.


Section status_kinds.
Context {A V : Type} `{Countable K}.
Context (key : A → K) (empty : A → bool) (value : A → V).

Lemma lastWrite_all_empty (k : K) (objs : list A) :
  (∀ o, o ∈ objs → key o = k → empty o = true) →
  lastWrite k (writeOf key empty value <$> objs) = None.
Proof.
  intros Hall. unfold lastWrite.
  replace (omap (λ w, if decide (w.1 = k) then w.2 else None)
                (writeOf key empty value <$> objs)) with (@nil V); [done|].
  induction objs as [|o objs IH]; [done|].
  rewrite fmap_cons. cbn [omap list_omap writeOf fst snd].
  rewrite <- IH by (intros; apply Hall; [by right|done]).
  case_decide as Hk; [|done]. rewrite Hall; [done|by left|done].
Qed.

Lemma lastWrite_last_nonempty (pre post : list A) (obj : A) :
  empty obj = false →
  (∀ o, o ∈ post → key o = key obj → empty o = true) →
  lastWrite (key obj) (writeOf key empty value <$> (pre ++ obj :: post))
  = Some (value obj).
Proof.
  intros Hobj Hpost. pose proof (lastWrite_all_empty (key obj) post Hpost) as Hnone.
  unfold lastWrite in *. apply last_None in Hnone.
  rewrite cons_middle, app_assoc, fmap_app, omap_app, Hnone, app_nil_r.
  rewrite fmap_app, omap_app.
  replace (omap (λ w, if decide (w.1 = key obj) then w.2 else None)
                (writeOf key empty value <$> [obj])) with [value obj].
  - apply last_snoc.
  - cbn [fmap list_fmap omap list_omap writeOf fst snd].
    destruct (decide (key obj = key obj)); [|done]. by rewrite Hobj.
Qed.

Lemma handle_status_kept (store : Statuses → gmap K V)
    (candidates : StatusesToDelete → gset K) (field : Result → list A) :
  (∀ result p ds,
     (store (returned.updateStatus storedStatus result p ds).1,
      candidates (returned.updateStatus storedStatus result p ds).2)
     = applyWrites (store p, candidates ds) (writeOf key empty value <$> field result)) →
  (∀ ds s, store (ProviderResources (deleteStatusKeys ds s).1)
           = (deleteKeys (store (ProviderResources s)) (candidates ds)).1) →
  ∀ (val : list Resources) s,
    statusKept key empty value (generationObjects Translate field val)
      (store (ProviderResources s))
      (store (ProviderResources
                (returned.handle storedStatus Translate (mkUpdate false (Some val)) s))).
Proof.
  intros Hwrites Hdelete val s obj Hobj.
  pose proof (handle_value_status store candidates
                (λ result, writeOf key empty value <$> field result)
                Hwrites Hdelete val s (key obj)) as Hk.
  cbv beta zeta in Hk.
  pose proof (generationObjects_fmap field (writeOf key empty value) val) as Hws.
  rewrite Hws in Hk. rewrite decide_False in Hk.
  - split.
    + intros Hall. by rewrite Hk, lastWrite_all_empty.
    + intros pre post Hobjs Hne Hpost. by rewrite Hk, Hobjs, lastWrite_last_nonempty.
  - rewrite elem_of_difference, elem_of_list_to_set. intros [_ Hnot]. apply Hnot.
    rewrite <- list_fmap_compose. apply list_elem_of_fmap. by exists obj.
Qed.

End status_kinds.

Lemma statusKept_overwritten {A V} `{Countable K} (key : A → K) (value : A → V)
    (objs : list A) (before after : gmap K V) :
  statusKept key (λ _, false) value objs before after →
  statusOverwritten key value objs after.
Proof.
  intros Hkept pre obj post Hobjs Hpost.
  destruct (Hkept obj) as [_ Hlast].
  { rewrite Hobjs. apply elem_of_app. right. by left. }
  apply (Hlast pre post); [done..|]. intros o Ho Hk. by destruct (Hpost o Ho).
Qed.

Ltac status_loop :=
  intros ? ? ?; unfold returned.updateStatus; cbn [fst snd
    message.GatewayStatuses message.HTTPRouteStatuses message.GRPCRouteStatuses
    message.TLSRouteStatuses message.TCPRouteStatuses message.UDPRouteStatuses
    message.BackendTLSPolicyStatuses message.ClientTrafficPolicyStatuses
    message.BackendTrafficPolicyStatuses message.SecurityPolicyStatuses
    message.EnvoyExtensionPolicyStatuses message.ExtensionPolicyStatuses
    message.BackendStatuses
    GatewayStatusKeys HTTPRouteStatusKeys GRPCRouteStatusKeys TLSRouteStatusKeys
    TCPRouteStatusKeys UDPRouteStatusKeys BackendTLSPolicyStatusKeys
    ClientTrafficPolicyStatusKeys BackendTrafficPolicyStatusKeys SecurityPolicyStatusKeys
    EnvoyExtensionPolicyStatusKeys ExtensionServerPolicyStatusKeys BackendStatusKeys];
  rewrite <- surjective_pairing;
  first [apply foldl_storeStatus | apply foldl_storeNonZeroStatus
        | apply foldl_storeExtensionPolicyStatus].

(** The typed status stores after a value event: the stores of the gateways
    and of the routes take the status of the last resource with a key, empty
    or not; the stores of the typed policies and of the backends keep the
    entry of a key whose resources all have an empty status, and take the
    status of the last resource with the key whose status is not empty. *)
Lemma returned_typed_statuses_updated (val : list Resources) s :
  let p := ProviderResources s in
  let p' := ProviderResources
              (returned.handle storedStatus Translate (mkUpdate false (Some val)) s) in
  (statusOverwritten utils.NamespacedName Status
     (generationObjects Translate gatewayapi.Gateways val) (message.GatewayStatuses p') ∧
   statusOverwritten utils.NamespacedName Status
     (generationObjects Translate gatewayapi.HTTPRoutes val) (message.HTTPRouteStatuses p') ∧
   statusOverwritten utils.NamespacedName Status
     (generationObjects Translate gatewayapi.GRPCRoutes val) (message.GRPCRouteStatuses p') ∧
   statusOverwritten utils.NamespacedName Status
     (generationObjects Translate gatewayapi.TLSRoutes val) (message.TLSRouteStatuses p') ∧
   statusOverwritten utils.NamespacedName Status
     (generationObjects Translate gatewayapi.TCPRoutes val) (message.TCPRouteStatuses p') ∧
   statusOverwritten utils.NamespacedName Status
     (generationObjects Translate gatewayapi.UDPRoutes val) (message.UDPRouteStatuses p')) ∧
  (statusKept utils.NamespacedName (λ o, IsZero (Status o)) Status
     (generationObjects Translate gatewayapi.BackendTLSPolicies val)
     (message.BackendTLSPolicyStatuses p) (message.BackendTLSPolicyStatuses p') ∧
   statusKept utils.NamespacedName (λ o, IsZero (Status o)) Status
     (generationObjects Translate gatewayapi.ClientTrafficPolicies val)
     (message.ClientTrafficPolicyStatuses p) (message.ClientTrafficPolicyStatuses p') ∧
   statusKept utils.NamespacedName (λ o, IsZero (Status o)) Status
     (generationObjects Translate gatewayapi.BackendTrafficPolicies val)
     (message.BackendTrafficPolicyStatuses p) (message.BackendTrafficPolicyStatuses p') ∧
   statusKept utils.NamespacedName (λ o, IsZero (Status o)) Status
     (generationObjects Translate gatewayapi.SecurityPolicies val)
     (message.SecurityPolicyStatuses p) (message.SecurityPolicyStatuses p') ∧
   statusKept utils.NamespacedName (λ o, IsZero (Status o)) Status
     (generationObjects Translate gatewayapi.EnvoyExtensionPolicies val)
     (message.EnvoyExtensionPolicyStatuses p) (message.EnvoyExtensionPolicyStatuses p') ∧
   statusKept utils.NamespacedName (λ o, IsZero (Status o)) Status
     (generationObjects Translate gatewayapi.Backends val)
     (message.BackendStatuses p) (message.BackendStatuses p')).
Proof.
  intros p p'. subst p p'. split.
  - split_and!.
    + eapply statusKept_overwritten,
        (handle_status_kept _ _ _ message.GatewayStatuses GatewayStatusKeys
           gatewayapi.Gateways); [status_loop|done].
    + eapply statusKept_overwritten,
        (handle_status_kept _ _ _ message.HTTPRouteStatuses HTTPRouteStatusKeys
           gatewayapi.HTTPRoutes); [status_loop|done].
    + eapply statusKept_overwritten,
        (handle_status_kept _ _ _ message.GRPCRouteStatuses GRPCRouteStatusKeys
           gatewayapi.GRPCRoutes); [status_loop|done].
    + eapply statusKept_overwritten,
        (handle_status_kept _ _ _ message.TLSRouteStatuses TLSRouteStatusKeys
           gatewayapi.TLSRoutes); [status_loop|done].
    + eapply statusKept_overwritten,
        (handle_status_kept _ _ _ message.TCPRouteStatuses TCPRouteStatusKeys
           gatewayapi.TCPRoutes); [status_loop|done].
    + eapply statusKept_overwritten,
        (handle_status_kept _ _ _ message.UDPRouteStatuses UDPRouteStatusKeys
           gatewayapi.UDPRoutes); [status_loop|done].
  - split_and!.
    + apply (handle_status_kept _ _ _ message.BackendTLSPolicyStatuses
               BackendTLSPolicyStatusKeys gatewayapi.BackendTLSPolicies);
        [status_loop|done].
    + apply (handle_status_kept _ _ _ message.ClientTrafficPolicyStatuses
               ClientTrafficPolicyStatusKeys gatewayapi.ClientTrafficPolicies);
        [status_loop|done].
    + apply (handle_status_kept _ _ _ message.BackendTrafficPolicyStatuses
               BackendTrafficPolicyStatusKeys gatewayapi.BackendTrafficPolicies);
        [status_loop|done].
    + apply (handle_status_kept _ _ _ message.SecurityPolicyStatuses
               SecurityPolicyStatusKeys gatewayapi.SecurityPolicies);
        [status_loop|done].
    + apply (handle_status_kept _ _ _ message.EnvoyExtensionPolicyStatuses
               EnvoyExtensionPolicyStatusKeys gatewayapi.EnvoyExtensionPolicies);
        [status_loop|done].
    + apply (handle_status_kept _ _ _ message.BackendStatuses
               BackendStatusKeys gatewayapi.Backends);
        [status_loop|done].
Qed.

(** *** Deleted statuses *)

(** A status store whose keys [getAllStatuses] snapshots: a value event
    deletes an entry if and only if no resource of the generation's
    translation results has its key. *)
Lemma handle_status_deleted {A V} `{Countable K}
    (key : A → K) (empty : A → bool) (value : A → V)
    (store : Statuses → gmap K V) (candidates : StatusesToDelete → gset K)
    (field : Result → list A) :
  (∀ result p ds,
     (store (returned.updateStatus storedStatus result p ds).1,
      candidates (returned.updateStatus storedStatus result p ds).2)
     = applyWrites (store p, candidates ds) (writeOf key empty value <$> field result)) →
  (∀ ds s, store (ProviderResources (deleteStatusKeys ds s).1)
           = (deleteKeys (store (ProviderResources s)) (candidates ds)).1) →
  (∀ s, candidates (getAllStatuses s) = dom (store (ProviderResources s))) →
  ∀ (val : list Resources) s (k : K),
    is_Some (store (ProviderResources s) !! k) →
    (store (ProviderResources
              (returned.handle storedStatus Translate (mkUpdate false (Some val)) s)) !! k
     = None
     ↔ k ∉ key <$> generationObjects Translate field val).
Proof.
  intros Hwrites Hdelete Hcand val s k [v Hv].
  pose proof (handle_value_status store candidates
                (λ result, writeOf key empty value <$> field result)
                Hwrites Hdelete val s k) as Hk.
  cbv beta zeta in Hk.
  pose proof (generationObjects_fmap field (writeOf key empty value) val) as Hws.
  rewrite Hws, <- list_fmap_compose, Hcand in Hk. rewrite Hk. clear Hk Hws.
  change (fst ∘ writeOf key empty value) with key.
  case_decide as Hdec.
  - apply elem_of_difference in Hdec as [_ Hdec].
    rewrite elem_of_list_to_set in Hdec. by split.
  - split.
    + destruct (lastWrite _ _); [done|]. congruence.
    + intros Hnot. destruct Hdec. apply elem_of_difference.
      split; [apply elem_of_dom; eauto|by rewrite elem_of_list_to_set].
Qed.

(** The status store of the extension server policies: [getAllStatuses]
    leaves its candidates empty, and a value event deletes none of its
    entries. *)
Lemma extension_status_lookup (val : list Resources) s
    (k : message.NamespacedNameAndGVK) :
  message.ExtensionPolicyStatuses
    (ProviderResources
       (returned.handle storedStatus Translate (mkUpdate false (Some val)) s)) !! k
  = match lastWrite k (extensionWrite storedStatus
                       <$> generationObjects Translate gatewayapi.ExtensionServerPolicies
                             val) with
    | Some v => Some v
    | None => message.ExtensionPolicyStatuses (ProviderResources s) !! k
    end.
Proof.
  rewrite (handle_value_status message.ExtensionPolicyStatuses
             ExtensionServerPolicyStatusKeys
             (λ result, extensionWrite storedStatus
                        <$> gatewayapi.ExtensionServerPolicies result)
             ltac:(status_loop) ltac:(done)).
  cbn [getAllStatuses ExtensionServerPolicyStatusKeys].
  rewrite decide_False by set_solver.
  by rewrite (generationObjects_fmap gatewayapi.ExtensionServerPolicies).
Qed.

Lemma extension_status_not_deleted (val : list Resources) s
    (k : message.NamespacedNameAndGVK) :
  is_Some (message.ExtensionPolicyStatuses (ProviderResources s) !! k) →
  is_Some (message.ExtensionPolicyStatuses
             (ProviderResources
                (returned.handle storedStatus Translate (mkUpdate false (Some val)) s))
           !! k).
Proof. intros Hk. rewrite extension_status_lookup. by destruct (lastWrite _ _). Qed.

(** The gateways' status store, as one of the twelve stores that
    [getAllStatuses] snapshots. *)
Lemma gateway_status_deleted (val : list Resources) s (k : types.NamespacedName) :
  is_Some (message.GatewayStatuses (ProviderResources s) !! k) →
  (message.GatewayStatuses
     (ProviderResources
        (returned.handle storedStatus Translate (mkUpdate false (Some val)) s)) !! k
   = None
   ↔ k ∉ utils.NamespacedName <$> generationObjects Translate gatewayapi.Gateways val).
Proof.
  apply (handle_status_deleted utils.NamespacedName (λ _, false) Status
           message.GatewayStatuses GatewayStatusKeys gatewayapi.Gateways);
    [status_loop|done|].
  intros s'. apply statusKeys_dom.
Qed.

(** *** A delete event *)

Lemma handle_teardown (update : Update Resources) s :
  Delete update = true ∨ Value update = None →
  let s' := returned.handle storedStatus Translate update s in
  InfraIR s' = ∅ ∧
  (∀ k : string,
     XdsIR s' !! k = if decide (k ∈ dom (InfraIR s)) then None else XdsIR s !! k) ∧
  ProviderResources s' = message.mkProviderResources ∅ ∅ ∅ ∅ ∅ ∅ ∅ ∅ ∅ ∅ ∅ ∅ ∅.
Proof.
  intros Hdel s'.
  assert (s' = deleteAllStatusKeys
                 (deleteIRKeys (keys (InfraIR s)) (log (Info "received an update") s)))
    as ->.
  { subst s'. unfold returned.handle. destruct update as [[] [val|]]; simpl in *; try done.
    by destruct Hdel. }
  destruct (deleteIRKeys_fields (keys (InfraIR s)) (log (Info "received an update") s))
    as (HI & HX & HP & _).
  unfold deleteAllStatusKeys.
  cbn [InfraIR XdsIR ProviderResources setProviderResources]. rewrite HI, HX.
  repeat split.
  - apply (deleteAll_empty (InfraIR s)).
  - intros k. rewrite foldl_delete_lookup. cbn [XdsIR log].
    destruct (decide (k ∈ keys (InfraIR s))) as [Hk|Hk];
      rewrite <- (elem_of_list_to_set (C := gset string)), keys_dom in Hk.
    + by rewrite decide_True by done.
    + by rewrite decide_False by done.
  - by rewrite !deleteAll_empty.
Qed.

End properties.

(** ** Translation errors *)

Section translation_error.
Context {Infra Xds : Type} `{!IR Infra, !IR Xds}.
Context {GatewayStatus RouteStatus PolicyStatus BackendStatus UnstructuredStatus : Type}.
Context `{!Zero PolicyStatus, !Zero BackendStatus}.
Context {Resources : Type}.
Variable storedStatus : UnstructuredStatus → option PolicyStatus.
Variable Translate :
  Resources → gatewayapi.TranslateResult Infra Xds GatewayStatus RouteStatus PolicyStatus
                BackendStatus UnstructuredStatus * option error.




End translation_error.

(** ** Further lemmas on an invocation that returns *)

Ltac extension_status_loop :=
  intros ? ? ?; unfold returned.updateStatus;
  cbn [fst snd message.ExtensionPolicyStatuses ExtensionServerPolicyStatusKeys];
  rewrite <- surjective_pairing; apply foldl_storeExtensionPolicyStatus.

Ltac stored_status_loop :=
  intros ? ? ?; unfold returned.updateStatus; cbn [fst snd
    message.GatewayStatuses message.HTTPRouteStatuses message.GRPCRouteStatuses
    message.TLSRouteStatuses message.TCPRouteStatuses message.UDPRouteStatuses
    message.BackendTLSPolicyStatuses message.ClientTrafficPolicyStatuses
    message.BackendTrafficPolicyStatuses message.SecurityPolicyStatuses
    message.EnvoyExtensionPolicyStatuses message.BackendStatuses
    GatewayStatusKeys HTTPRouteStatusKeys GRPCRouteStatusKeys TLSRouteStatusKeys
    TCPRouteStatusKeys UDPRouteStatusKeys BackendTLSPolicyStatusKeys
    ClientTrafficPolicyStatusKeys BackendTrafficPolicyStatusKeys SecurityPolicyStatusKeys
    EnvoyExtensionPolicyStatusKeys BackendStatusKeys];
  rewrite <- surjective_pairing;
  first [apply foldl_storeStatus | apply foldl_storeNonZeroStatus].


Section handler.
Context {Infra Xds : Type} `{!IR Infra, !IR Xds}.
Context {GatewayStatus RouteStatus PolicyStatus BackendStatus UnstructuredStatus : Type}.
Context `{!Zero PolicyStatus, !Zero BackendStatus}.
Context {Resources : Type}.
Variable storedStatus : UnstructuredStatus → option PolicyStatus.
Variable Translate :
  Resources → gatewayapi.TranslateResult Infra Xds GatewayStatus RouteStatus PolicyStatus
                BackendStatus UnstructuredStatus * option error.

Abbreviation St :=
  (State Infra Xds GatewayStatus RouteStatus PolicyStatus BackendStatus).

Lemma teardown_errChan (update : Update Resources) (s : St) :
  Delete update = true ∨ Value update = None →
  errChan (returned.handle storedStatus Translate update s) = errChan s ∧
  Logger (returned.handle storedStatus Translate update s)
  = Logger s ++ [Info "received an update"].
Proof.
  intros Hdel. unfold returned.handle.
  assert (errChan (deleteAllStatusKeys
                     (deleteIRKeys (keys (InfraIR s)) (log (Info "received an update") s)))
          = errChan s ∧
          Logger (deleteAllStatusKeys
                    (deleteIRKeys (keys (InfraIR s)) (log (Info "received an update") s)))
          = Logger s ++ [Info "received an update"]) as Herr.
  { unfold deleteAllStatusKeys. cbn [errChan Logger setProviderResources].
    by destruct (deleteIRKeys_fields (keys (InfraIR s)) (log (Info "received an update") s))
      as (_ & _ & _ & -> & ->). }
  destruct update as [[] [val|]]; cbn [Delete Value] in *; try exact Herr.
  by destruct Hdel.
Qed.

(** A delete event, and an event whose value is nil, empties the
    InfraIR store and the thirteen status stores, deletes from the XdsIR
    store exactly the keys of the InfraIR store (an XdsIR entry under another
    key stays as it is), and sends nothing on the error channel. *)
Lemma returned_delete_event_teardown (update : Update Resources) (s : St) :
  Delete update = true ∨ Value update = None →
  let s' := returned.handle storedStatus Translate update s in
  InfraIR s' = ∅ ∧
  (∀ k : string,
     XdsIR s' !! k = if decide (k ∈ dom (InfraIR s)) then None else XdsIR s !! k) ∧
  ProviderResources s' = message.mkProviderResources ∅ ∅ ∅ ∅ ∅ ∅ ∅ ∅ ∅ ∅ ∅ ∅ ∅ ∧
  errChan s' = errChan s.
Proof.
  intros Hdel s'.
  destruct (handle_teardown storedStatus Translate update s Hdel)
    as (HI & HX & HP).
  split; [exact HI|]. split; [exact HX|]. split; [exact HP|].
  subst s'. unfold returned.handle.
  assert (errChan (deleteAllStatusKeys
                     (deleteIRKeys (keys (InfraIR s)) (log (Info "received an update") s)))
          = errChan s) as Herr.
  { unfold deleteAllStatusKeys. cbn [errChan setProviderResources].
    by destruct (deleteIRKeys_fields (keys (InfraIR s)) (log (Info "received an update") s))
      as (_ & _ & _ & -> & _). }
  destruct update as [[] [val|]]; cbn [Delete Value] in *; try exact Herr.
  by destruct Hdel.
Qed.

(** After a value event the InfraIR store holds exactly the keys whose
    InfraIR entry passed validation in some bundle of the generation; the
    XdsIR store holds its former keys and the keys whose XdsIR entry passed
    validation, less the former InfraIR keys without an InfraIR entry that
    passed validation. *)
Lemma returned_value_event_key_sets (val : list Resources) (s : St) :
  let s' := returned.handle storedStatus Translate (mkUpdate false (Some val)) s in
  dom (InfraIR s') = generationKeys Translate gatewayapi.InfraIR val ∧
  dom (XdsIR s')
  = (dom (XdsIR s) ∪ generationKeys Translate gatewayapi.XdsIR val)
      ∖ (dom (InfraIR s) ∖ generationKeys Translate gatewayapi.InfraIR val).
Proof. apply handle_value_dom. Qed.

(** For each of the twelve status stores whose keys [getAllStatuses]
    snapshots, a value event deletes an entry that was present before it if
    and only if no resource of that kind in the generation's translation
    results has its key. *)
Lemma returned_stale_statuses_deleted (val : list Resources) (s : St) :
  let p := ProviderResources s in
  let p' := ProviderResources
              (returned.handle storedStatus Translate (mkUpdate false (Some val)) s) in
  staleStatusDeleted utils.NamespacedName
    (generationObjects Translate gatewayapi.Gateways val)
    (message.GatewayStatuses p) (message.GatewayStatuses p') ∧
  staleStatusDeleted utils.NamespacedName
    (generationObjects Translate gatewayapi.HTTPRoutes val)
    (message.HTTPRouteStatuses p) (message.HTTPRouteStatuses p') ∧
  staleStatusDeleted utils.NamespacedName
    (generationObjects Translate gatewayapi.GRPCRoutes val)
    (message.GRPCRouteStatuses p) (message.GRPCRouteStatuses p') ∧
  staleStatusDeleted utils.NamespacedName
    (generationObjects Translate gatewayapi.TLSRoutes val)
    (message.TLSRouteStatuses p) (message.TLSRouteStatuses p') ∧
  staleStatusDeleted utils.NamespacedName
    (generationObjects Translate gatewayapi.TCPRoutes val)
    (message.TCPRouteStatuses p) (message.TCPRouteStatuses p') ∧
  staleStatusDeleted utils.NamespacedName
    (generationObjects Translate gatewayapi.UDPRoutes val)
    (message.UDPRouteStatuses p) (message.UDPRouteStatuses p') ∧
  staleStatusDeleted utils.NamespacedName
    (generationObjects Translate gatewayapi.BackendTLSPolicies val)
    (message.BackendTLSPolicyStatuses p) (message.BackendTLSPolicyStatuses p') ∧
  staleStatusDeleted utils.NamespacedName
    (generationObjects Translate gatewayapi.ClientTrafficPolicies val)
    (message.ClientTrafficPolicyStatuses p) (message.ClientTrafficPolicyStatuses p') ∧
  staleStatusDeleted utils.NamespacedName
    (generationObjects Translate gatewayapi.BackendTrafficPolicies val)
    (message.BackendTrafficPolicyStatuses p) (message.BackendTrafficPolicyStatuses p') ∧
  staleStatusDeleted utils.NamespacedName
    (generationObjects Translate gatewayapi.SecurityPolicies val)
    (message.SecurityPolicyStatuses p) (message.SecurityPolicyStatuses p') ∧
  staleStatusDeleted utils.NamespacedName
    (generationObjects Translate gatewayapi.EnvoyExtensionPolicies val)
    (message.EnvoyExtensionPolicyStatuses p) (message.EnvoyExtensionPolicyStatuses p') ∧
  staleStatusDeleted utils.NamespacedName
    (generationObjects Translate gatewayapi.Backends val)
    (message.BackendStatuses p) (message.BackendStatuses p').
Proof.
  intros p p'. subst p p'. split_and!.
  - intros k. apply (handle_status_deleted _ _ utils.NamespacedName (λ _, false) Status
             message.GatewayStatuses GatewayStatusKeys gatewayapi.Gateways);
      [stored_status_loop|done|intros; apply statusKeys_dom].
  - intros k. apply (handle_status_deleted _ _ utils.NamespacedName (λ _, false) Status
             message.HTTPRouteStatuses HTTPRouteStatusKeys gatewayapi.HTTPRoutes);
      [stored_status_loop|done|intros; apply statusKeys_dom].
  - intros k. apply (handle_status_deleted _ _ utils.NamespacedName (λ _, false) Status
             message.GRPCRouteStatuses GRPCRouteStatusKeys gatewayapi.GRPCRoutes);
      [stored_status_loop|done|intros; apply statusKeys_dom].
  - intros k. apply (handle_status_deleted _ _ utils.NamespacedName (λ _, false) Status
             message.TLSRouteStatuses TLSRouteStatusKeys gatewayapi.TLSRoutes);
      [stored_status_loop|done|intros; apply statusKeys_dom].
  - intros k. apply (handle_status_deleted _ _ utils.NamespacedName (λ _, false) Status
             message.TCPRouteStatuses TCPRouteStatusKeys gatewayapi.TCPRoutes);
      [stored_status_loop|done|intros; apply statusKeys_dom].
  - intros k. apply (handle_status_deleted _ _ utils.NamespacedName (λ _, false) Status
             message.UDPRouteStatuses UDPRouteStatusKeys gatewayapi.UDPRoutes);
      [stored_status_loop|done|intros; apply statusKeys_dom].
  - intros k. apply (handle_status_deleted _ _ utils.NamespacedName (λ o, IsZero (Status o)) Status
             message.BackendTLSPolicyStatuses BackendTLSPolicyStatusKeys
             gatewayapi.BackendTLSPolicies);
      [stored_status_loop|done|intros; apply statusKeys_dom].
  - intros k. apply (handle_status_deleted _ _ utils.NamespacedName (λ o, IsZero (Status o)) Status
             message.ClientTrafficPolicyStatuses ClientTrafficPolicyStatusKeys
             gatewayapi.ClientTrafficPolicies);
      [stored_status_loop|done|intros; apply statusKeys_dom].
  - intros k. apply (handle_status_deleted _ _ utils.NamespacedName (λ o, IsZero (Status o)) Status
             message.BackendTrafficPolicyStatuses BackendTrafficPolicyStatusKeys
             gatewayapi.BackendTrafficPolicies);
      [stored_status_loop|done|intros; apply statusKeys_dom].
  - intros k. apply (handle_status_deleted _ _ utils.NamespacedName (λ o, IsZero (Status o)) Status
             message.SecurityPolicyStatuses SecurityPolicyStatusKeys
             gatewayapi.SecurityPolicies);
      [stored_status_loop|done|intros; apply statusKeys_dom].
  - intros k. apply (handle_status_deleted _ _ utils.NamespacedName (λ o, IsZero (Status o)) Status
             message.EnvoyExtensionPolicyStatuses EnvoyExtensionPolicyStatusKeys
             gatewayapi.EnvoyExtensionPolicies);
      [stored_status_loop|done|intros; apply statusKeys_dom].
  - intros k. apply (handle_status_deleted _ _ utils.NamespacedName (λ o, IsZero (Status o)) Status
             message.BackendStatuses BackendStatusKeys gatewayapi.Backends);
      [stored_status_loop|done|intros; apply statusKeys_dom].
Qed.

(** A value event deletes no entry of the status store of the extension
    server policies, whatever the generation's translation results are:
    every key of the store before the event is a key of it after the
    event. *)
Lemma returned_extension_statuses_survive (val : list Resources) (s : St) :
  dom (message.ExtensionPolicyStatuses (ProviderResources s))
  ⊆ dom (message.ExtensionPolicyStatuses
           (ProviderResources
              (returned.handle storedStatus Translate (mkUpdate false (Some val)) s))).
Proof.
  intros k Hk%elem_of_dom. apply elem_of_dom.
  by apply extension_status_not_deleted.
Qed.

Lemma generationKeys_app {T} `{!IR T}
    (field : gatewayapi.TranslateResult Infra Xds GatewayStatus RouteStatus PolicyStatus
               BackendStatus UnstructuredStatus → gmap string T)
    (val1 val2 : list Resources) :
  generationKeys Translate field (val1 ++ val2)
  = generationKeys Translate field val1 ∪ generationKeys Translate field val2.
Proof.
  unfold generationKeys. by rewrite fmap_app, union_list_app_L.
Qed.

Lemma elem_of_generationKeys {T} `{!IR T}
    (field : gatewayapi.TranslateResult Infra Xds GatewayStatus RouteStatus PolicyStatus
               BackendStatus UnstructuredStatus → gmap string T)
    (val : list Resources) (resources : Resources) (k : string) (v : T) :
  resources ∈ val → field (Translate resources).1 !! k = Some v → Validate v = None →
  k ∈ generationKeys Translate field val.
Proof.
  intros Hin Hk Hv. unfold generationKeys. apply elem_of_union_list.
  exists (validKeys (field (Translate resources).1)). split.
  - apply list_elem_of_fmap. by exists resources.
  - apply elem_of_validKeys. eauto.
Qed.

(** The last bundle that publishes a key decides its entry.  An InfraIR
    entry that passes validation, in a bundle followed by no bundle with a
    valid InfraIR entry under the same key, is the entry of its key after
    the event.  An XdsIR entry in the same situation among the XdsIR entries
    is the entry of its key after the event, unless the key was in the
    InfraIR store before the event and no InfraIR entry under it passes
    validation in the generation. *)
Lemma returned_last_valid_entry_stays (pre post : list Resources) (resources : Resources)
    (s : St) (k : string) :
  let val := pre ++ resources :: post in
  let s' := returned.handle storedStatus Translate (mkUpdate false (Some val)) s in
  (∀ v : Infra,
     gatewayapi.InfraIR (Translate resources).1 !! k = Some v → Validate v = None →
     k ∉ generationKeys Translate gatewayapi.InfraIR post →
     InfraIR s' !! k = Some v) ∧
  (∀ v : Xds,
     gatewayapi.XdsIR (Translate resources).1 !! k = Some v → Validate v = None →
     k ∉ generationKeys Translate gatewayapi.XdsIR post →
     (k ∈ dom (InfraIR s) → k ∈ generationKeys Translate gatewayapi.InfraIR val) →
     XdsIR s' !! k = Some v).
Proof.
  intros val s'.
  destruct (handle_value_lookup storedStatus Translate val s k) as [HI HX].
  fold s' in HI, HX. cbv zeta in HI, HX.
  pose proof (elem_of_delKeys storedStatus Translate val s k) as Hdel.
  cbv zeta in Hdel.
  set (g0 := mkGeneration (log (Info "received an update") s) []
               (getAllStatuses (log (Info "received an update") s))).
  assert (returned.afterBundles storedStatus Translate val s
          = foldl (returned.translateAndPublish storedStatus Translate)
              (returned.translateAndPublish storedStatus Translate
                 (foldl (returned.translateAndPublish storedStatus Translate) g0 pre)
                 resources) post) as Hg.
  { unfold returned.afterBundles, returned.translateAll, val. by rewrite foldl_app. }
  destruct (translateAndPublish_IR storedStatus Translate
              (foldl (returned.translateAndPublish storedStatus Translate) g0 pre)
              resources) as (HbI & HbX & _).
  cbv zeta in HbI, HbX.
  split.
  - intros v Hk Hv Hpost. rewrite HI, decide_False.
    + rewrite Hg, foldl_translateAndPublish_InfraIR_other by done.
      rewrite HbI, (publish_entry _ _ k v Hk). by rewrite decide_True.
    + rewrite Hdel. intros [_ Hnot]. apply Hnot.
      apply (elem_of_generationKeys gatewayapi.InfraIR val resources k v); [|done..].
      apply elem_of_app. right. apply list_elem_of_here.
  - intros v Hk Hv Hpost Hinfra. rewrite HX, decide_False.
    + rewrite Hg, foldl_translateAndPublish_XdsIR_other by done.
      rewrite HbX, (publish_entry _ _ k v Hk). by rewrite decide_True.
    + rewrite Hdel. intros [Hin Hnot]. by apply Hnot, Hinfra.
Qed.

(** What an event sends on the error channel: a delete event and an
    event with a nil value send nothing; a value event sends the errors of
    the entries that fail validation, bundle after bundle, the InfraIR
    entries of a bundle before its XdsIR entries, and nothing else. *)
Lemma returned_errors_sent_by_event (update : Update Resources) (s : St) :
  errChan (returned.handle storedStatus Translate update s)
  = errChan s ++ match Delete update, Value update with
                 | false, Some val => generationErrors Translate val
                 | _, _ => []
                 end.
Proof.
  destruct (Delete update) eqn:Hd, (Value update) as [val|] eqn:Hv.
  1,2,4: rewrite app_nil_r;
         by destruct (teardown_errChan update s) as [-> _]; auto.
  destruct update as [d v]. cbn [Delete Value] in Hd, Hv. subst d v.
  rewrite handle_value. cbv zeta.
  destruct (deleteStatusKeys_fields
              (statusesToDelete (returned.afterBundles storedStatus Translate val s))
              (deleteIRKeys
                 (getIRKeysToDelete (keys (InfraIR s))
                    (newIRKeys (returned.afterBundles storedStatus Translate val s)))
                 (state (returned.afterBundles storedStatus Translate val s))))
    as (_ & _ & -> & _).
  destruct (deleteIRKeys_fields
              (getIRKeysToDelete (keys (InfraIR s))
                 (newIRKeys (returned.afterBundles storedStatus Translate val s)))
              (state (returned.afterBundles storedStatus Translate val s)))
    as (_ & _ & _ & -> & _).
  by destruct (afterBundles_IR storedStatus Translate val s)
    as (_ & _ & _ & ->).
Qed.

Lemma deleteKeys_withoutKeys `{Countable K} {V} (store : gmap K V) (ks : gset K) :
  (deleteKeys store ks).1 = withoutKeys ks store.
Proof.
  apply map_eq. intros k. rewrite deleteKeys_lookup. unfold withoutKeys. symmetry.
  case_decide as Hk.
  - apply map_lookup_filter_None_2. right. intros v _ Hnot. by apply Hnot.
  - destruct (store !! k) as [v|] eqn:Hv.
    + by apply map_lookup_filter_Some_2.
    + apply map_lookup_filter_None_2. by left.
Qed.

Lemma withoutKeys_dom `{Countable K} {V} (store : gmap K V) :
  withoutKeys (dom store) store = ∅.
Proof.
  apply map_eq. intros k. rewrite lookup_empty. unfold withoutKeys.
  apply map_lookup_filter_None_2.
  destruct (store !! k) as [v|] eqn:Hv; [right|by left].
  intros w _ Hnot. apply Hnot. apply elem_of_dom. by eexists.
Qed.

Lemma withoutKeys_empty `{Countable K} {V} (store : gmap K V) :
  withoutKeys ∅ store = store.
Proof.
  apply map_eq. intros k. unfold withoutKeys.
  destruct (store !! k) as [v|] eqn:Hv.
  - apply map_lookup_filter_Some_2; [done|]. apply not_elem_of_empty.
  - apply map_lookup_filter_None_2. by left.
Qed.

Lemma deleteStatusKeys_stores (ds : StatusesToDelete) (s : St) :
  ProviderResources (deleteStatusKeys ds s).1
  = message.mkProviderResources
      (withoutKeys (GatewayStatusKeys ds) (message.GatewayStatuses (ProviderResources s)))
      (withoutKeys (HTTPRouteStatusKeys ds) (message.HTTPRouteStatuses (ProviderResources s)))
      (withoutKeys (GRPCRouteStatusKeys ds) (message.GRPCRouteStatuses (ProviderResources s)))
      (withoutKeys (TLSRouteStatusKeys ds) (message.TLSRouteStatuses (ProviderResources s)))
      (withoutKeys (TCPRouteStatusKeys ds) (message.TCPRouteStatuses (ProviderResources s)))
      (withoutKeys (UDPRouteStatusKeys ds) (message.UDPRouteStatuses (ProviderResources s)))
      (withoutKeys (BackendTLSPolicyStatusKeys ds)
                   (message.BackendTLSPolicyStatuses (ProviderResources s)))
      (withoutKeys (ClientTrafficPolicyStatusKeys ds)
                   (message.ClientTrafficPolicyStatuses (ProviderResources s)))
      (withoutKeys (BackendTrafficPolicyStatusKeys ds)
                   (message.BackendTrafficPolicyStatuses (ProviderResources s)))
      (withoutKeys (SecurityPolicyStatusKeys ds)
                   (message.SecurityPolicyStatuses (ProviderResources s)))
      (withoutKeys (EnvoyExtensionPolicyStatusKeys ds)
                   (message.EnvoyExtensionPolicyStatuses (ProviderResources s)))
      (withoutKeys (ExtensionServerPolicyStatusKeys ds)
                   (message.ExtensionPolicyStatuses (ProviderResources s)))
      (withoutKeys (BackendStatusKeys ds) (message.BackendStatuses (ProviderResources s))).
Proof.
  unfold deleteStatusKeys. cbn [fst ProviderResources setProviderResources].
  by rewrite !deleteKeys_withoutKeys.
Qed.

Lemma errors_sent_from_value (val : list Resources) (s : St) :
  errChan (returned.handle storedStatus Translate (mkUpdate false (Some val)) s)
  = errChan s ++ generationErrors Translate val.
Proof.
  rewrite handle_value. cbv zeta.
  destruct (deleteStatusKeys_fields
              (statusesToDelete (returned.afterBundles storedStatus Translate val s))
              (deleteIRKeys
                 (getIRKeysToDelete (keys (InfraIR s))
                    (newIRKeys (returned.afterBundles storedStatus Translate val s)))
                 (state (returned.afterBundles storedStatus Translate val s))))
    as (_ & _ & -> & _).
  destruct (deleteIRKeys_fields
              (getIRKeysToDelete (keys (InfraIR s))
                 (newIRKeys (returned.afterBundles storedStatus Translate val s)))
              (state (returned.afterBundles storedStatus Translate val s)))
    as (_ & _ & _ & -> & _).
  by destruct (afterBundles_IR storedStatus Translate val s)
    as (_ & _ & _ & ->).
Qed.

(** X7: [deleteStatusKeys] deletes from each status store exactly the keys
    of its candidate set, leaves every candidate set empty, and leaves the
    IR stores, the error channel and the log as they are. *)
Theorem deleteStatusKeys_effect (ds : StatusesToDelete) (s : St) :
  let p := ProviderResources s in
  let r := deleteStatusKeys ds s in
  ProviderResources r.1
  = message.mkProviderResources
      (withoutKeys (GatewayStatusKeys ds) (message.GatewayStatuses p))
      (withoutKeys (HTTPRouteStatusKeys ds) (message.HTTPRouteStatuses p))
      (withoutKeys (GRPCRouteStatusKeys ds) (message.GRPCRouteStatuses p))
      (withoutKeys (TLSRouteStatusKeys ds) (message.TLSRouteStatuses p))
      (withoutKeys (TCPRouteStatusKeys ds) (message.TCPRouteStatuses p))
      (withoutKeys (UDPRouteStatusKeys ds) (message.UDPRouteStatuses p))
      (withoutKeys (BackendTLSPolicyStatusKeys ds) (message.BackendTLSPolicyStatuses p))
      (withoutKeys (ClientTrafficPolicyStatusKeys ds)
                   (message.ClientTrafficPolicyStatuses p))
      (withoutKeys (BackendTrafficPolicyStatusKeys ds)
                   (message.BackendTrafficPolicyStatuses p))
      (withoutKeys (SecurityPolicyStatusKeys ds) (message.SecurityPolicyStatuses p))
      (withoutKeys (EnvoyExtensionPolicyStatusKeys ds)
                   (message.EnvoyExtensionPolicyStatuses p))
      (withoutKeys (ExtensionServerPolicyStatusKeys ds)
                   (message.ExtensionPolicyStatuses p))
      (withoutKeys (BackendStatusKeys ds) (message.BackendStatuses p)) ∧
  r.2 = mkStatusesToDelete ∅ ∅ ∅ ∅ ∅ ∅ ∅ ∅ ∅ ∅ ∅ ∅ ∅ ∧
  InfraIR r.1 = InfraIR s ∧ XdsIR r.1 = XdsIR s ∧
  errChan r.1 = errChan s ∧ Logger r.1 = Logger s.
Proof.
  intros p r. subst p r. unfold deleteStatusKeys.
  cbn [fst snd ProviderResources setProviderResources InfraIR XdsIR errChan Logger].
  rewrite !deleteKeys_withoutKeys, !deleteKeys_cleared. done.
Qed.

(** A value event whose snapshot has no bundle deletes every key of the
    InfraIR store from both planes and empties the twelve status stores
    that [getAllStatuses] snapshots; it leaves the status store of the
    extension server policies as it is and sends no error. *)
Lemma returned_empty_snapshot_cleans (s : St) :
  let s' := returned.handle storedStatus Translate (mkUpdate false (Some [])) s in
  InfraIR s' = ∅ ∧
  (∀ k : string,
     XdsIR s' !! k = if decide (k ∈ dom (InfraIR s)) then None else XdsIR s !! k) ∧
  ProviderResources s'
  = message.mkProviderResources ∅ ∅ ∅ ∅ ∅ ∅ ∅ ∅ ∅ ∅ ∅
      (message.ExtensionPolicyStatuses (ProviderResources s)) ∅ ∧
  errChan s' = errChan s.
Proof.
  intros s'.
  assert (∀ k : string,
            k ∈ getIRKeysToDelete (keys (InfraIR s)) [] ↔ k ∈ dom (InfraIR s)) as Hdel.
  { intros k. rewrite elem_of_getIRKeysToDelete, <- keys_dom, elem_of_list_to_set.
    split; [tauto|]. intros ?. split; [done|]. apply not_elem_of_nil. }
  split; [|split; [|split]].
  - apply map_eq. intros k. rewrite lookup_empty.
    destruct (handle_value_lookup storedStatus Translate [] s k) as [HI _].
    fold s' in HI. cbv zeta in HI. rewrite HI. clear HI.
    change (newIRKeys (returned.afterBundles storedStatus Translate [] s))
      with (@nil string).
    destruct (decide (k ∈ getIRKeysToDelete (keys (InfraIR s)) [])) as [Hk|Hk]; [done|].
    rewrite Hdel in Hk. by apply not_elem_of_dom.
  - intros k.
    destruct (handle_value_lookup storedStatus Translate [] s k) as [_ HX].
    fold s' in HX. cbv zeta in HX. rewrite HX. clear HX.
    change (newIRKeys (returned.afterBundles storedStatus Translate [] s))
      with (@nil string).
    destruct (decide (k ∈ getIRKeysToDelete (keys (InfraIR s)) [])) as [Hk|Hk];
      rewrite Hdel in Hk.
    + by rewrite decide_True.
    + by rewrite decide_False.
  - subst s'. rewrite handle_value. cbv zeta.
    rewrite deleteStatusKeys_stores.
    destruct (deleteIRKeys_fields
                (getIRKeysToDelete (keys (InfraIR s))
                   (newIRKeys (returned.afterBundles storedStatus Translate [] s)))
                (state (returned.afterBundles storedStatus Translate [] s)))
      as (_ & _ & -> & _).
    cbn [returned.afterBundles returned.translateAll foldl state statusesToDelete ProviderResources log
         getAllStatuses GatewayStatusKeys HTTPRouteStatusKeys GRPCRouteStatusKeys
         TLSRouteStatusKeys TCPRouteStatusKeys UDPRouteStatusKeys
         BackendTLSPolicyStatusKeys ClientTrafficPolicyStatusKeys
         BackendTrafficPolicyStatusKeys SecurityPolicyStatusKeys
         EnvoyExtensionPolicyStatusKeys ExtensionServerPolicyStatusKeys BackendStatusKeys].
    by rewrite !statusKeys_dom, !withoutKeys_dom, withoutKeys_empty.
  - subst s'. rewrite errors_sent_from_value. by rewrite app_nil_r.
Qed.

Lemma handle_keeps_planes_in_step (update : Update Resources) (s : St) :
  dom (InfraIR s) = dom (XdsIR s) →
  (∀ val, Delete update = false → Value update = Some val →
          generationKeys Translate gatewayapi.InfraIR val
          = generationKeys Translate gatewayapi.XdsIR val) →
  dom (InfraIR (returned.handle storedStatus Translate update s))
  = dom (XdsIR (returned.handle storedStatus Translate update s)).
Proof.
  intros Hdom Hkeys.
  destruct (Delete update) eqn:Hd, (Value update) as [val|] eqn:Hv.
  3: { destruct update as [d v]. cbn [Delete Value] in Hd, Hv. subst d v.
       destruct (handle_value_dom storedStatus Translate val s) as [-> ->].
       rewrite <- Hdom, <- (Hkeys val) by done. by rewrite cleanup_keys. }
  all: destruct (handle_teardown storedStatus Translate update s)
         as (-> & HX & _); [rewrite ?Hd, ?Hv; auto|];
       rewrite dom_empty_L; symmetry; apply dom_empty_iff_L, map_eq; intros k;
       rewrite HX, lookup_empty;
       destruct (decide (k ∈ dom (InfraIR s))) as [Hk|Hk]; [done|];
       rewrite Hdom in Hk; by apply not_elem_of_dom.
Qed.

(** Along a run of [subscribeAndTranslate] over any sequence of updates,
    the two planes keep the same key set, provided they had the same key
    set at the start and, in every value update of the sequence, the keys
    whose InfraIR entry passes validation are the keys whose XdsIR entry
    passes validation. *)
Lemma returned_planes_in_step_along_run (updates : list (Update Resources)) (s : St) :
  dom (InfraIR s) = dom (XdsIR s) →
  (∀ update val, update ∈ updates → Delete update = false → Value update = Some val →
     generationKeys Translate gatewayapi.InfraIR val
     = generationKeys Translate gatewayapi.XdsIR val) →
  dom (InfraIR (returned.subscribeAndTranslate storedStatus Translate updates s))
  = dom (XdsIR (returned.subscribeAndTranslate storedStatus Translate updates s)).
Proof.
  unfold returned.subscribeAndTranslate. cbn [log InfraIR XdsIR].
  revert s. induction updates as [|update updates IH]; intros s Hdom Hkeys; [done|].
  cbn [foldl]. apply IH.
  - apply handle_keeps_planes_in_step; [done|].
    intros val. apply Hkeys. apply list_elem_of_here.
  - intros u val Hu. apply Hkeys. by apply list_elem_of_further.
Qed.

Lemma foldl_translateAndPublish_InfraIR_same (val : list Resources)
    (g1 g2 : Generation Infra Xds GatewayStatus RouteStatus PolicyStatus BackendStatus)
    (k : string) :
  k ∈ generationKeys Translate gatewayapi.InfraIR val →
  InfraIR (state (foldl (returned.translateAndPublish storedStatus Translate) g1 val))
    !! k
  = InfraIR (state (foldl (returned.translateAndPublish storedStatus Translate) g2 val))
      !! k.
Proof.
  revert g1 g2. induction val as [|b val IH]; intros g1 g2 Hk.
  { change (k ∈ (∅ : gset string)) in Hk. by rewrite elem_of_empty in Hk. }
  cbn [foldl].
  destruct (decide (k ∈ generationKeys Translate gatewayapi.InfraIR val)) as [Hval|Hval].
  { by apply IH. }
  rewrite !foldl_translateAndPublish_InfraIR_other by done.
  rewrite generationKeys_cons in Hk. apply elem_of_union in Hk as [Hb|?]; [|done].
  destruct (translateAndPublish_IR storedStatus Translate g1 b) as (-> & _).
  destruct (translateAndPublish_IR storedStatus Translate g2 b) as (-> & _).
  unfold validKeys in Hb. apply elem_of_dom in Hb as [v Hv].
  by rewrite !(lookup_union_Some_l _ _ _ _ Hv).
Qed.

Lemma handle_status_idempotent `{Countable K} {V}
    (store : message.ProviderResources GatewayStatus RouteStatus PolicyStatus BackendStatus
             → gmap K V)
    (candidates : StatusesToDelete → gset K)
    (writes : gatewayapi.TranslateResult Infra Xds GatewayStatus RouteStatus PolicyStatus
                BackendStatus UnstructuredStatus → list (K * option V)) :
  (∀ result p ds,
     (store (returned.updateStatus storedStatus result p ds).1,
      candidates (returned.updateStatus storedStatus result p ds).2)
     = applyWrites (store p, candidates ds) (writes result)) →
  (∀ ds (s : St), store (ProviderResources (deleteStatusKeys ds s).1)
                  = (deleteKeys (store (ProviderResources s)) (candidates ds)).1) →
  (∀ s : St, candidates (getAllStatuses s) = dom (store (ProviderResources s))) ∨
  (∀ s : St, candidates (getAllStatuses s) = ∅) →
  ∀ (val : list Resources) (s : St),
    let s1 := returned.handle storedStatus Translate (mkUpdate false (Some val)) s in
    let s2 := returned.handle storedStatus Translate (mkUpdate false (Some val)) s1 in
    store (ProviderResources s2) = store (ProviderResources s1).
Proof.
  intros Hwrites Hdelete Hcand val s s1 s2. apply map_eq. intros k.
  pose proof (handle_value_status storedStatus Translate store candidates
                writes Hwrites Hdelete val s k) as H1.
  pose proof (handle_value_status storedStatus Translate store candidates
                writes Hwrites Hdelete val s1 k) as H2.
  cbv beta zeta in H1, H2. fold s1 in H1, H2. fold s2 in H2.
  rewrite H2. clear H2.
  set (ws := val ≫= λ resources, writes (Translate resources).1) in *.
  destruct (decide (k ∈ candidates (getAllStatuses s1) ∖ list_to_set ws.*1))
    as [Hk1|Hk1].
  - apply elem_of_difference in Hk1 as [Hin Hnot].
    rewrite elem_of_list_to_set in Hnot.
    rewrite H1, (lastWrite_None_not_written k ws Hnot). clear H1.
    destruct (decide (k ∈ candidates (getAllStatuses s) ∖ list_to_set ws.*1))
      as [Hk|Hk]; [done|].
    destruct Hcand as [Hcand|Hcand].
    + symmetry. apply not_elem_of_dom. intros Hdom. apply Hk. apply elem_of_difference.
      rewrite Hcand. split; [done|by rewrite elem_of_list_to_set].
    + rewrite Hcand in Hin. by apply elem_of_empty in Hin.
  - destruct (lastWrite k ws) as [v|] eqn:Hlast; [|done].
    rewrite H1. clear H1.
    destruct (decide (k ∈ candidates (getAllStatuses s) ∖ list_to_set ws.*1))
      as [Hk|Hk]; [|done].
    apply elem_of_difference in Hk as [_ Hnot]. rewrite elem_of_list_to_set in Hnot.
    by rewrite (lastWrite_None_not_written k ws Hnot) in Hlast.
Qed.

(** Processing the same snapshot in two consecutive generations
    changes neither the InfraIR store nor any of the thirteen status stores
    the second time: entry for entry, they are after the second generation
    what they were after the first. *)
Lemma returned_same_snapshot_twice_stores (val : list Resources) (s : St) :
  let s1 := returned.handle storedStatus Translate (mkUpdate false (Some val)) s in
  let s2 := returned.handle storedStatus Translate (mkUpdate false (Some val)) s1 in
  InfraIR s2 = InfraIR s1 ∧ ProviderResources s2 = ProviderResources s1.
Proof.
  intros s1 s2. split.
  - apply map_eq. intros k.
    destruct (handle_value_lookup storedStatus Translate val s k) as [H1 _].
    destruct (handle_value_lookup storedStatus Translate val s1 k) as [H2 _].
    fold s1 in H1, H2. fold s2 in H2. cbv zeta in H1, H2.
    pose proof (elem_of_delKeys storedStatus Translate val s k) as Hd1.
    pose proof (elem_of_delKeys storedStatus Translate val s1 k) as Hd2.
    cbv zeta in Hd1, Hd2.
    destruct (handle_value_dom storedStatus Translate val s) as [Hdom1 _].
    destruct (handle_value_dom storedStatus Translate val s1) as [Hdom2 _].
    fold s1 in Hdom1, Hdom2. fold s2 in Hdom2.
    destruct (decide (k ∈ generationKeys Translate gatewayapi.InfraIR val)) as [Hk|Hk].
    + rewrite H1, H2, !decide_False by (rewrite ?Hd1, ?Hd2; tauto).
      by apply foldl_translateAndPublish_InfraIR_same.
    + rewrite <- Hdom2 in Hk. rewrite (proj1 (not_elem_of_dom _ _) Hk).
      rewrite Hdom2, <- Hdom1 in Hk. by rewrite (proj1 (not_elem_of_dom _ _) Hk).
  - assert (∀ p q : message.ProviderResources GatewayStatus RouteStatus PolicyStatus
                      BackendStatus,
              message.GatewayStatuses p = message.GatewayStatuses q →
              message.HTTPRouteStatuses p = message.HTTPRouteStatuses q →
              message.GRPCRouteStatuses p = message.GRPCRouteStatuses q →
              message.TLSRouteStatuses p = message.TLSRouteStatuses q →
              message.TCPRouteStatuses p = message.TCPRouteStatuses q →
              message.UDPRouteStatuses p = message.UDPRouteStatuses q →
              message.BackendTLSPolicyStatuses p = message.BackendTLSPolicyStatuses q →
              message.ClientTrafficPolicyStatuses p = message.ClientTrafficPolicyStatuses q →
              message.BackendTrafficPolicyStatuses p = message.BackendTrafficPolicyStatuses q →
              message.SecurityPolicyStatuses p = message.SecurityPolicyStatuses q →
              message.EnvoyExtensionPolicyStatuses p = message.EnvoyExtensionPolicyStatuses q →
              message.ExtensionPolicyStatuses p = message.ExtensionPolicyStatuses q →
              message.BackendStatuses p = message.BackendStatuses q →
              p = q) as Heta.
    { intros [] []. cbn. by intros -> -> -> -> -> -> -> -> -> -> -> -> ->. }
    apply Heta.
    + apply (handle_status_idempotent message.GatewayStatuses GatewayStatusKeys
               (λ r, writeOf utils.NamespacedName (λ _, false) Status
                     <$> gatewayapi.Gateways r));
        [stored_status_loop|done|left; intros s0; apply statusKeys_dom].
    + apply (handle_status_idempotent message.HTTPRouteStatuses HTTPRouteStatusKeys
               (λ r, writeOf utils.NamespacedName (λ _, false) Status
                     <$> gatewayapi.HTTPRoutes r));
        [stored_status_loop|done|left; intros s0; apply statusKeys_dom].
    + apply (handle_status_idempotent message.GRPCRouteStatuses GRPCRouteStatusKeys
               (λ r, writeOf utils.NamespacedName (λ _, false) Status
                     <$> gatewayapi.GRPCRoutes r));
        [stored_status_loop|done|left; intros s0; apply statusKeys_dom].
    + apply (handle_status_idempotent message.TLSRouteStatuses TLSRouteStatusKeys
               (λ r, writeOf utils.NamespacedName (λ _, false) Status
                     <$> gatewayapi.TLSRoutes r));
        [stored_status_loop|done|left; intros s0; apply statusKeys_dom].
    + apply (handle_status_idempotent message.TCPRouteStatuses TCPRouteStatusKeys
               (λ r, writeOf utils.NamespacedName (λ _, false) Status
                     <$> gatewayapi.TCPRoutes r));
        [stored_status_loop|done|left; intros s0; apply statusKeys_dom].
    + apply (handle_status_idempotent message.UDPRouteStatuses UDPRouteStatusKeys
               (λ r, writeOf utils.NamespacedName (λ _, false) Status
                     <$> gatewayapi.UDPRoutes r));
        [stored_status_loop|done|left; intros s0; apply statusKeys_dom].
    + apply (handle_status_idempotent message.BackendTLSPolicyStatuses
               BackendTLSPolicyStatusKeys
               (λ r, writeOf utils.NamespacedName (λ o, IsZero (Status o)) Status
                     <$> gatewayapi.BackendTLSPolicies r));
        [stored_status_loop|done|left; intros s0; apply statusKeys_dom].
    + apply (handle_status_idempotent message.ClientTrafficPolicyStatuses
               ClientTrafficPolicyStatusKeys
               (λ r, writeOf utils.NamespacedName (λ o, IsZero (Status o)) Status
                     <$> gatewayapi.ClientTrafficPolicies r));
        [stored_status_loop|done|left; intros s0; apply statusKeys_dom].
    + apply (handle_status_idempotent message.BackendTrafficPolicyStatuses
               BackendTrafficPolicyStatusKeys
               (λ r, writeOf utils.NamespacedName (λ o, IsZero (Status o)) Status
                     <$> gatewayapi.BackendTrafficPolicies r));
        [stored_status_loop|done|left; intros s0; apply statusKeys_dom].
    + apply (handle_status_idempotent message.SecurityPolicyStatuses
               SecurityPolicyStatusKeys
               (λ r, writeOf utils.NamespacedName (λ o, IsZero (Status o)) Status
                     <$> gatewayapi.SecurityPolicies r));
        [stored_status_loop|done|left; intros s0; apply statusKeys_dom].
    + apply (handle_status_idempotent message.EnvoyExtensionPolicyStatuses
               EnvoyExtensionPolicyStatusKeys
               (λ r, writeOf utils.NamespacedName (λ o, IsZero (Status o)) Status
                     <$> gatewayapi.EnvoyExtensionPolicies r));
        [stored_status_loop|done|left; intros s0; apply statusKeys_dom].
    + apply (handle_status_idempotent message.ExtensionPolicyStatuses
               ExtensionServerPolicyStatusKeys
               (λ r, extensionWrite storedStatus <$> gatewayapi.ExtensionServerPolicies r));
        [extension_status_loop|done|by right].
    + apply (handle_status_idempotent message.BackendStatuses BackendStatusKeys
               (λ r, writeOf utils.NamespacedName (λ o, IsZero (Status o)) Status
                     <$> gatewayapi.Backends r));
        [stored_status_loop|done|left; intros s0; apply statusKeys_dom].
Qed.

(** Whatever a run of [subscribeAndTranslate] handled before, once its
    last update is a delete event the InfraIR store and the thirteen status
    stores are empty, and no key of the InfraIR store is left in the XdsIR
    store. *)
Lemma returned_run_ending_with_delete (updates : list (Update Resources))
    (update : Update Resources) (s : St) :
  Delete update = true →
  let s' := returned.subscribeAndTranslate storedStatus Translate
              (updates ++ [update]) s in
  InfraIR s' = ∅ ∧
  ProviderResources s' = message.mkProviderResources ∅ ∅ ∅ ∅ ∅ ∅ ∅ ∅ ∅ ∅ ∅ ∅ ∅ ∧
  dom (XdsIR s') ## dom (InfraIR (foldl (λ s update,
                                           returned.handle storedStatus Translate
                                                  update s) s updates)).
Proof.
  intros Hdel s'. subst s'. unfold returned.subscribeAndTranslate.
  rewrite foldl_app. cbn [foldl log InfraIR XdsIR ProviderResources].
  set (s0 := foldl (λ s update, returned.handle storedStatus Translate update s)
                   s updates).
  destruct (handle_teardown storedStatus Translate update s0)
    as (HI & HX & HP); [by left|].
  cbv zeta in *. split; [exact HI|]. split; [exact HP|].
  apply elem_of_disjoint. intros k [v Hv]%elem_of_dom Hk.
  rewrite HX, decide_True in Hv by done. discriminate Hv.
Qed.

(** A value event leaves as it is every XdsIR entry whose key was not
    in the InfraIR store before the event and has no XdsIR entry that passes
    validation in the generation: the cleanup, which takes its keys from the
    InfraIR store, never deletes it. *)
Lemma returned_xds_entry_untouched (val : list Resources) (s : St) (k : string) :
  k ∉ dom (InfraIR s) →
  k ∉ generationKeys Translate gatewayapi.XdsIR val →
  XdsIR (returned.handle storedStatus Translate (mkUpdate false (Some val)) s) !! k
  = XdsIR s !! k.
Proof.
  intros Hinfra Hxds.
  destruct (handle_value_lookup storedStatus Translate val s k) as [_ HX].
  pose proof (elem_of_delKeys storedStatus Translate val s k) as Hdel.
  cbv zeta in HX, Hdel. rewrite HX, decide_False by (rewrite Hdel; tauto).
  unfold returned.afterBundles, returned.translateAll.
  by rewrite foldl_translateAndPublish_XdsIR_other.
Qed.

End handler.

(** X10: [getIRKeysToDelete] returns no key exactly when every current key
    is among the new keys, and never returns more keys than the current
    keys it is given. *)
Theorem getIRKeysToDelete_nothing_stale (curKeys newKeys : list string) :
  (getIRKeysToDelete curKeys newKeys = [] ↔ ∀ k, k ∈ curKeys → k ∈ newKeys) ∧
  (length (getIRKeysToDelete curKeys newKeys) ≤ length curKeys)%nat.
Proof.
  split.
  - split.
    + intros Hnil k Hk. destruct (decide (k ∈ newKeys)) as [|Hnew]; [done|].
      assert (k ∈ getIRKeysToDelete curKeys newKeys) as Hin
        by by apply elem_of_getIRKeysToDelete.
      rewrite Hnil in Hin. by apply elem_of_nil in Hin.
    + intros Hall. apply elem_of_nil_inv. intros k [Hk Hnew]%elem_of_getIRKeysToDelete.
      by apply Hnew, Hall.
  - apply submseteq_length, NoDup_submseteq.
    + unfold getIRKeysToDelete. apply sets_List_NoDup.
    + intros k Hk%elem_of_getIRKeysToDelete. tauto.
Qed.

(** ** The handler and its panics

    [handle] returns unless the loop over the extension server policies
    panics, and what it returns is what [returned.handle] computes with the
    statuses [statusToStore] gives. *)

Lemma forEach_returned {A B} (body : A → B → option A) (step : A → B → A)
    (bad : B → bool) :
  (∀ acc x, body acc x = if bad x then None else Some (step acc x)) →
  ∀ l acc, forEach body acc l = if existsb bad l then None else Some (foldl step acc l).
Proof.
  intros Hbody l. induction l as [|x l IH]; intros acc; [done|].
  cbn [forEach existsb foldl]. rewrite Hbody. destruct (bad x); [done|]. apply IH.
Qed.

Lemma existsb_false_app {A} (f : A → bool) (l1 l2 : list A) :
  existsb f (l1 ++ l2) = false ↔ existsb f l1 = false ∧ existsb f l2 = false.
Proof. rewrite existsb_app. destruct (existsb f l1), (existsb f l2); naive_solver. Qed.


Lemma statusToStore_zero {M P} `{!Zero M} (convert : M → P) (x : any M) :
  valueIsZero x = Some true → statusToStore convert x = None.
Proof. destruct x as [|m|zero]; cbn; [done| |done]. by intros [= ->]. Qed.

Section panics.
Context {Infra Xds : Type} `{!IR Infra, !IR Xds}.
Context {GatewayStatus RouteStatus PolicyStatus BackendStatus UnstructuredStatus : Type}.
Context `{!Zero PolicyStatus, !Zero BackendStatus, !Zero UnstructuredStatus}.
Context {Resources : Type}.
Variable unstructuredToPolicyStatus : UnstructuredStatus → PolicyStatus.
Variable Translate :
  Resources → gatewayapi.TranslateResult Infra Xds GatewayStatus RouteStatus PolicyStatus
                BackendStatus (any UnstructuredStatus) * option error.

Abbreviation St :=
  (State Infra Xds GatewayStatus RouteStatus PolicyStatus BackendStatus).
Abbreviation storedStatus := (statusToStore unstructuredToPolicyStatus).

Lemma storeExtensionPolicyStatus_returned acc
    (extServerPolicy : Unstructured (any UnstructuredStatus)) :
  storeExtensionPolicyStatus unstructuredToPolicyStatus acc extServerPolicy
  = if panics (ObjectStatus extServerPolicy) then None
    else Some (returned.storeExtensionPolicyStatus storedStatus acc extServerPolicy).
Proof.
  unfold storeExtensionPolicyStatus, returned.storeExtensionPolicyStatus.
  destruct (ObjectStatus extServerPolicy) as [|m|[]]; cbn; try done.
  by destruct (IsZero m).
Qed.

Lemma updateStatus_returned
    (result : gatewayapi.TranslateResult Infra Xds GatewayStatus RouteStatus PolicyStatus
                BackendStatus (any UnstructuredStatus))
    (p : message.ProviderResources GatewayStatus RouteStatus PolicyStatus BackendStatus)
    (ds : StatusesToDelete) :
  updateStatus unstructuredToPolicyStatus result p ds
  = if existsb (λ obj, panics (ObjectStatus obj)) (gatewayapi.ExtensionServerPolicies result)
    then None
    else Some (returned.updateStatus storedStatus result p ds).
Proof.
  unfold updateStatus, returned.updateStatus. cbv zeta.
  rewrite (forEach_returned _ _ _ storeExtensionPolicyStatus_returned).
  by destruct (existsb _ _).
Qed.

Lemma translateAndPublish_returned (g : Generation _ _ _ _ _ _) (resources : Resources) :
  translateAndPublish unstructuredToPolicyStatus Translate g resources
  = if bundlePanics Translate resources then None
    else Some (returned.translateAndPublish storedStatus Translate g resources).
Proof.
  unfold translateAndPublish, returned.translateAndPublish, bundlePanics. cbv zeta.
  rewrite updateStatus_returned. by destruct (existsb _ _).
Qed.

Lemma translateAll_returned (val : list Resources) (s : St) :
  translateAll unstructuredToPolicyStatus Translate val s
  = if generationPanics Translate val then None
    else Some (returned.translateAll storedStatus Translate val s).
Proof.
  unfold translateAll, returned.translateAll, generationPanics.
  apply forEach_returned, translateAndPublish_returned.
Qed.

Lemma afterBundles_returned (val : list Resources) (s : St) :
  afterBundles unstructuredToPolicyStatus Translate val s
  = if generationPanics Translate val then None
    else Some (returned.afterBundles storedStatus Translate val s).
Proof. apply translateAll_returned. Qed.

Lemma handle_returned (update : Update Resources) (s : St) :
  handle unstructuredToPolicyStatus Translate update s
  = if updatePanics Translate update then None
    else Some (returned.handle storedStatus Translate update s).
Proof.
  unfold handle, returned.handle, updatePanics.
  destruct (Delete update), (Value update) as [val|]; try done.
  cbv zeta. rewrite translateAll_returned. by destruct (generationPanics _ _).
Qed.

Lemma subscribeAndTranslate_returned (updates : list (Update Resources)) (s : St) :
  subscribeAndTranslate unstructuredToPolicyStatus Translate updates s
  = if runPanics Translate updates then None
    else Some (returned.subscribeAndTranslate storedStatus Translate updates s).
Proof.
  unfold subscribeAndTranslate, returned.subscribeAndTranslate, runPanics.
  rewrite (forEach_returned _ (λ s update, returned.handle storedStatus Translate update s)
             (updatePanics Translate)) by (intros; apply handle_returned).
  by destruct (existsb _ _).
Qed.

Lemma handle_value_returns (val : list Resources) (s : St) :
  generationPanics Translate val = false →
  handle unstructuredToPolicyStatus Translate (mkUpdate false (Some val)) s
  = Some (returned.handle storedStatus Translate (mkUpdate false (Some val)) s).
Proof.
  intros Hret. rewrite handle_returned. cbn [updatePanics Delete Value]. by rewrite Hret.
Qed.

Lemma handle_teardown_returns (update : Update Resources) (s : St) :
  Delete update = true ∨ Value update = None →
  handle unstructuredToPolicyStatus Translate update s
  = Some (returned.handle storedStatus Translate update s).
Proof.
  intros Hdel. rewrite handle_returned. unfold updatePanics.
  destruct (Delete update), (Value update); try done. by destruct Hdel.
Qed.


(** The status store of the extension server policies after a value event
    that returns. *)
Lemma handle_extension_status_kept (val : list Resources) (s : St) :
  extensionStatusKept unstructuredToPolicyStatus
    (generationObjects Translate gatewayapi.ExtensionServerPolicies val)
    (message.ExtensionPolicyStatuses (ProviderResources s))
    (message.ExtensionPolicyStatuses
       (ProviderResources
          (returned.handle storedStatus Translate (mkUpdate false (Some val)) s))).
Proof.
  intros obj Hobj. split.
  - intros Hall. rewrite extension_status_lookup.
    rewrite (lastWrite_fmap_None (extensionWrite storedStatus)); [done|].
    intros o Ho Hk. apply statusToStore_zero. by apply Hall.
  - intros pre post m Hobjs Hm Hnz Hpost. rewrite extension_status_lookup, Hobjs.
    change (extensionPolicyKey obj) with (extensionWrite storedStatus obj).1.
    rewrite (lastWrite_fmap_Some _ pre post obj (unstructuredToPolicyStatus m)); [done| |].
    + cbn. rewrite Hm. cbn. by rewrite Hnz.
    + intros o Ho Hk. apply statusToStore_zero. by apply Hpost.
Qed.

Lemma handle_statuses_updated (val : list Resources) (s : St) :
  statusesUpdated unstructuredToPolicyStatus Translate val (ProviderResources s)
    (ProviderResources
       (returned.handle storedStatus Translate (mkUpdate false (Some val)) s)).
Proof.
  destruct (returned_typed_statuses_updated storedStatus Translate val s)
    as [Hover (H1 & H2 & H3 & H4 & H5 & H6)].
  split; [exact Hover|]. split_and!; try done. apply handle_extension_status_kept.
Qed.

Lemma handle_stale_statuses_deleted (val : list Resources) (s : St) :
  staleStatusesDeleted Translate val (ProviderResources s)
    (ProviderResources
       (returned.handle storedStatus Translate (mkUpdate false (Some val)) s)).
Proof. apply (returned_stale_statuses_deleted storedStatus Translate val s). Qed.

End panics.


(** ** Properties of the handler *)

Section claims.
Context {Infra Xds : Type} `{!IR Infra, !IR Xds}.
Context {GatewayStatus RouteStatus PolicyStatus BackendStatus UnstructuredStatus : Type}.
Context `{!Zero PolicyStatus, !Zero BackendStatus, !Zero UnstructuredStatus}.
Context {Resources : Type}.
Variable unstructuredToPolicyStatus : UnstructuredStatus → PolicyStatus.
Variable Translate :
  Resources → gatewayapi.TranslateResult Infra Xds GatewayStatus RouteStatus PolicyStatus
                BackendStatus (any UnstructuredStatus) * option error.

Abbreviation St :=
  (State Infra Xds GatewayStatus RouteStatus PolicyStatus BackendStatus).
Abbreviation storedStatus := (statusToStore unstructuredToPolicyStatus).


(** C4, as amended: after a value event that returns, the status entry of a
    gateway or of an HTTP, GRPC, TLS, TCP or UDP route of the generation's
    translation results is the status of the last resource with its key,
    empty or not.  For the typed policies (backend TLS, client traffic,
    backend traffic, security and envoy extension policies) and the
    backends the entry is what it was before the generation when every
    resource with its key has an empty status, and is the status of the last
    resource with its key whose status is not empty otherwise.  For the
    extension server policies the entry is what it was before when every
    resource with its key has a zero value under "status", and is the
    conversion of the last map that is not nil otherwise. *)
Theorem status_kept_or_overwritten (val : list Resources) (s : St) :
  generationPanics Translate val = false →
  ∃ s',
    handle unstructuredToPolicyStatus Translate (mkUpdate false (Some val)) s = Some s' ∧
    let p := ProviderResources s in
    let p' := ProviderResources s' in
    (statusOverwritten utils.NamespacedName Status
       (generationObjects Translate gatewayapi.Gateways val) (message.GatewayStatuses p') ∧
     statusOverwritten utils.NamespacedName Status
       (generationObjects Translate gatewayapi.HTTPRoutes val) (message.HTTPRouteStatuses p') ∧
     statusOverwritten utils.NamespacedName Status
       (generationObjects Translate gatewayapi.GRPCRoutes val) (message.GRPCRouteStatuses p') ∧
     statusOverwritten utils.NamespacedName Status
       (generationObjects Translate gatewayapi.TLSRoutes val) (message.TLSRouteStatuses p') ∧
     statusOverwritten utils.NamespacedName Status
       (generationObjects Translate gatewayapi.TCPRoutes val) (message.TCPRouteStatuses p') ∧
     statusOverwritten utils.NamespacedName Status
       (generationObjects Translate gatewayapi.UDPRoutes val) (message.UDPRouteStatuses p')) ∧
    (statusKept utils.NamespacedName (λ o, IsZero (Status o)) Status
       (generationObjects Translate gatewayapi.BackendTLSPolicies val)
       (message.BackendTLSPolicyStatuses p) (message.BackendTLSPolicyStatuses p') ∧
     statusKept utils.NamespacedName (λ o, IsZero (Status o)) Status
       (generationObjects Translate gatewayapi.ClientTrafficPolicies val)
       (message.ClientTrafficPolicyStatuses p) (message.ClientTrafficPolicyStatuses p') ∧
     statusKept utils.NamespacedName (λ o, IsZero (Status o)) Status
       (generationObjects Translate gatewayapi.BackendTrafficPolicies val)
       (message.BackendTrafficPolicyStatuses p) (message.BackendTrafficPolicyStatuses p') ∧
     statusKept utils.NamespacedName (λ o, IsZero (Status o)) Status
       (generationObjects Translate gatewayapi.SecurityPolicies val)
       (message.SecurityPolicyStatuses p) (message.SecurityPolicyStatuses p') ∧
     statusKept utils.NamespacedName (λ o, IsZero (Status o)) Status
       (generationObjects Translate gatewayapi.EnvoyExtensionPolicies val)
       (message.EnvoyExtensionPolicyStatuses p) (message.EnvoyExtensionPolicyStatuses p') ∧
     statusKept utils.NamespacedName (λ o, IsZero (Status o)) Status
       (generationObjects Translate gatewayapi.Backends val)
       (message.BackendStatuses p) (message.BackendStatuses p') ∧
     extensionStatusKept unstructuredToPolicyStatus
       (generationObjects Translate gatewayapi.ExtensionServerPolicies val)
       (message.ExtensionPolicyStatuses p) (message.ExtensionPolicyStatuses p')).
Proof.
  intros Hret. eexists. split; [by apply handle_value_returns|].
  apply handle_statuses_updated.
Qed.

(** C8: in a value event that returns, the bundle loop deletes nothing from
    either plane, and a key added to [newIRKeys] by some bundle of the
    generation is not among the keys to delete: the cleanup leaves its entry
    in both planes as the bundle loop left it, and its InfraIR entry is
    present after the event, also when the key was in the store before the
    generation. *)
Theorem produced_key_not_deleted (val : list Resources) (s : St) (k : string) :
  generationPanics Translate val = false →
  ∃ g s',
    afterBundles unstructuredToPolicyStatus Translate val s = Some g ∧
    handle unstructuredToPolicyStatus Translate (mkUpdate false (Some val)) s = Some s' ∧
    (k ∈ newIRKeys g →
     (k ∉ getIRKeysToDelete (keys (InfraIR s)) (newIRKeys g)) ∧
     InfraIR s' !! k = InfraIR (state g) !! k ∧
     XdsIR s' !! k = XdsIR (state g) !! k ∧
     is_Some (InfraIR s' !! k)) ∧
    dom (InfraIR s) ⊆ dom (InfraIR (state g)) ∧
    dom (XdsIR s) ⊆ dom (XdsIR (state g)).
Proof.
  intros Hret. eexists _, _.
  split; [by rewrite afterBundles_returned, Hret|].
  split; [by apply handle_value_returns|].
  destruct (afterBundles_IR storedStatus Translate val s) as (HdI & HdX & _).
  cbv zeta in HdI, HdX. split; [|split].
  - intros Hk.
    destruct (returned_produced_key_not_deleted storedStatus Translate val s k Hk)
      as (Hdel & HI & HX & Hsome & _).
    done.
  - rewrite HdI. apply union_subseteq_l.
  - rewrite HdX. apply union_subseteq_l.
Qed.



(** *** Further properties *)

(** X1: a delete event, and an event whose value is nil, returns; it
    empties the InfraIR store and the thirteen status stores, deletes from
    the XdsIR store exactly the keys of the InfraIR store (an XdsIR entry
    under another key stays as it is), and sends nothing on the error
    channel. *)
Theorem delete_event_teardown (update : Update Resources) (s : St) :
  Delete update = true ∨ Value update = None →
  ∃ s',
    handle unstructuredToPolicyStatus Translate update s = Some s' ∧
    InfraIR s' = ∅ ∧
    (∀ k : string,
       XdsIR s' !! k = if decide (k ∈ dom (InfraIR s)) then None else XdsIR s !! k) ∧
    ProviderResources s' = message.mkProviderResources ∅ ∅ ∅ ∅ ∅ ∅ ∅ ∅ ∅ ∅ ∅ ∅ ∅ ∧
    errChan s' = errChan s.
Proof.
  intros Hdel. eexists. split; [by apply handle_teardown_returns|].
  by apply returned_delete_event_teardown.
Qed.

(** X2: a value event in which no extension server policy makes the handler
    panic returns, and after it the InfraIR store holds exactly the keys
    whose InfraIR entry passed validation in some bundle of the generation;
    the XdsIR store holds its former keys and the keys whose XdsIR entry
    passed validation, less the former InfraIR keys without an InfraIR
    entry that passed validation. *)
Theorem value_event_key_sets (val : list Resources) (s : St) :
  generationPanics Translate val = false →
  ∃ s',
    handle unstructuredToPolicyStatus Translate (mkUpdate false (Some val)) s = Some s' ∧
    dom (InfraIR s') = generationKeys Translate gatewayapi.InfraIR val ∧
    dom (XdsIR s')
    = (dom (XdsIR s) ∪ generationKeys Translate gatewayapi.XdsIR val)
        ∖ (dom (InfraIR s) ∖ generationKeys Translate gatewayapi.InfraIR val).
Proof.
  intros Hret. eexists. split; [by apply handle_value_returns|].
  apply returned_value_event_key_sets.
Qed.

(** X3: for each of the twelve status stores whose keys [getAllStatuses]
    snapshots, a value event that returns deletes an entry that was present
    before it if and only if no resource of that kind in the generation's
    translation results has its key. *)
Theorem stale_statuses_deleted (val : list Resources) (s : St) :
  generationPanics Translate val = false →
  ∃ s',
    handle unstructuredToPolicyStatus Translate (mkUpdate false (Some val)) s = Some s' ∧
    let p := ProviderResources s in
    let p' := ProviderResources s' in
    staleStatusDeleted utils.NamespacedName
      (generationObjects Translate gatewayapi.Gateways val)
      (message.GatewayStatuses p) (message.GatewayStatuses p') ∧
    staleStatusDeleted utils.NamespacedName
      (generationObjects Translate gatewayapi.HTTPRoutes val)
      (message.HTTPRouteStatuses p) (message.HTTPRouteStatuses p') ∧
    staleStatusDeleted utils.NamespacedName
      (generationObjects Translate gatewayapi.GRPCRoutes val)
      (message.GRPCRouteStatuses p) (message.GRPCRouteStatuses p') ∧
    staleStatusDeleted utils.NamespacedName
      (generationObjects Translate gatewayapi.TLSRoutes val)
      (message.TLSRouteStatuses p) (message.TLSRouteStatuses p') ∧
    staleStatusDeleted utils.NamespacedName
      (generationObjects Translate gatewayapi.TCPRoutes val)
      (message.TCPRouteStatuses p) (message.TCPRouteStatuses p') ∧
    staleStatusDeleted utils.NamespacedName
      (generationObjects Translate gatewayapi.UDPRoutes val)
      (message.UDPRouteStatuses p) (message.UDPRouteStatuses p') ∧
    staleStatusDeleted utils.NamespacedName
      (generationObjects Translate gatewayapi.BackendTLSPolicies val)
      (message.BackendTLSPolicyStatuses p) (message.BackendTLSPolicyStatuses p') ∧
    staleStatusDeleted utils.NamespacedName
      (generationObjects Translate gatewayapi.ClientTrafficPolicies val)
      (message.ClientTrafficPolicyStatuses p) (message.ClientTrafficPolicyStatuses p') ∧
    staleStatusDeleted utils.NamespacedName
      (generationObjects Translate gatewayapi.BackendTrafficPolicies val)
      (message.BackendTrafficPolicyStatuses p) (message.BackendTrafficPolicyStatuses p') ∧
    staleStatusDeleted utils.NamespacedName
      (generationObjects Translate gatewayapi.SecurityPolicies val)
      (message.SecurityPolicyStatuses p) (message.SecurityPolicyStatuses p') ∧
    staleStatusDeleted utils.NamespacedName
      (generationObjects Translate gatewayapi.EnvoyExtensionPolicies val)
      (message.EnvoyExtensionPolicyStatuses p) (message.EnvoyExtensionPolicyStatuses p') ∧
    staleStatusDeleted utils.NamespacedName
      (generationObjects Translate gatewayapi.Backends val)
      (message.BackendStatuses p) (message.BackendStatuses p').
Proof.
  intros Hret. eexists. split; [by apply handle_value_returns|].
  apply handle_stale_statuses_deleted.
Qed.

(** X4: a value event that returns deletes no entry of the status store of
    the extension server policies, whatever the generation's translation
    results are: every key of the store before the event is a key of it
    after the event. *)
Theorem extension_statuses_survive (val : list Resources) (s : St) :
  generationPanics Translate val = false →
  ∃ s',
    handle unstructuredToPolicyStatus Translate (mkUpdate false (Some val)) s = Some s' ∧
    dom (message.ExtensionPolicyStatuses (ProviderResources s))
    ⊆ dom (message.ExtensionPolicyStatuses (ProviderResources s')).
Proof.
  intros Hret. eexists. split; [by apply handle_value_returns|].
  apply returned_extension_statuses_survive.
Qed.

(** X5: the last bundle that publishes a key decides its entry.  After a
    value event that returns, an InfraIR entry that passes validation, in a
    bundle followed by no bundle with a valid InfraIR entry under the same
    key, is the entry of its key.  An XdsIR entry in the same situation
    among the XdsIR entries is the entry of its key, unless the key was in
    the InfraIR store before the event and no InfraIR entry under it passes
    validation in the generation. *)
Theorem last_valid_entry_stays (pre post : list Resources) (resources : Resources)
    (s : St) (k : string) :
  let val := pre ++ resources :: post in
  generationPanics Translate val = false →
  ∃ s',
    handle unstructuredToPolicyStatus Translate (mkUpdate false (Some val)) s = Some s' ∧
    (∀ v : Infra,
       gatewayapi.InfraIR (Translate resources).1 !! k = Some v → Validate v = None →
       k ∉ generationKeys Translate gatewayapi.InfraIR post →
       InfraIR s' !! k = Some v) ∧
    (∀ v : Xds,
       gatewayapi.XdsIR (Translate resources).1 !! k = Some v → Validate v = None →
       k ∉ generationKeys Translate gatewayapi.XdsIR post →
       (k ∈ dom (InfraIR s) → k ∈ generationKeys Translate gatewayapi.InfraIR val) →
       XdsIR s' !! k = Some v).
Proof.
  intros val Hret. eexists. split; [by apply handle_value_returns|].
  apply returned_last_valid_entry_stays.
Qed.

(** X6: what an event that returns sends on the error channel: a delete
    event and an event with a nil value send nothing; a value event sends
    the errors of the entries that fail validation, bundle after bundle, the
    InfraIR entries of a bundle before its XdsIR entries, and nothing
    else. *)
Theorem errors_sent_by_event (update : Update Resources) (s : St) :
  updatePanics Translate update = false →
  ∃ s',
    handle unstructuredToPolicyStatus Translate update s = Some s' ∧
    errChan s'
    = errChan s ++ match Delete update, Value update with
                   | false, Some val => generationErrors Translate val
                   | _, _ => []
                   end.
Proof.
  intros Hret. eexists. split; [by rewrite handle_returned, Hret|].
  apply returned_errors_sent_by_event.
Qed.

(** X8: a value event whose snapshot has no bundle returns; it deletes
    every key of the InfraIR store from both planes and empties the twelve
    status stores that [getAllStatuses] snapshots; it leaves the status
    store of the extension server policies as it is and sends no error. *)
Theorem empty_snapshot_cleans (s : St) :
  ∃ s',
    handle unstructuredToPolicyStatus Translate (mkUpdate false (Some [])) s = Some s' ∧
    InfraIR s' = ∅ ∧
    (∀ k : string,
       XdsIR s' !! k = if decide (k ∈ dom (InfraIR s)) then None else XdsIR s !! k) ∧
    ProviderResources s'
    = message.mkProviderResources ∅ ∅ ∅ ∅ ∅ ∅ ∅ ∅ ∅ ∅ ∅
        (message.ExtensionPolicyStatuses (ProviderResources s)) ∅ ∧
    errChan s' = errChan s.
Proof.
  eexists. split; [by apply handle_value_returns|].
  apply returned_empty_snapshot_cleans.
Qed.

(** X9: along a run of [subscribeAndTranslate] over any sequence of updates
    none of which makes the handler panic, the run returns and the two
    planes keep the same key set, provided they had the same key set at the
    start and, in every value update of the sequence, the keys whose InfraIR
    entry passes validation are the keys whose XdsIR entry passes
    validation. *)
Theorem planes_in_step_along_run (updates : list (Update Resources)) (s : St) :
  runPanics Translate updates = false →
  dom (InfraIR s) = dom (XdsIR s) →
  (∀ update val, update ∈ updates → Delete update = false → Value update = Some val →
     generationKeys Translate gatewayapi.InfraIR val
     = generationKeys Translate gatewayapi.XdsIR val) →
  ∃ s',
    subscribeAndTranslate unstructuredToPolicyStatus Translate updates s = Some s' ∧
    dom (InfraIR s') = dom (XdsIR s').
Proof.
  intros Hret Hdom Hkeys. eexists.
  split; [by rewrite subscribeAndTranslate_returned, Hret|].
  by apply returned_planes_in_step_along_run.
Qed.

(** X16: processing the same snapshot in two consecutive generations that
    return changes neither the InfraIR store nor any of the thirteen status
    stores the second time: entry for entry, they are after the second
    generation what they were after the first. *)
Theorem same_snapshot_twice_stores (val : list Resources) (s : St) :
  generationPanics Translate val = false →
  ∃ s1 s2,
    handle unstructuredToPolicyStatus Translate (mkUpdate false (Some val)) s = Some s1 ∧
    handle unstructuredToPolicyStatus Translate (mkUpdate false (Some val)) s1 = Some s2 ∧
    InfraIR s2 = InfraIR s1 ∧ ProviderResources s2 = ProviderResources s1.
Proof.
  intros Hret. eexists _, _.
  split; [by apply handle_value_returns|].
  split; [by apply handle_value_returns|].
  apply returned_same_snapshot_twice_stores.
Qed.

(** X17: whatever a run of [subscribeAndTranslate] handled before without a
    panic, once its last update is a delete event the run returns, the
    InfraIR store and the thirteen status stores are empty, and no key that
    the InfraIR store held before the delete event is left in the XdsIR
    store. *)
Theorem run_ending_with_delete (updates : list (Update Resources))
    (update : Update Resources) (s : St) :
  runPanics Translate updates = false →
  Delete update = true →
  ∃ s0 s',
    forEach (λ s update, handle unstructuredToPolicyStatus Translate update s) s updates
    = Some s0 ∧
    subscribeAndTranslate unstructuredToPolicyStatus Translate (updates ++ [update]) s
    = Some s' ∧
    InfraIR s' = ∅ ∧
    ProviderResources s' = message.mkProviderResources ∅ ∅ ∅ ∅ ∅ ∅ ∅ ∅ ∅ ∅ ∅ ∅ ∅ ∧
    dom (XdsIR s') ## dom (InfraIR s0).
Proof.
  intros Hret Hdel. eexists _, _. split; [|split].
  - rewrite (forEach_returned _
               (λ s update, returned.handle storedStatus Translate update s)
               (updatePanics Translate)) by (intros; apply handle_returned).
    unfold runPanics in Hret. by rewrite Hret.
  - rewrite subscribeAndTranslate_returned.
    assert (runPanics Translate (updates ++ [update]) = false) as ->; [|done].
    apply existsb_false_app. split; [done|].
    unfold updatePanics. cbn [existsb]. by rewrite Hdel.
  - by apply returned_run_ending_with_delete.
Qed.

(** X18: a value event that returns leaves as it is every XdsIR entry whose
    key was not in the InfraIR store before the event and has no XdsIR entry
    that passes validation in the generation: the cleanup, which takes its
    keys from the InfraIR store, never deletes it. *)
Theorem xds_entry_untouched (val : list Resources) (s : St) (k : string) :
  generationPanics Translate val = false →
  k ∉ dom (InfraIR s) →
  k ∉ generationKeys Translate gatewayapi.XdsIR val →
  ∃ s',
    handle unstructuredToPolicyStatus Translate (mkUpdate false (Some val)) s = Some s' ∧
    XdsIR s' !! k = XdsIR s !! k.
Proof.
  intros Hret Hinfra Hxds. eexists. split; [by apply handle_value_returns|].
  by apply returned_xds_entry_untouched.
Qed.


End claims.

(** ** The wasm cache server *)

Section wasm_cache.
Context {RestConfig Clientset Certificate CertPool FS Cache : Type}.
Variable GetConfig : result RestConfig.
Variable NewForConfig : RestConfig → result Clientset.
Variable SecretsGet : Clientset → string → string → result Secret.
Variable IsNotFound : error → bool.
Variable LoadX509KeyPair : string → string → result Certificate.
Variable ReadFile : string → result (list Byte.byte).
Variable NewCertPool : CertPool.
Variable AppendCertsFromPEM : CertPool → list Byte.byte → CertPool * bool.
Variable CreateIfNotExists : FS → string → bool → FS * option error.
Variable NewHTTPServerWithFileCache :
  wasm.SeverOptions Certificate CertPool → wasm.CacheOptions →
  FS * list LogEntry → Cache * (FS * list LogEntry).
Variable Start : Cache → FS * list LogEntry → FS * list LogEntry.

Abbreviation hmac := (bootstrap.hmac GetConfig NewForConfig SecretsGet IsNotFound).
Abbreviation tlsConfig :=
  (bootstrap.tlsConfig LoadX509KeyPair ReadFile NewCertPool AppendCertsFromPEM).
Abbreviation startWasmCache :=
  (bootstrap.startWasmCache GetConfig NewForConfig SecretsGet IsNotFound
     LoadX509KeyPair ReadFile NewCertPool AppendCertsFromPEM CreateIfNotExists
     NewHTTPServerWithFileCache Start).

(** X11: [hmac] returns a salt exactly when the cluster configuration is
    found, the client is built, the secret "envoy-oidc-hmac" of the namespace
    is read and its data hold a non-empty value under "hmac-secret"; the salt
    is that value, so a salt returned is never empty. *)
Theorem hmac_succeeds_iff (namespace : string) (salt : list Byte.byte) :
  hmac namespace = Ok salt
  ↔ ∃ cfg client secret,
      GetConfig = Ok cfg ∧ NewForConfig cfg = Ok client ∧
      SecretsGet client namespace "envoy-oidc-hmac" = Ok secret ∧
      Data secret !! "hmac-secret" = Some salt ∧ salt ≠ [].
Proof.
  unfold bootstrap.hmac. split.
  - destruct GetConfig as [cfg|?]; [|done].
    destruct (NewForConfig cfg) as [client|?] eqn:Hclient; [|done].
    destruct (SecretsGet client namespace hmacSecretName) as [secret|e] eqn:Hsecret;
      [|by destruct (IsNotFound e)].
    destruct (Data secret !! hmacSecretKey) as [h|] eqn:Hdata; [|done].
    case_decide as Hlen; [done|]. intros [= ->].
    exists cfg, client, secret. split_and!; try done.
    intros ->. by apply Hlen.
  - intros (cfg & client & secret & -> & -> & Hsecret & Hdata & Hsalt).
    change "envoy-oidc-hmac" with hmacSecretName in Hsecret.
    change "hmac-secret" with hmacSecretKey in Hdata.
    rewrite Hsecret, Hdata. case_decide as Hlen; [|done].
    by apply length_zero_iff_nil in Hlen.
Qed.

(** X12: the error [hmac] returns is the error of the first call that
    fails, with two exceptions: when reading the secret fails with a
    not-found error, the error says that the secret of the namespace is not
    found; and when the secret has no value, or an empty one, under
    "hmac-secret", the error says that the HMAC secret is not found in the
    secret. *)
Theorem hmac_error (namespace : string) (err : error) :
  hmac namespace = Err err →
  GetConfig = Err err ∨
  (∃ cfg, GetConfig = Ok cfg ∧ NewForConfig cfg = Err err) ∨
  (∃ cfg client e,
     GetConfig = Ok cfg ∧ NewForConfig cfg = Ok client ∧
     SecretsGet client namespace "envoy-oidc-hmac" = Err e ∧
     if IsNotFound e
     then err = "HMAC secret " +:+ namespace +:+ "/envoy-oidc-hmac not found"
     else err = e) ∨
  (∃ cfg client secret,
     GetConfig = Ok cfg ∧ NewForConfig cfg = Ok client ∧
     SecretsGet client namespace "envoy-oidc-hmac" = Ok secret ∧
     (Data secret !! "hmac-secret" = None ∨ Data secret !! "hmac-secret" = Some []) ∧
     err = "HMAC secret not found in secret " +:+ namespace +:+ "/envoy-oidc-hmac").
Proof.
  unfold bootstrap.hmac.
  destruct GetConfig as [cfg|e0]; [|intros [= ->]; by left].
  destruct (NewForConfig cfg) as [client|e1] eqn:Hclient;
    [|intros [= ->]; right; left; eauto].
  destruct (SecretsGet client namespace hmacSecretName) as [secret|e] eqn:Hsecret.
  - intros Herr. right. right. right. exists cfg, client, secret.
    split; [done|]. split; [done|]. split; [exact Hsecret|].
    destruct (Data secret !! hmacSecretKey) as [h|] eqn:Hdata.
    + case_decide as Hlen; [|done]. apply length_zero_iff_nil in Hlen. subst h.
      injection Herr as <-. split; [by right|done].
    + injection Herr as <-. split; [by left|done].
  - intros Herr. right. right. left. exists cfg, client, e.
    split; [done|]. split; [done|]. split; [exact Hsecret|].
    destruct (IsNotFound e); by injection Herr as <-.
Qed.

(** X13: [tlsConfig] returns a configuration exactly when the server's key
    pair loads from "/certs/tls.crt" and "/certs/tls.key", the file
    "/certs/ca.crt" is read and a certificate is parsed from it; the
    configuration then holds that one server certificate, requires and
    verifies client certificates against the pool made from the file, and
    accepts no version below TLS 1.3. *)
Theorem tlsConfig_succeeds_iff (config : tls.Config Certificate CertPool) :
  tlsConfig = Ok config
  ↔ ∃ serverCert caCert,
      LoadX509KeyPair "/certs/tls.crt" "/certs/tls.key" = Ok serverCert ∧
      ReadFile "/certs/ca.crt" = Ok caCert ∧
      (AppendCertsFromPEM NewCertPool caCert).2 = true ∧
      config = tls.mkConfig [serverCert] tls.RequireAndVerifyClientCert
                 (AppendCertsFromPEM NewCertPool caCert).1 772.
Proof.
  unfold bootstrap.tlsConfig, tls.VersionTLS13.
  change serveTLSCertFilename with "/certs/tls.crt".
  change serveTLSKeyFilename with "/certs/tls.key".
  change serveTLSCaFilename with "/certs/ca.crt".
  split.
  - destruct (LoadX509KeyPair "/certs/tls.crt" "/certs/tls.key") as [serverCert|?];
      [|done].
    destruct (ReadFile "/certs/ca.crt") as [caCert|?]; [|done].
    destruct (AppendCertsFromPEM NewCertPool caCert) as [pool []] eqn:Hpool;
      cbn [negb fst snd]; [|done].
    intros [= <-]. exists serverCert, caCert. by rewrite Hpool.
  - intros (serverCert & caCert & -> & -> & Hok & ->).
    by rewrite Hok.
Qed.

(** X14: [startWasmCache], from a runner without a cache, sets the cache
    exactly when [hmac], [tlsConfig] and the creation of the cache
    directory all succeed; the cache is then the server that
    [NewHTTPServerWithFileCache] builds from the salt and the TLS
    configuration they returned and from the directory
    "/var/lib/eg/wasm", once the directory is created. *)
Theorem startWasmCache_sets_cache (namespace : string)
    (h : bootstrap.Host FS Cache) (cache : Cache) :
  bootstrap.wasmCache h = None →
  (bootstrap.wasmCache (startWasmCache namespace h) = Some cache
   ↔ ∃ salt config,
       hmac namespace = Ok salt ∧ tlsConfig = Ok config ∧
       (CreateIfNotExists (bootstrap.fs h) "/var/lib/eg/wasm" true).2 = None ∧
       cache = (NewHTTPServerWithFileCache (wasm.mkSeverOptions salt config)
                  (wasm.mkCacheOptions "/var/lib/eg/wasm")
                  ((CreateIfNotExists (bootstrap.fs h) "/var/lib/eg/wasm" true).1,
                   bootstrap.Logger h)).1).
Proof.
  intros Hnil. unfold bootstrap.startWasmCache.
  change wasmCacheDir with "/var/lib/eg/wasm".
  destruct (hmac namespace) as [salt|e1]; cbn [bootstrap.wasmCache].
  2: { rewrite Hnil. split; [done|]. by intros (? & ? & ? & _). }
  destruct tlsConfig as [config|e2]; cbn [bootstrap.wasmCache].
  2: { rewrite Hnil. split; [done|]. by intros (? & ? & _ & ? & _). }
  destruct (CreateIfNotExists (bootstrap.fs h) "/var/lib/eg/wasm" true) as [fs' [e3|]];
    cbn [fst snd bootstrap.wasmCache].
  - rewrite Hnil. split; [done|]. by intros (? & ? & _ & _ & ? & _).
  - split.
    + intros [= <-]. by exists salt, config.
    + by intros (? & ? & [= <-] & [= <-] & _ & ->).
Qed.

(** X15: when [hmac], [tlsConfig] or the creation of the cache directory
    fails, [startWasmCache] builds and starts no cache server: the runner's
    cache stays as it was, exactly one error is added to the log, and the
    file system is as it was unless [hmac] and [tlsConfig] both succeeded,
    in which case it is what the creation of the directory made of it. *)
Theorem startWasmCache_failure (namespace : string) (h : bootstrap.Host FS Cache) :
  (∃ err, hmac namespace = Err err) ∨ (∃ err, tlsConfig = Err err) ∨
  (∃ err, (CreateIfNotExists (bootstrap.fs h) "/var/lib/eg/wasm" true).2 = Some err) →
  let h' := startWasmCache namespace h in
  bootstrap.wasmCache h' = bootstrap.wasmCache h ∧
  (∃ err msg, bootstrap.Logger h' = bootstrap.Logger h ++ [Error err msg]) ∧
  (bootstrap.fs h' = bootstrap.fs h ∨
   ((∃ salt, hmac namespace = Ok salt) ∧ (∃ config, tlsConfig = Ok config) ∧
    bootstrap.fs h' = (CreateIfNotExists (bootstrap.fs h) "/var/lib/eg/wasm" true).1)).
Proof.
  intros Hfail h'. subst h'. unfold bootstrap.startWasmCache.
  change wasmCacheDir with "/var/lib/eg/wasm".
  destruct (hmac namespace) as [salt|e1];
    cbn [bootstrap.wasmCache bootstrap.Logger bootstrap.fs].
  2: { split; [done|]. split; [by eexists _, _|by left]. }
  destruct tlsConfig as [config|e2];
    cbn [bootstrap.wasmCache bootstrap.Logger bootstrap.fs].
  2: { split; [done|]. split; [by eexists _, _|by left]. }
  destruct Hfail as [[err Herr]|[[err Herr]|[err Herr]]]; [done..|].
  destruct (CreateIfNotExists (bootstrap.fs h) "/var/lib/eg/wasm" true) as [fs' [e3|]];
    cbn [fst snd bootstrap.wasmCache bootstrap.Logger bootstrap.fs] in *; [|done].
  split; [done|]. split; [by eexists _, _|right; eauto].
Qed.

End wasm_cache.

(** ** The handler on sample updates *)

(** The scenario of the design: a gateway published by one generation is
    removed from both planes by the next one, which no longer has it, and a
    delete event leaves the stores empty. *)
Example scenario :
  ∃ s1 s2 s3,
    sampleHandle (valueUpdate [gatewayBundle "gw1" (ValidIR 1) (ValidIR 1)]) emptyState
    = Some s1 ∧
    sampleHandle (valueUpdate []) s1 = Some s2 ∧
    sampleHandle deleteUpdate s2 = Some s3 ∧
    (InfraIR s1 !! "gw1", XdsIR s1 !! "gw1") = (Some (ValidIR 1), Some (ValidIR 1)) ∧
    (InfraIR s2 !! "gw1", XdsIR s2 !! "gw1") = (None, None) ∧
    (InfraIR s3, XdsIR s3, ProviderResources s3) = (∅, ∅, emptyStatuses).
Proof.
  set (s1 := default emptyState
               (sampleHandle (valueUpdate [gatewayBundle "gw1" (ValidIR 1) (ValidIR 1)])
                             emptyState)).
  set (s2 := default emptyState (sampleHandle (valueUpdate []) s1)).
  set (s3 := default emptyState (sampleHandle deleteUpdate s2)).
  exists s1, s2, s3.
  split; [vm_compute; reflexivity|]. split; [vm_compute; reflexivity|].
  split; [vm_compute; reflexivity|]. split; [vm_compute; reflexivity|].
  split; vm_compute; reflexivity.
Qed.

(** An extension server policy without a status, or with a status that is
    neither a map nor a zero value, makes the handler panic; one with a nil
    map or another zero value does not. *)
Example handle_panics_sample :
  sampleHandle (valueUpdate [statusBundle [] [] [sampleUnstructured Nil]]) emptyState = None ∧
  sampleHandle (valueUpdate [statusBundle [] [] [sampleUnstructured (Other false)]])
               emptyState = None ∧
  is_Some (sampleHandle (valueUpdate [statusBundle [] [] [sampleUnstructured (Other true)]])
                        emptyState) ∧
  is_Some (sampleHandle (valueUpdate [statusBundle [] [] [samplePolicy NoStatus]])
                        emptyState).
Proof.
  split; [vm_compute; reflexivity|]. split; [vm_compute; reflexivity|].
  split; vm_compute; by eexists.
Qed.

(** C1, at the failing input: from the empty stores, a generation whose
    InfraIR entry for "gw1" passes validation and whose XdsIR entry for "gw1"
    fails it returns with the key in the InfraIR plane only. *)
Lemma planes_diverge :
  ∃ s',
    sampleHandle (valueUpdate [gatewayBundle "gw1" (ValidIR 1) InvalidIR]) emptyState
    = Some s' ∧
    dom (InfraIR emptyState) = dom (XdsIR emptyState) ∧
    InfraIR s' !! "gw1" = Some (ValidIR 1) ∧
    XdsIR s' !! "gw1" = None ∧
    dom (InfraIR s') ≠ dom (XdsIR s').
Proof.
  set (s' := default emptyState
               (sampleHandle (valueUpdate [gatewayBundle "gw1" (ValidIR 1) InvalidIR])
                             emptyState)).
  exists s'. split; [vm_compute; reflexivity|].
  assert (InfraIR s' !! "gw1" = Some (ValidIR 1)) as HI by (vm_compute; reflexivity).
  assert (XdsIR s' !! "gw1" = None) as HX by (vm_compute; reflexivity).
  split; [reflexivity|]. split; [exact HI|]. split; [exact HX|].
  intros Hdom. apply not_elem_of_dom in HX. rewrite <- Hdom in HX.
  apply HX, elem_of_dom. rewrite HI. by eexists.
Qed.

(** C2, at the failing input: from the empty stores, a generation whose
    InfraIR entry for "gw1" fails validation and whose XdsIR entry for "gw1"
    passes it leaves "gw1" in the XdsIR store only, and the delete event that
    follows leaves it there. *)
Lemma teardown_leaves_xds_key :
  ∃ s1 s2,
    sampleHandle (valueUpdate [gatewayBundle "gw1" InvalidIR (ValidIR 1)]) emptyState
    = Some s1 ∧
    sampleHandle deleteUpdate s1 = Some s2 ∧
    InfraIR s1 !! "gw1" = None ∧
    XdsIR s1 !! "gw1" = Some (ValidIR 1) ∧
    XdsIR s2 !! "gw1" = Some (ValidIR 1).
Proof.
  set (s1 := default emptyState
               (sampleHandle (valueUpdate [gatewayBundle "gw1" InvalidIR (ValidIR 1)])
                             emptyState)).
  set (s2 := default emptyState (sampleHandle deleteUpdate s1)).
  exists s1, s2.
  split; [vm_compute; reflexivity|]. split; [vm_compute; reflexivity|].
  split; [vm_compute; reflexivity|]. split; vm_compute; reflexivity.
Qed.

(** C3, at the failing input: a generation stores the status of a gateway
    and of an extension server policy; the next generation has neither of
    them, and deletes the status of the gateway but not the status of the
    extension server policy. *)
Lemma extension_status_left_behind :
  ∃ s1 s2,
    sampleHandle
      (valueUpdate [statusBundle [sampleObject Accepted] [] [samplePolicy Accepted]])
      emptyState = Some s1 ∧
    sampleHandle (valueUpdate [statusBundle [] [] []]) s1 = Some s2 ∧
    message.GatewayStatuses (ProviderResources s1) !! sampleName = Some Accepted ∧
    message.ExtensionPolicyStatuses (ProviderResources s1) !! sampleKey = Some Accepted ∧
    message.GatewayStatuses (ProviderResources s2) !! sampleName = None ∧
    message.ExtensionPolicyStatuses (ProviderResources s2) !! sampleKey = Some Accepted.
Proof.
  set (s1 := default emptyState
               (sampleHandle
                  (valueUpdate
                     [statusBundle [sampleObject Accepted] [] [samplePolicy Accepted]])
                  emptyState)).
  set (s2 := default emptyState (sampleHandle (valueUpdate [statusBundle [] [] []]) s1)).
  exists s1, s2.
  split; [vm_compute; reflexivity|]. split; [vm_compute; reflexivity|].
  split; [vm_compute; reflexivity|]. split; [vm_compute; reflexivity|].
  split; vm_compute; reflexivity.
Qed.

(** C4, counterexample: the status of a gateway stored by one generation is
    overwritten by the empty status the next generation produces for it. *)
Lemma gateway_status_overwritten_when_empty :
  let val := [statusBundle [sampleObject NoStatus] [] []] in
  ∃ s1 s2,
    sampleHandle (valueUpdate [statusBundle [sampleObject Accepted] [] []]) emptyState
    = Some s1 ∧
    sampleHandle (valueUpdate val) s1 = Some s2 ∧
    IsZero NoStatus = true ∧
    message.GatewayStatuses (ProviderResources s1) !! sampleName = Some Accepted ∧
    message.GatewayStatuses (ProviderResources s2) !! sampleName = Some NoStatus ∧
    ¬ statusKept utils.NamespacedName (λ o, IsZero (Status o)) Status
        (generationObjects sampleTranslate gatewayapi.Gateways val)
        (message.GatewayStatuses (ProviderResources s1))
        (message.GatewayStatuses (ProviderResources s2)).
Proof.
  intros val.
  set (s1 := default emptyState
               (sampleHandle (valueUpdate [statusBundle [sampleObject Accepted] [] []])
                             emptyState)).
  set (s2 := default emptyState (sampleHandle (valueUpdate val) s1)).
  exists s1, s2.
  split; [vm_compute; reflexivity|]. split; [vm_compute; reflexivity|].
  assert (message.GatewayStatuses (ProviderResources s1) !! sampleName = Some Accepted)
    as H1 by (vm_compute; reflexivity).
  assert (message.GatewayStatuses (ProviderResources s2) !! sampleName = Some NoStatus)
    as H2 by (vm_compute; reflexivity).
  split; [reflexivity|]. split; [exact H1|]. split; [exact H2|].
  intros Hkept. destruct (Hkept (sampleObject NoStatus)) as [Hsame _].
  { apply list_elem_of_here. }
  change (utils.NamespacedName (sampleObject NoStatus)) with sampleName in Hsame.
  rewrite H1, H2 in Hsame. discriminate Hsame.
  intros o Ho _. apply list_elem_of_singleton in Ho. by subst o.
Qed.

Lemma status_kept_or_overwritten_witness :
  let val := [statusBundle [sampleObject NoStatus] [sampleObject NoStatus]
                           [samplePolicy NoStatus]] in
  generationPanics sampleTranslate val = false ∧
  ∃ s',
    sampleHandle (valueUpdate val) acceptedState = Some s' ∧
    message.GatewayStatuses (ProviderResources s') !! sampleName = Some NoStatus ∧
    message.ClientTrafficPolicyStatuses (ProviderResources s') !! sampleName
    = Some Accepted ∧
    message.ExtensionPolicyStatuses (ProviderResources s') !! sampleKey = Some Accepted.
Proof.
  intros val.
  assert (generationPanics sampleTranslate val = false) as Hret by reflexivity.
  split; [exact Hret|].
  destruct (status_kept_or_overwritten (λ st : SampleStatus, st) sampleTranslate val
              acceptedState Hret)
    as (s' & Hs' & (Hgateway & _) & (_ & Hclient & _ & _ & _ & _ & Hext)).
  exists s'. split; [exact Hs'|]. split; [|split].
  - apply (Hgateway [] (sampleObject NoStatus) []); [reflexivity|].
    intros o Ho. by apply elem_of_nil in Ho.
  - apply (proj1 (Hclient (sampleObject NoStatus) (list_elem_of_here _ _))).
    intros o Ho _. apply list_elem_of_singleton in Ho. by subst o.
  - apply (proj1 (Hext (samplePolicy NoStatus) (list_elem_of_here _ _))).
    intros o Ho _. apply list_elem_of_singleton in Ho. by subst o.
Defined.

(** C6, at the failing input: "gw1" is in both planes; the snapshot's InfraIR
    entry for "gw1" fails validation and its XdsIR entry passes it.  The
    bundle loop stores the XdsIR entry and sends the error of the InfraIR
    entry; the cleanup of the same event then deletes "gw1" from both
    planes, so that the entry that passed validation is not in the XdsIR
    store when the handler returns. *)
Lemma valid_entry_deleted_by_cleanup :
  let val := [gatewayBundle "gw1" InvalidIR (ValidIR 2)] in
  ∃ s g s',
    sampleHandle (valueUpdate [gatewayBundle "gw1" (ValidIR 1) (ValidIR 1)]) emptyState
    = Some s ∧
    sampleAfterBundles val s = Some g ∧
    sampleHandle (valueUpdate val) s = Some s' ∧
    Validate (ValidIR 2) = None ∧
    XdsIR (state g) !! "gw1" = Some (ValidIR 2) ∧
    XdsIR s' !! "gw1" = None ∧
    errChan s' = ["invalid ir"].
Proof.
  intros val.
  set (s := default emptyState
              (sampleHandle (valueUpdate [gatewayBundle "gw1" (ValidIR 1) (ValidIR 1)])
                            emptyState)).
  set (g := default emptyGeneration (sampleAfterBundles val s)).
  set (s' := default emptyState (sampleHandle (valueUpdate val) s)).
  exists s, g, s'.
  split; [vm_compute; reflexivity|]. split; [vm_compute; reflexivity|].
  split; [vm_compute; reflexivity|]. split; [reflexivity|].
  split; [vm_compute; reflexivity|]. split; vm_compute; reflexivity.
Qed.

(** C7, at the failing input: "gw1" is in both planes; the snapshot's InfraIR
    entry for "gw1" fails validation and its XdsIR entry passes it.  The first
    generation deletes "gw1" from both planes, the second one stores it in
    the XdsIR plane again. *)
Lemma xds_keys_differ_on_same_snapshot :
  let val := [gatewayBundle "gw1" InvalidIR (ValidIR 2)] in
  ∃ s s1 s2,
    sampleHandle (valueUpdate [gatewayBundle "gw1" (ValidIR 1) (ValidIR 1)]) emptyState
    = Some s ∧
    sampleHandle (valueUpdate val) s = Some s1 ∧
    sampleHandle (valueUpdate val) s1 = Some s2 ∧
    XdsIR s1 !! "gw1" = None ∧
    XdsIR s2 !! "gw1" = Some (ValidIR 2) ∧
    dom (XdsIR s2) ≠ dom (XdsIR s1).
Proof.
  intros val.
  set (s := default emptyState
              (sampleHandle (valueUpdate [gatewayBundle "gw1" (ValidIR 1) (ValidIR 1)])
                            emptyState)).
  set (s1 := default emptyState (sampleHandle (valueUpdate val) s)).
  set (s2 := default emptyState (sampleHandle (valueUpdate val) s1)).
  exists s, s1, s2.
  split; [vm_compute; reflexivity|]. split; [vm_compute; reflexivity|].
  split; [vm_compute; reflexivity|].
  assert (XdsIR s1 !! "gw1" = None) as H1 by (vm_compute; reflexivity).
  assert (XdsIR s2 !! "gw1" = Some (ValidIR 2)) as H2 by (vm_compute; reflexivity).
  split; [exact H1|]. split; [exact H2|].
  intros Hdom. apply not_elem_of_dom in H1. rewrite <- Hdom in H1.
  apply H1, elem_of_dom. rewrite H2. by eexists.
Qed.

Lemma produced_key_not_deleted_witness :
  let val := [gatewayBundle "gw1" (ValidIR 2) (ValidIR 2)] in
  generationPanics sampleTranslate val = false ∧
  ∃ g s',
    sampleAfterBundles val publishedState = Some g ∧
    sampleHandle (valueUpdate val) publishedState = Some s' ∧
    "gw1" ∈ dom (InfraIR publishedState) ∧
    "gw1" ∈ newIRKeys g ∧
    ("gw1" ∉ getIRKeysToDelete (keys (InfraIR publishedState)) (newIRKeys g)) ∧
    InfraIR s' !! "gw1" = InfraIR (state g) !! "gw1" ∧
    XdsIR s' !! "gw1" = XdsIR (state g) !! "gw1" ∧
    is_Some (InfraIR s' !! "gw1").
Proof.
  intros val.
  assert (generationPanics sampleTranslate val = false) as Hret by reflexivity.
  split; [exact Hret|].
  destruct (produced_key_not_deleted (λ st : SampleStatus, st) sampleTranslate val
              publishedState "gw1" Hret) as (g & s' & Hg & Hs' & Hkey & _).
  exists g, s'. split; [exact Hg|]. split; [exact Hs'|].
  assert ("gw1" ∈ newIRKeys g) as Hk.
  { vm_compute in Hg. injection Hg as <-. apply list_elem_of_here. }
  split; [apply elem_of_dom; by eexists|]. split; [exact Hk|]. exact (Hkey Hk).
Defined.


(** ** The further properties on sample inputs *)

Lemma delete_event_teardown_witness :
  (Delete deleteUpdate = true ∨ Value deleteUpdate = None) ∧
  ∃ s',
    sampleHandle deleteUpdate publishedState = Some s' ∧
    InfraIR s' = ∅ ∧ XdsIR s' !! "gw1" = None ∧ errChan s' = errChan publishedState.
Proof.
  assert (Delete deleteUpdate = true ∨ Value deleteUpdate = None) as Hdel
    by (left; reflexivity).
  split; [exact Hdel|].
  destruct (delete_event_teardown (λ st : SampleStatus, st) sampleTranslate
              deleteUpdate publishedState Hdel) as (s' & Hs' & HI & HX & _ & HE).
  exists s'. split; [exact Hs'|]. split; [exact HI|]. split; [|exact HE].
  rewrite HX. apply decide_True. apply elem_of_dom. by eexists.
Defined.

Lemma value_event_key_sets_witness :
  let val := [gatewayBundle "gw1" (ValidIR 1) InvalidIR] in
  generationPanics sampleTranslate val = false ∧
  ∃ s',
    sampleHandle (valueUpdate val) emptyState = Some s' ∧
    dom (InfraIR s') = generationKeys sampleTranslate gatewayapi.InfraIR val ∧
    dom (XdsIR s')
    = (dom (XdsIR emptyState) ∪ generationKeys sampleTranslate gatewayapi.XdsIR val)
        ∖ (dom (InfraIR emptyState) ∖ generationKeys sampleTranslate gatewayapi.InfraIR val).
Proof.
  intros val.
  assert (generationPanics sampleTranslate val = false) as Hret by reflexivity.
  exact (conj Hret (value_event_key_sets (λ st : SampleStatus, st) sampleTranslate val
                      emptyState Hret)).
Defined.

Lemma stale_statuses_deleted_witness :
  let val := [statusBundle [] [] []] in
  generationPanics sampleTranslate val = false ∧
  is_Some (message.GatewayStatuses (ProviderResources acceptedState) !! sampleName) ∧
  ∃ s',
    sampleHandle (valueUpdate val) acceptedState = Some s' ∧
    (message.GatewayStatuses (ProviderResources s') !! sampleName = None
     ↔ sampleName ∉ utils.NamespacedName
                      <$> generationObjects sampleTranslate gatewayapi.Gateways val).
Proof.
  intros val.
  assert (generationPanics sampleTranslate val = false) as Hret by reflexivity.
  assert (is_Some (message.GatewayStatuses (ProviderResources acceptedState) !! sampleName))
    as Hk.
  { exists Accepted. vm_compute. reflexivity. }
  split; [exact Hret|]. split; [exact Hk|].
  destruct (stale_statuses_deleted (λ st : SampleStatus, st) sampleTranslate val
              acceptedState Hret) as (s' & Hs' & Hgateway & _).
  exists s'. split; [exact Hs'|]. exact (Hgateway sampleName Hk).
Defined.

Lemma extension_statuses_survive_witness :
  let val := [statusBundle [] [] []] in
  generationPanics sampleTranslate val = false ∧
  ∃ s',
    sampleHandle (valueUpdate val) acceptedState = Some s' ∧
    sampleKey ∈ dom (message.ExtensionPolicyStatuses (ProviderResources s')).
Proof.
  intros val.
  assert (generationPanics sampleTranslate val = false) as Hret by reflexivity.
  split; [exact Hret|].
  destruct (extension_statuses_survive (λ st : SampleStatus, st) sampleTranslate val
              acceptedState Hret) as (s' & Hs' & Hdom).
  exists s'. split; [exact Hs'|]. apply Hdom. apply elem_of_dom. by eexists.
Defined.

Lemma last_valid_entry_stays_witness :
  let resources := gatewayBundle "gw1" (ValidIR 2) (ValidIR 2) in
  let pre := [gatewayBundle "gw1" (ValidIR 1) (ValidIR 1)] in
  generationPanics sampleTranslate (pre ++ resources :: []) = false ∧
  gatewayapi.InfraIR (sampleTranslate resources).1 !! "gw1" = Some (ValidIR 2) ∧
  Validate (ValidIR 2) = None ∧
  ("gw1" ∉ generationKeys sampleTranslate gatewayapi.InfraIR []) ∧
  ∃ s',
    sampleHandle (valueUpdate (pre ++ resources :: [])) emptyState = Some s' ∧
    InfraIR s' !! "gw1" = Some (ValidIR 2).
Proof.
  intros resources pre.
  assert (generationPanics sampleTranslate (pre ++ resources :: []) = false) as Hret
    by reflexivity.
  assert (gatewayapi.InfraIR (sampleTranslate resources).1 !! "gw1" = Some (ValidIR 2))
    as Hk by (vm_compute; reflexivity).
  assert (Validate (ValidIR 2) = None) as Hv by reflexivity.
  assert ("gw1" ∉ generationKeys sampleTranslate gatewayapi.InfraIR []) as Hpost
    by apply not_elem_of_empty.
  split; [exact Hret|]. split; [exact Hk|]. split; [exact Hv|]. split; [exact Hpost|].
  destruct (last_valid_entry_stays (λ st : SampleStatus, st) sampleTranslate
              pre [] resources emptyState "gw1" Hret) as (s' & Hs' & Hinfra & _).
  exists s'. split; [exact Hs'|]. exact (Hinfra (ValidIR 2) Hk Hv Hpost).
Defined.

Lemma errors_sent_by_event_witness :
  let update := valueUpdate [gatewayBundle "gw1" InvalidIR (ValidIR 1)] in
  updatePanics sampleTranslate update = false ∧
  ∃ s', sampleHandle update emptyState = Some s' ∧ errChan s' = ["invalid ir"].
Proof.
  intros update.
  assert (updatePanics sampleTranslate update = false) as Hret by reflexivity.
  split; [exact Hret|].
  destruct (errors_sent_by_event (λ st : SampleStatus, st) sampleTranslate update
              emptyState Hret) as (s' & Hs' & HE).
  exists s'. split; [exact Hs'|]. rewrite HE. vm_compute. reflexivity.
Defined.

Lemma planes_in_step_along_run_witness :
  let updates := [valueUpdate [gatewayBundle "gw1" (ValidIR 1) (ValidIR 2)];
                  deleteUpdate] in
  runPanics sampleTranslate updates = false ∧
  dom (InfraIR emptyState) = dom (XdsIR emptyState) ∧
  (∀ update val, update ∈ updates → Delete update = false → Value update = Some val →
     generationKeys sampleTranslate gatewayapi.InfraIR val
     = generationKeys sampleTranslate gatewayapi.XdsIR val) ∧
  ∃ s', sampleRun updates emptyState = Some s' ∧ dom (InfraIR s') = dom (XdsIR s').
Proof.
  intros updates.
  assert (runPanics sampleTranslate updates = false) as Hret by reflexivity.
  assert (dom (InfraIR emptyState) = dom (XdsIR emptyState)) as Hdom by reflexivity.
  assert (∀ update val, update ∈ updates → Delete update = false →
            Value update = Some val →
            generationKeys sampleTranslate gatewayapi.InfraIR val
            = generationKeys sampleTranslate gatewayapi.XdsIR val) as Hkeys.
  { intros update val [->|Hin]%elem_of_cons Hd Hv.
    - injection Hv as <-. vm_compute. reflexivity.
    - apply list_elem_of_singleton in Hin. subst update. discriminate Hd. }
  exact (conj Hret (conj Hdom (conj Hkeys
           (planes_in_step_along_run (λ st : SampleStatus, st) sampleTranslate
              updates emptyState Hret Hdom Hkeys)))).
Defined.

Lemma same_snapshot_twice_stores_witness :
  let val := [gatewayBundle "gw1" (ValidIR 1) (ValidIR 2);
              statusBundle [sampleObject Accepted] [] [samplePolicy Accepted]] in
  generationPanics sampleTranslate val = false ∧
  ∃ s1 s2,
    sampleHandle (valueUpdate val) publishedState = Some s1 ∧
    sampleHandle (valueUpdate val) s1 = Some s2 ∧
    InfraIR s2 = InfraIR s1 ∧ ProviderResources s2 = ProviderResources s1.
Proof.
  intros val.
  assert (generationPanics sampleTranslate val = false) as Hret by reflexivity.
  exact (conj Hret (same_snapshot_twice_stores (λ st : SampleStatus, st) sampleTranslate
                      val publishedState Hret)).
Defined.

Lemma run_ending_with_delete_witness :
  let updates := [valueUpdate [gatewayBundle "gw1" (ValidIR 1) (ValidIR 1)]] in
  runPanics sampleTranslate updates = false ∧
  Delete deleteUpdate = true ∧
  ∃ s', sampleRun (updates ++ [deleteUpdate]) emptyState = Some s' ∧
        InfraIR s' = ∅ ∧ ProviderResources s' = emptyStatuses.
Proof.
  intros updates.
  assert (runPanics sampleTranslate updates = false) as Hret by reflexivity.
  assert (Delete deleteUpdate = true) as Hdel by reflexivity.
  split; [exact Hret|]. split; [exact Hdel|].
  destruct (run_ending_with_delete (λ st : SampleStatus, st) sampleTranslate
              updates deleteUpdate emptyState Hret Hdel) as (s0 & s' & _ & Hs' & HI & HP & _).
  exists s'. split; [exact Hs'|]. split; [exact HI|exact HP].
Defined.

Lemma xds_entry_untouched_witness :
  let val := [gatewayBundle "gw2" (ValidIR 2) (ValidIR 2)] in
  generationPanics sampleTranslate val = false ∧
  ("gw1" ∉ dom (InfraIR xdsOnlyState)) ∧
  ("gw1" ∉ generationKeys sampleTranslate gatewayapi.XdsIR val) ∧
  ∃ s',
    sampleHandle (valueUpdate val) xdsOnlyState = Some s' ∧
    XdsIR s' !! "gw1" = Some (ValidIR 1).
Proof.
  intros val.
  assert (generationPanics sampleTranslate val = false) as Hret by reflexivity.
  assert ("gw1" ∉ dom (InfraIR xdsOnlyState)) as Hinfra.
  { apply not_elem_of_dom. vm_compute. reflexivity. }
  assert ("gw1" ∉ generationKeys sampleTranslate gatewayapi.XdsIR val) as Hxds.
  { intros (X & HX & Hk)%elem_of_union_list.
    apply list_elem_of_fmap in HX as (b & -> & Hb).
    apply list_elem_of_singleton in Hb. subst b.
    apply elem_of_validKeys in Hk as (v & Hv & _).
    vm_compute in Hv. discriminate Hv. }
  split; [exact Hret|]. split; [exact Hinfra|]. split; [exact Hxds|].
  destruct (xds_entry_untouched (λ st : SampleStatus, st) sampleTranslate val
              xdsOnlyState "gw1" Hret Hinfra Hxds) as (s' & Hs' & HX).
  exists s'. split; [exact Hs'|]. rewrite HX. vm_compute. reflexivity.
Defined.

Lemma hmac_error_witness :
  sampleHmac "default" = Err "HMAC secret default/envoy-oidc-hmac not found" ∧
  ((Ok tt : result unit) = Err "HMAC secret default/envoy-oidc-hmac not found" ∨
   (∃ cfg : unit, (Ok tt : result unit) = Ok cfg ∧
      (Ok tt : result unit) = Err "HMAC secret default/envoy-oidc-hmac not found") ∨
   (∃ (cfg client : unit) e,
      (Ok tt : result unit) = Ok cfg ∧ (Ok tt : result unit) = Ok client ∧
      sampleSecretsGet client "default" "envoy-oidc-hmac" = Err e ∧
      if sampleIsNotFound e
      then "HMAC secret default/envoy-oidc-hmac not found"
           = "HMAC secret " +:+ "default" +:+ "/envoy-oidc-hmac not found"
      else "HMAC secret default/envoy-oidc-hmac not found" = e) ∨
   (∃ (cfg client : unit) secret,
      (Ok tt : result unit) = Ok cfg ∧ (Ok tt : result unit) = Ok client ∧
      sampleSecretsGet client "default" "envoy-oidc-hmac" = Ok secret ∧
      (Data secret !! "hmac-secret" = None ∨ Data secret !! "hmac-secret" = Some []) ∧
      "HMAC secret default/envoy-oidc-hmac not found"
      = "HMAC secret not found in secret " +:+ "default" +:+ "/envoy-oidc-hmac")).
Proof.
  assert (sampleHmac "default" = Err "HMAC secret default/envoy-oidc-hmac not found")
    as Herr by (vm_compute; reflexivity).
  exact (conj Herr
           (hmac_error (Ok tt) (λ _ : unit, Ok tt) sampleSecretsGet sampleIsNotFound
              "default" "HMAC secret default/envoy-oidc-hmac not found" Herr)).
Defined.

Lemma startWasmCache_sets_cache_witness :
  let h' := sampleStartWasmCache "envoy-gateway-system" sampleHost in
  bootstrap.wasmCache sampleHost = None ∧
  bootstrap.fs h' = ["/var/lib/eg/wasm"] ∧
  ∃ cache, bootstrap.wasmCache h' = Some cache ∧
           sampleHmac "envoy-gateway-system" = Ok (wasm.Salt cache.1) ∧
           sampleTLSConfig = Ok (wasm.TLSConfig cache.1) ∧
           wasm.CacheDir cache.2 = "/var/lib/eg/wasm".
Proof.
  intros h'.
  assert (bootstrap.wasmCache sampleHost = None) as Hnil by reflexivity.
  split; [exact Hnil|]. split; [vm_compute; reflexivity|].
  destruct (bootstrap.wasmCache h') as [cache|] eqn:Hcache;
    [|vm_compute in Hcache; discriminate Hcache].
  exists cache. split; [reflexivity|].
  destruct (proj1 (startWasmCache_sets_cache (Ok tt) (λ _ : unit, Ok tt) sampleSecretsGet
                     sampleIsNotFound
                     (λ certFile keyFile, Ok (certFile +:+ "+" +:+ keyFile))
                     (λ _, Ok [Byte.x63; Byte.x61])
                     [] (λ pool pem, ("ca" :: pool, true))
                     (λ dirs path isDir,
                        (if decide (path ∈ dirs) then dirs else path :: dirs, None))
                     sampleNewCache sampleStart
                     "envoy-gateway-system" sampleHost cache Hnil) Hcache)
    as (salt & config & Hsalt & Hconfig & _ & ->).
  split; [exact Hsalt|]. split; [exact Hconfig|reflexivity].
Defined.

Lemma startWasmCache_failure_witness :
  let h' := sampleStartWasmCache "default" sampleHost in
  sampleHmac "default" = Err "HMAC secret default/envoy-oidc-hmac not found" ∧
  bootstrap.wasmCache h' = None ∧
  bootstrap.Logger h'
  = [Error "HMAC secret default/envoy-oidc-hmac not found" "failed to get hmac secret"] ∧
  bootstrap.fs h' = [].
Proof.
  intros h'.
  assert (sampleHmac "default" = Err "HMAC secret default/envoy-oidc-hmac not found")
    as Herr by (vm_compute; reflexivity).
  split; [exact Herr|].
  destruct (startWasmCache_failure (Ok tt) (λ _ : unit, Ok tt) sampleSecretsGet
              sampleIsNotFound
              (λ certFile keyFile, Ok (certFile +:+ "+" +:+ keyFile))
              (λ _, Ok [Byte.x63; Byte.x61])
              [] (λ pool pem, ("ca" :: pool, true))
              (λ dirs path isDir,
                 (if decide (path ∈ dirs) then dirs else path :: dirs, None))
              sampleNewCache sampleStart
              "default" sampleHost (or_introl (ex_intro _ _ Herr))) as (Hcache & _ & _).
  split; [exact Hcache|]. split; vm_compute; reflexivity.
Defined.
